(** * ACMVITAP event-registration application: model of [app.py]

    The Flask handlers of [app.py] are embedded as state-passing functions
    over a [world] that holds the session, the three MongoDB collections,
    the flashed messages and a log of the collection operations issued.
    The Python and pymongo primitives the handlers call are modelled in the
    modules [Py] and [Mongo]. *)

From Stdlib Require Import ZArith List String Ascii Lia Bool.
From Stdlib Require Import Decimal DecimalString DecimalZ.
From stdpp Require Import base option strings gmap list.

Set Warnings "-register-all".

Local Open Scope string_scope.
Local Open Scope Z_scope.

(** ** Python values and primitives *)

Module Py.

(** [datetime.datetime], naive (no tzinfo), as [app.py] builds them. *)
Record datetime := Datetime {
  year : Z; month : Z; day : Z;
  hour : Z; minute : Z; second : Z; microsecond : Z
}.

(** [bson.ObjectId]: its bytes, kept as their lowercase hex digits (what
    [str(oid)] returns): 24 digits for the 12 bytes of a generated id. *)
Definition oid := string.

(** The values that occur in forms, documents and template contexts. A
    [dict] keeps insertion order, as Python's does. *)
Inductive value :=
| VNone
| VBool (b : bool)
| VInt (z : Z)
| VStr (s : string)
| VDatetime (t : datetime)
| VObjectId (o : oid)
| VList (l : list value)
| VDict (d : list (string * value)).

Definition dict := list (string * value).

(** [request.form]: a multi-dict of submitted fields; [get] and [in] see the
    first value of a key. *)
Definition form := list (string * string).

Inductive exn :=
| ValueError
| TypeError
| KeyError (k : string)
| InvalidId
| OverflowError
| DuplicateKeyError
| OperationFailure.

(** *** Strings *)

(** [not s] for a [str]. *)
Definition str_empty (s : string) : bool :=
  match s with EmptyString => true | String _ _ => false end.

(** [str.isspace] on one character; characters are code points below 256. *)
Definition is_space (c : ascii) : bool :=
  let n := nat_of_ascii c in
  ((9 <=? n) && (n <=? 13) || (28 <=? n) && (n <=? 32)
   || (n =? 133) || (n =? 160))%nat.

Fixpoint lstrip (s : string) : string :=
  match s with
  | EmptyString => EmptyString
  | String c r => if is_space c then lstrip r else s
  end.

Fixpoint rstrip (s : string) : string :=
  match s with
  | EmptyString => EmptyString
  | String c r =>
      let r' := rstrip r in
      if is_space c && str_empty r' then EmptyString else String c r'
  end.

(** [s.strip()] *)
Definition strip (s : string) : string := rstrip (lstrip s).

(** [str(i)] and [f"{i}"] for an [int]. *)
Definition str_of_int (i : Z) : string :=
  NilEmpty.string_of_int (Z.to_int i).

Definition digit_of (c : ascii) : option Z :=
  let n := nat_of_ascii c in
  if ((48 <=? n) && (n <=? 57))%nat then Some (Z.of_nat (n - 48)) else None.

(** Digits of an integer literal: groups of digits, single underscores
    between them. Returns the number read and how many digits it had. *)
Fixpoint parse_digits (s : string) (acc : Z) (count : nat) (after_digit : bool)
  : option (Z * nat) :=
  match s with
  | EmptyString => if after_digit then Some (acc, count) else None
  | String c r =>
      match digit_of c with
      | Some d => parse_digits r (10 * acc + d) (S count) true
      | None =>
          if Ascii.eqb c "_" && after_digit
          then parse_digits r acc count false
          else None
      end
  end.

(** [sys.get_int_max_str_digits()] *)
Definition int_max_str_digits : nat := 4300.

(** The white space [int] skips around a literal: of the characters
    [str.strip] removes, not the separators U+001C to U+001F. *)
Definition is_int_space (c : ascii) : bool :=
  let n := nat_of_ascii c in
  ((9 <=? n) && (n <=? 13) || (n =? 32) || (n =? 133) || (n =? 160))%nat.

Fixpoint int_lstrip (s : string) : string :=
  match s with
  | EmptyString => EmptyString
  | String c r => if is_int_space c then int_lstrip r else s
  end.

Fixpoint int_rstrip (s : string) : string :=
  match s with
  | EmptyString => EmptyString
  | String c r =>
      let r' := int_rstrip r in
      if is_int_space c && str_empty r' then EmptyString else String c r'
  end.

(** [int(s)] for a [str]: [None] is [ValueError]. *)
Definition int_of_str (s : string) : option Z :=
  let t := int_rstrip (int_lstrip s) in
  let '(sign, body) :=
    match t with
    | String "-" r => (-1, r)
    | String "+" r => (1, r)
    | _ => (1, t)
    end in
  match parse_digits body 0 0 false with
  | Some (n, k) => if (int_max_str_digits <? k)%nat then None else Some (sign * n)
  | None => None
  end.

(** [int(v)] for the values a document field can hold. *)
Definition int_of_value (v : value) : exn + Z :=
  match v with
  | VInt z => inr z
  | VBool b => inr (if b then 1 else 0)
  | VStr s => match int_of_str s with Some z => inr z | None => inl ValueError end
  | _ => inl TypeError
  end.

(** Truth value of an object, as [if v:] tests it. *)
Definition truthy (v : value) : bool :=
  match v with
  | VNone => false
  | VBool b => b
  | VInt z => negb (z =? 0)
  | VStr s => negb (str_empty s)
  | VDatetime _ => true
  | VObjectId _ => true
  | VList l => match l with [] => false | _ => true end
  | VDict d => match d with [] => false | _ => true end
  end.

(** *** Dictionaries *)

Fixpoint dict_get (d : dict) (k : string) : option value :=
  match d with
  | [] => None
  | (k', v) :: r => if String.eqb k k' then Some v else dict_get r k
  end.

(** [d.get(k, dflt)] *)
Definition dict_get_default (d : dict) (k : string) (dflt : value) : value :=
  default dflt (dict_get d k).

(** [d[k] = v]: in place when the key is there, appended otherwise. *)
Fixpoint dict_set (d : dict) (k : string) (v : value) : dict :=
  match d with
  | [] => [(k, v)]
  | (k', v') :: r =>
      if String.eqb k k' then (k', v) :: r else (k', v') :: dict_set r k v
  end.

Definition dict_keys (d : dict) : list string := map fst d.

(** *** Forms *)

Fixpoint form_lookup (f : form) (k : string) : option string :=
  match f with
  | [] => None
  | (k', v) :: r => if String.eqb k k' then Some v else form_lookup r k
  end.

(** [request.form.get(k, dflt)] *)
Definition form_get (f : form) (k : string) (dflt : string) : string :=
  default dflt (form_lookup f k).

(** [k in request.form] *)
Definition form_mem (f : form) (k : string) : bool :=
  match form_lookup f k with Some _ => true | None => false end.

(** *** Dates *)

Definition datetime_key (t : datetime) : list Z :=
  [year t; month t; day t; hour t; minute t; second t; microsecond t].

Fixpoint lex_compare (a b : list Z) : comparison :=
  match a, b with
  | [], [] => Eq
  | [], _ :: _ => Lt
  | _ :: _, [] => Gt
  | x :: a', y :: b' =>
      match x ?= y with Eq => lex_compare a' b' | c => c end
  end.

Definition datetime_compare (s t : datetime) : comparison :=
  lex_compare (datetime_key s) (datetime_key t).

Definition datetime_ltb (s t : datetime) : bool :=
  match datetime_compare s t with Lt => true | _ => false end.

Definition datetime_leb (s t : datetime) : bool :=
  match datetime_compare s t with Gt => false | _ => true end.

(** Decimal rendering padded with zeros on the left to [width] digits. *)
Fixpoint zfill_aux (n : nat) (s : string) : string :=
  match n with O => s | S n' => String "0" (zfill_aux n' s) end.

Definition zfill (width : nat) (i : Z) : string :=
  let s := str_of_int i in
  zfill_aux (width - String.length s) s.

(** [t.isoformat()] *)
Definition isoformat (t : datetime) : string :=
  zfill 4 (year t) ++ "-" ++ zfill 2 (month t) ++ "-" ++ zfill 2 (day t)
  ++ "T" ++ zfill 2 (hour t) ++ ":" ++ zfill 2 (minute t) ++ ":"
  ++ zfill 2 (second t)
  ++ (if microsecond t =? 0 then EmptyString
      else "." ++ zfill 6 (microsecond t)).

(** *** ObjectId *)

Definition is_hex (c : ascii) : bool :=
  let n := nat_of_ascii c in
  ((48 <=? n) && (n <=? 57) || (65 <=? n) && (n <=? 70)
   || (97 <=? n) && (n <=? 102))%nat.

(** [str.lower] on one character (code points below 256). *)
Definition lower (c : ascii) : ascii :=
  let n := nat_of_ascii c in
  if ((65 <=? n) && (n <=? 90)
      || (192 <=? n) && (n <=? 222) && negb (n =? 215))%nat
  then ascii_of_nat (n + 32) else c.

Fixpoint str_map (f : ascii -> ascii) (s : string) : string :=
  match s with
  | EmptyString => EmptyString
  | String c r => String (f c) (str_map f r)
  end.

Fixpoint str_forallb (p : ascii -> bool) (s : string) : bool :=
  match s with
  | EmptyString => true
  | String c r => p c && str_forallb p r
  end.

(** The white space [bytes.fromhex] skips between two bytes. *)
Definition is_ascii_space (c : ascii) : bool :=
  let n := nat_of_ascii c in
  ((9 <=? n) && (n <=? 13) || (n =? 32))%nat.

(** [bytes.fromhex(s)], the bytes as their lowercase hex digits: pairs of
    hex digits, white space allowed between the pairs; [None] is
    [ValueError]. *)
Fixpoint fromhex (s : string) : option string :=
  match s with
  | EmptyString => Some EmptyString
  | String c r =>
      if is_ascii_space c then fromhex r
      else
        match r with
        | EmptyString => None
        | String c' r' =>
            if is_hex c && is_hex c'
            then option_map (fun h => String (lower c) (String (lower c') h))
                            (fromhex r')
            else None
        end
  end.

(** [ObjectId(s)] for a [str]: a string of 24 characters that
    [bytes.fromhex] accepts, [InvalidId] otherwise. With white space among
    the 24 characters the id has fewer than 12 bytes. *)
Definition ObjectId (s : string) : exn + oid :=
  if (String.length s =? 24)%nat
  then match fromhex s with
       | Some h => inr h
       | None => inl InvalidId
       end
  else inl InvalidId.

(** *** BSON *)

(** A [datetime] as BSON holds it: to the millisecond. *)
Definition bson_datetime (t : datetime) : datetime :=
  Datetime (year t) (month t) (day t) (hour t) (minute t) (second t)
           (microsecond t / 1000 * 1000).

(** A value as it comes back from the store. *)
Fixpoint bson_value (v : value) : value :=
  match v with
  | VDatetime t => VDatetime (bson_datetime t)
  | VList l => VList (map bson_value l)
  | VDict d => VDict (map (fun kv => (fst kv, bson_value (snd kv))) d)
  | _ => v
  end.

Definition to_bson (d : dict) : dict :=
  map (fun kv => (fst kv, bson_value (snd kv))) d.

(** *** [str] and [repr] *)

Fixpoint str_existsb (p : ascii -> bool) (s : string) : bool :=
  match s with
  | EmptyString => false
  | String c r => p c || str_existsb p r
  end.

Fixpoint join (sep : string) (l : list string) : string :=
  match l with
  | [] => EmptyString
  | [x] => x
  | x :: r => x ++ sep ++ join sep r
  end.

Definition dquote : ascii := "034".
Definition squote : ascii := "039".
Definition backslash : ascii := "092".

Definition hex_digit (n : nat) : ascii :=
  if (n <? 10)%nat then ascii_of_nat (48 + n) else ascii_of_nat (87 + n).

(** How [repr] writes one character of a [str] delimited by [q]. *)
Definition repr_char (q c : ascii) : string :=
  let n := nat_of_ascii c in
  if Ascii.eqb c q || Ascii.eqb c backslash
  then String backslash (String c EmptyString)
  else if (n =? 9)%nat then String backslash "t"
  else if (n =? 10)%nat then String backslash "n"
  else if (n =? 13)%nat then String backslash "r"
  else if ((n <? 32) || (127 <=? n) && (n <=? 160) || (n =? 173))%nat
  then String backslash
         (String "x" (String (hex_digit (n / 16)) (String (hex_digit (n mod 16))
            EmptyString)))
  else String c EmptyString.

Fixpoint repr_chars (q : ascii) (s : string) : string :=
  match s with
  | EmptyString => EmptyString
  | String c r => repr_char q c ++ repr_chars q r
  end.

(** [repr(s)] for a [str]. *)
Definition repr_str (s : string) : string :=
  let q := if str_existsb (Ascii.eqb squote) s
              && negb (str_existsb (Ascii.eqb dquote) s)
           then dquote else squote in
  String q (repr_chars q s ++ String q EmptyString).

Definition repr_datetime (t : datetime) : string :=
  "datetime.datetime(" ++ str_of_int (year t) ++ ", " ++ str_of_int (month t)
  ++ ", " ++ str_of_int (day t) ++ ", " ++ str_of_int (hour t) ++ ", "
  ++ str_of_int (minute t)
  ++ (if microsecond t =? 0
      then if second t =? 0 then EmptyString else ", " ++ str_of_int (second t)
      else ", " ++ str_of_int (second t) ++ ", " ++ str_of_int (microsecond t))
  ++ ")".

(** [repr(v)] *)
Fixpoint py_repr (v : value) : string :=
  match v with
  | VNone => "None"
  | VBool b => if b then "True" else "False"
  | VInt z => str_of_int z
  | VStr s => repr_str s
  | VDatetime t => repr_datetime t
  | VObjectId o => "ObjectId('" ++ o ++ "')"
  | VList l => "[" ++ join ", " (map py_repr l) ++ "]"
  | VDict d =>
      "{" ++ join ", " (map (fun kv => match kv with
                                       | (k, x) => repr_str k ++ ": " ++ py_repr x
                                       end) d) ++ "}"
  end.

(** [str(v)] *)
Definition py_str (v : value) : string :=
  match v with
  | VStr s => s
  | VObjectId o => o
  | VDatetime t =>
      zfill 4 (year t) ++ "-" ++ zfill 2 (month t) ++ "-" ++ zfill 2 (day t)
      ++ " " ++ zfill 2 (hour t) ++ ":" ++ zfill 2 (minute t) ++ ":"
      ++ zfill 2 (second t)
      ++ (if microsecond t =? 0 then EmptyString
          else "." ++ zfill 6 (microsecond t))
  | _ => py_repr v
  end.

(** *** [io.BytesIO] and [csv.writer] *)

(** What is handed to a file object's [write]. *)
Inductive payload :=
| PStr (s : string)
| PBytes (b : string).

(** [BytesIO.write]: the buffer takes bytes only. *)
Definition BytesIO_write (buf : string) (p : payload) : exn + string :=
  match p with
  | PBytes b => inr (buf ++ b)
  | PStr _ => inl TypeError
  end.

Definition crlf : string := String "013" (String "010" EmptyString).

Definition csv_special (c : ascii) : bool :=
  Ascii.eqb c "," || Ascii.eqb c dquote || Ascii.eqb c "013" || Ascii.eqb c "010".

Fixpoint csv_double_quotes (s : string) : string :=
  match s with
  | EmptyString => EmptyString
  | String c r =>
      if Ascii.eqb c dquote
      then String c (String c (csv_double_quotes r))
      else String c (csv_double_quotes r)
  end.

(** One field under the default dialect (minimal quoting). *)
Definition csv_field (v : value) : string :=
  let s := match v with VNone => EmptyString | _ => py_str v end in
  if str_existsb csv_special s
  then String dquote (csv_double_quotes s ++ String dquote EmptyString)
  else s.

Definition csv_line (row : list value) : string :=
  match map csv_field row with
  | [EmptyString] => String dquote (String dquote crlf)
  | fields => join "," fields ++ crlf
  end.

(** [csv.writer(f).writerow(row)] with [f] a [BytesIO]: the line is built
    as a [str] and passed to [f.write]. *)
Definition csv_writerow (buf : string) (row : list value) : exn + string :=
  BytesIO_write buf (PStr (csv_line row)).

End Py.

(** ** pymongo collections *)

Module Mongo.
Import Py.
Local Open Scope list_scope.

(** A collection: its documents in natural (insertion) order and the fields
    that carry a unique index. *)
Record collection := Collection {
  docs : list dict;
  unique_fields : list string
}.

(** One clause of a query document. *)
Inductive cond :=
| Equals (v : value)                        (* {k: v} *)
| GteLt (lo : datetime) (hi : datetime).    (* {k: {"$gte": lo, "$lt": hi}} *)

Definition filter := list (string * cond).

Definition scalar_eqb (a b : value) : bool :=
  match a, b with
  | VNone, VNone => true
  | VBool x, VBool y => Bool.eqb x y
  | VInt x, VInt y => x =? y
  | VStr x, VStr y => String.eqb x y
  | VDatetime x, VDatetime y =>
      match datetime_compare x y with Eq => true | _ => false end
  | VObjectId x, VObjectId y => String.eqb x y
  | _, _ => false
  end.

(** A field matches a value when it equals it or is an array holding it;
    an absent field matches null. *)
Definition field_equals (fld : option value) (v : value) : bool :=
  match fld with
  | None => scalar_eqb VNone v
  | Some (VList l) => existsb (fun x => scalar_eqb x v) l
  | Some x => scalar_eqb x v
  end.

(** [{"$gte": lo, "$lt": hi}] on one value; the bounds reach the server
    as BSON, to the millisecond. *)
Definition in_range (lo hi : datetime) (x : value) : bool :=
  match x with
  | VDatetime t =>
      datetime_leb (bson_datetime lo) t && datetime_ltb t (bson_datetime hi)
  | _ => false
  end.

Definition field_in_range (fld : option value) (lo hi : datetime) : bool :=
  match fld with
  | None => false
  | Some (VList l) => existsb (in_range lo hi) l
  | Some x => in_range lo hi x
  end.

Definition matches (q : filter) (d : dict) : bool :=
  forallb (fun c =>
    match c with
    | (k, Equals v) => field_equals (dict_get d k) v
    | (k, GteLt lo hi) => field_in_range (dict_get d k) lo hi
    end) q.

(** [find(q)] *)
Definition find (c : collection) (q : filter) : list dict :=
  List.filter (matches q) (docs c).

(** [find_one(q)] *)
Definition find_one (c : collection) (q : filter) : option dict :=
  List.find (matches q) (docs c).

(** [count_documents(q)] *)
Definition count_documents (c : collection) (q : filter) : Z :=
  Z.of_nat (List.length (find c q)).

(** BSON comparison order of the types, then of the values of one type. *)
Definition bson_rank (v : value) : Z :=
  match v with
  | VNone => 1 | VInt _ => 2 | VStr _ => 3 | VDict _ => 4 | VList _ => 5
  | VObjectId _ => 7 | VBool _ => 8 | VDatetime _ => 9
  end.

Definition bson_compare (a b : value) : comparison :=
  match a, b with
  | VInt x, VInt y => x ?= y
  | VStr x, VStr y => String.compare x y
  | VObjectId x, VObjectId y => String.compare x y
  | VBool x, VBool y => Bool.compare x y
  | VDatetime x, VDatetime y => datetime_compare x y
  | _, _ => bson_rank a ?= bson_rank b
  end.

Definition sort_key (k : string) (d : dict) : value :=
  dict_get_default d k VNone.

Fixpoint insert_desc (k : string) (x : dict) (l : list dict) : list dict :=
  match l with
  | [] => [x]
  | y :: r =>
      match bson_compare (sort_key k x) (sort_key k y) with
      | Lt => y :: insert_desc k x r
      | _ => x :: l
      end
  end.

(** [cursor.sort(k, -1)]: descending on [k], ties in natural order. *)
Definition sort_desc (k : string) (l : list dict) : list dict :=
  fold_right (insert_desc k) [] l.

(** What the BSON encoder accepts: integers of at most 8 bytes. *)
Fixpoint encodable (v : value) : bool :=
  match v with
  | VInt z => (- 2 ^ 63 <=? z) && (z <? 2 ^ 63)
  | VList l => forallb encodable l
  | VDict d => forallb (fun kv => match kv with (_, x) => encodable x end) d
  | _ => true
  end.

Definition dict_encodable (d : dict) : bool :=
  forallb (fun kv => encodable (snd kv)) d.

(** Does [d] collide with a document of [others] on one of the uniquely
    indexed fields [uniq]? *)
Definition collides (uniq : list string) (others : list dict) (d : dict) : bool :=
  existsb (fun k =>
    existsb (fun d' =>
      scalar_eqb (sort_key k d) (sort_key k d')) others) uniq.

(** [insert_one(d)]: a document without [_id] gets the fresh one, as its
    first field; [_id] is always uniquely indexed. The collection holds the
    document as BSON. Returns the inserted id. *)
Definition insert_one (c : collection) (d : dict) (fresh : oid)
  : (exn + value) * collection :=
  let d0 := match dict_get d "_id" with
            | Some _ => d
            | None => ("_id", VObjectId fresh) :: d
            end in
  if negb (dict_encodable d0) then (inl OverflowError, c)
  else
    let d' := to_bson d0 in
    if collides ("_id" :: unique_fields c) (docs c) d'
    then (inl DuplicateKeyError, c)
    else (inr (sort_key "_id" d'),
          {| docs := docs c ++ [d']; unique_fields := unique_fields c |}).

(** The [$set] update operator. *)
Definition apply_set (d upd : dict) : dict :=
  fold_left (fun acc kv => dict_set acc (fst kv) (snd kv)) upd d.

Fixpoint update_first (q : filter) (upd : dict) (uniq : list string)
    (before rest : list dict) : exn + (Z * list dict) :=
  match rest with
  | [] => inr (0, before)
  | d :: r =>
      if matches q d then
        let d' := apply_set d upd in
        if collides uniq (before ++ r) d' then inl DuplicateKeyError
        else inr (1, before ++ d' :: r)
      else update_first q upd uniq (before ++ [d]) r
  end.

(** [update_one(q, {"$set": upd})]: the fields are set to their BSON
    values. Returns [matched_count]. *)
Definition update_one (c : collection) (q : filter) (upd : dict)
  : (exn + Z) * collection :=
  if negb (dict_encodable upd) then (inl OverflowError, c)
  else match update_first q (to_bson upd) (unique_fields c) [] (docs c) with
       | inl e => (inl e, c)
       | inr (n, l) => (inr n, {| docs := l; unique_fields := unique_fields c |})
       end.

Fixpoint remove_first (q : filter) (l : list dict) : Z * list dict :=
  match l with
  | [] => (0, [])
  | d :: r =>
      if matches q d then (1, r)
      else let '(n, r') := remove_first q r in (n, d :: r')
  end.

(** [delete_one(q)]; returns [deleted_count]. *)
Definition delete_one (c : collection) (q : filter) : Z * collection :=
  let '(n, l) := remove_first q (docs c) in
  (n, {| docs := l; unique_fields := unique_fields c |}).

End Mongo.

(** ** The application state and the Flask interface *)

Import Py.

Inductive coll_name := Events | Teams | Legacy.

(** One call on a collection, as recorded in the operation log. *)
Inductive db_op :=
| DbFind (c : coll_name)
| DbFindOne (c : coll_name)
| DbCount (c : coll_name)
| DbInsert (c : coll_name)
| DbUpdate (c : coll_name)
| DbDelete (c : coll_name).

(** A message shown to the user: a literal, or an f-string that ends in the
    text of an exception. *)
Inductive message :=
| Msg (s : string)
| MsgExc (prefix : string) (e : exn).

Record world := World {
  session : gmap string value;          (* flask.session *)
  events_collection : Mongo.collection; (* db["events"] *)
  teams_collection : Mongo.collection;  (* db["registrations"] *)
  legacy_collection : Mongo.collection; (* db["hackathon_workshop"] *)
  flashes : list (string * message);    (* flash(message, category) *)
  oplog : list db_op
}.

Inductive http_method := GET | POST.

Record request := Request {
  method : http_method;
  form : Py.form;      (* request.form *)
  args : Py.form       (* request.args *)
}.

(** What a handler reads from outside the request. *)
Record env := Env {
  utcnow : datetime;             (* datetime.utcnow() *)
  new_oid : oid;                 (* the ObjectId an insert generates *)
  environ : gmap string string   (* os.environ *)
}.

Inductive ctxval :=
| CVal (v : value)
| CForm (f : Py.form)
| CMsg (m : message).

Inductive response :=
| Redirect (endpoint : string)                      (* redirect(url_for(endpoint)) *)
| Text (body : string) (status : Z)
| Render (template : string) (ctx : list (string * ctxval)) (status : Z)
| Jsonify (d : dict)
| SendFile (data : string) (download_name : string) (mimetype : option string)
| Uncaught (e : exn).                               (* propagates out of the view *)

Definition handler := request -> env -> world -> response * world.

Definition get_coll (n : coll_name) (w : world) : Mongo.collection :=
  match n with
  | Events => events_collection w
  | Teams => teams_collection w
  | Legacy => legacy_collection w
  end.

Definition put_coll (n : coll_name) (c : Mongo.collection) (w : world) : world :=
  match n with
  | Events => World (session w) c (teams_collection w) (legacy_collection w)
                    (flashes w) (oplog w)
  | Teams => World (session w) (events_collection w) c (legacy_collection w)
                   (flashes w) (oplog w)
  | Legacy => World (session w) (events_collection w) (teams_collection w) c
                    (flashes w) (oplog w)
  end.

Definition log (o : db_op) (w : world) : world :=
  World (session w) (events_collection w) (teams_collection w)
        (legacy_collection w) (flashes w) (oplog w ++ [o])%list.

Definition set_session (s : gmap string value) (w : world) : world :=
  World s (events_collection w) (teams_collection w) (legacy_collection w)
        (flashes w) (oplog w).

(** [flash(m, category)] *)
Definition flash (m : message) (category : string) (w : world) : world :=
  World (session w) (events_collection w) (teams_collection w)
        (legacy_collection w) (flashes w ++ [(category, m)])%list (oplog w).

Definition db_find (n : coll_name) (q : Mongo.filter) (w : world)
  : list dict * world :=
  (Mongo.find (get_coll n w) q, log (DbFind n) w).

Definition db_find_one (n : coll_name) (q : Mongo.filter) (w : world)
  : option dict * world :=
  (Mongo.find_one (get_coll n w) q, log (DbFindOne n) w).

Definition db_count_documents (n : coll_name) (q : Mongo.filter) (w : world)
  : Z * world :=
  (Mongo.count_documents (get_coll n w) q, log (DbCount n) w).

Definition db_insert_one (n : coll_name) (d : dict) (fresh : oid) (w : world)
  : (exn + value) * world :=
  let '(r, c) := Mongo.insert_one (get_coll n w) d fresh in
  (r, log (DbInsert n) (put_coll n c w)).

Definition db_update_one (n : coll_name) (q : Mongo.filter) (upd : dict)
    (w : world) : (exn + Z) * world :=
  let '(r, c) := Mongo.update_one (get_coll n w) q upd in
  (r, log (DbUpdate n) (put_coll n c w)).

Definition db_delete_one (n : coll_name) (q : Mongo.filter) (w : world)
  : Z * world :=
  let '(r, c) := Mongo.delete_one (get_coll n w) q in
  (r, log (DbDelete n) (put_coll n c w)).

(** [range(lo, hi)] *)
Definition py_range (lo hi : Z) : list Z :=
  map (fun k => lo + Z.of_nat k) (seq 0 (Z.to_nat (hi - lo))).

(** ** [app.py] *)

(** [doc_to_json]: the [_id] as a string, every top-level datetime in ISO
    format. *)
Definition doc_to_json (doc : dict) : dict :=
  match doc with
  | [] => doc
  | _ =>
      let doc1 := match dict_get doc "_id" with
                  | Some i => dict_set doc "_id" (VStr (py_str i))
                  | None => doc
                  end in
      map (fun kv => match kv with
                     | (k, VDatetime t) => (k, VStr (isoformat t))
                     | _ => kv
                     end) doc1
  end.

Definition docs_to_json (l : list dict) : value :=
  VList (map (fun d => VDict (doc_to_json d)) l).

(** [admin_required]: the guard every admin view is wrapped in. *)
Definition admin_required (f : handler) : handler :=
  fun req e w =>
    match session w !! "admin" with
    | None => (Redirect "admin_login", w)
    | Some _ => f req e w
    end.

Definition team_register_root : handler :=
  fun _ _ w => (Redirect "choose_event", w).

Definition choose_event : handler :=
  fun _ _ w =>
    let '(found, w1) := db_find Events [("active", Mongo.Equals (VBool true))] w in
    let events := docs_to_json (Mongo.sort_desc "created_at" found) in
    (Render "choose_event.html" [("events", CVal events)] 200, w1).

Definition member_key (i : Z) (field : string) : string :=
  "member_" ++ str_of_int i ++ "_" ++ field.

(** The field of position [i] as the handlers read it: the form value under
    the member key, the empty string when absent, stripped. *)
Definition member_field (f : Py.form) (i : Z) (field : string) : string :=
  strip (form_get f (member_key i field) EmptyString).

Definition member_record (name email reg_no : string) : value :=
  VDict [("name", VStr name); ("email", VStr email); ("reg_no", VStr reg_no)].

Definition member_at (f : Py.form) (i : Z) : value :=
  member_record (member_field f i "name") (member_field f i "email")
                (member_field f i "reg_no").

Definition missing_required_message (i : Z) : string :=
  "Member " ++ str_of_int i ++ " name and email are required.".

(** The loop of [team_register] over the member positions; returns
    [members] and [missing_required] as the loop leaves them. *)
Fixpoint gather_members (f : Py.form) (min_members : Z) (positions : list Z)
    (members : list value) : list value * option string :=
  match positions with
  | [] => (members, None)
  | i :: rest =>
      let name := member_field f i "name" in
      let email := member_field f i "email" in
      let reg_no := member_field f i "reg_no" in
      if (i <=? min_members) && (str_empty name || str_empty email)
      then (members, Some (missing_required_message i))
      else if negb (str_empty name) || negb (str_empty email)
              || negb (str_empty reg_no) || (i <=? min_members)
           then gather_members f min_members rest
                  (members ++ [member_record name email reg_no])%list
           else gather_members f min_members rest members
  end.

Definition register_page (event : dict) (error : message) (f : Py.form)
    (status : Z) : response :=
  Render "team_register.html"
         [("event", CVal (VDict event)); ("error", CMsg error); ("form", CForm f)]
         status.

(** The [POST] branch of [team_register], for the event document found. *)
Definition team_register_post (event : dict) : handler :=
  fun req e w =>
    let f := form req in
    let require_team_name :=
      dict_get_default event "require_team_name" (VBool false) in
    match int_of_value (dict_get_default event "min_members" (VInt 1)) with
    | inl x => (Uncaught x, w)
    | inr min_members =>
    match int_of_value (dict_get_default event "max_members" (VInt 1)) with
    | inl x => (Uncaught x, w)
    | inr max_members =>
    let '(members, missing_required) :=
      gather_members f min_members (py_range 1 (max_members + 1)) [] in
    match missing_required with
    | Some msg => (register_page event (Msg msg) f 400, w)
    | None =>
    let team_lead_name := strip (form_get f "team_lead_name" EmptyString) in
    let team_lead_email := strip (form_get f "team_lead_email" EmptyString) in
    if str_empty team_lead_name || str_empty team_lead_email
    then (register_page event (Msg "Team lead name and email are required.") f 400, w)
    else
    let team_name_field :=
      if truthy require_team_name
      then VStr (strip (form_get f "team_name" EmptyString))
      else VNone in
    if truthy require_team_name && negb (truthy team_name_field)
    then (register_page event (Msg "Team name is required for this event.") f 400, w)
    else
    match dict_get event "_id" with
    | None => (Uncaught (KeyError "_id"), w)
    | Some event_id =>
    match dict_get event "event_name" with
    | None => (Uncaught (KeyError "event_name"), w)
    | Some event_name =>
    let reg_doc :=
      [("event_id", event_id);
       ("event_name", event_name);
       ("team_name", team_name_field);
       ("team_lead_name", VStr team_lead_name);
       ("team_lead_email", VStr team_lead_email);
       ("team_lead_phone", VStr (strip (form_get f "team_lead_phone" EmptyString)));
       ("team_lead_reg_no", VStr (strip (form_get f "team_lead_reg_no" EmptyString)));
       ("members", VList members);
       ("created_at", VDatetime (utcnow e))] in
    match db_insert_one Teams reg_doc (new_oid e) w with
    | (inr inserted_id, w1) =>
        let '(inserted, w2) :=
          db_find_one Teams [("_id", Mongo.Equals inserted_id)] w1 in
        let data := match inserted with
                    | Some d => VDict (doc_to_json d)
                    | None => VNone
                    end in
        (Render "download_info.html" [("data", CVal data)] 200, w2)
    | (inl x, w1) =>
        (register_page event (MsgExc "An error occurred: " x) f 500, w1)
    end end end end end end.

(** [team_register]: the registration route, with or without an event id. *)
Definition team_register (event_id : option string) : handler :=
  fun req e w =>
    match event_id with
    | None | Some EmptyString => (Redirect "choose_event", w)
    | Some id =>
        let '(event_doc, w1) :=
          match ObjectId id with
          | inr o => db_find_one Events [("_id", Mongo.Equals (VObjectId o))] w
          | inl _ => (None, w)
          end in
        match event_doc with
        | None | Some [] => (Text "Invalid event" 404, w1)
        | Some doc =>
            let event := doc_to_json doc in
            match method req with
            | POST => team_register_post event req e w1
            | GET => (Render "team_register.html" [("event", CVal (VDict event))] 200, w1)
            end
        end
    end.

(** *** Admin authentication *)

Definition getenv (e : env) (k dflt : string) : string :=
  default dflt (environ e !! k).

Definition admin_login : handler :=
  fun req e w =>
    match method req with
    | POST =>
        let username := form_get (form req) "username" EmptyString in
        let password := form_get (form req) "password" EmptyString in
        let ADMIN_USER := getenv e "ADMIN_USER" "admin" in
        let ADMIN_PASS := getenv e "ADMIN_PASS" "acmvitap" in
        if String.eqb username ADMIN_USER && String.eqb password ADMIN_PASS
        then (Redirect "admin_dashboard",
              set_session (<["admin" := VBool true]> (session w)) w)
        else (Render "admin_login.html"
                     [("error", CMsg (Msg "Invalid credentials. Try again."))] 200, w)
    | GET => (Render "admin_login.html" [] 200, w)
    end.

Definition admin_dashboard : handler :=
  admin_required (fun _ _ w => (Render "admin_dashboard.html" [] 200, w)).

(** [session.pop('admin', None)], then back to the home page. *)
Definition logout : handler :=
  fun _ _ w => (Redirect "home", set_session (delete "admin" (session w)) w).

(** *** Admin: events *)

(** [max(1, int(request.form.get('min_members', 1)))], 1 on [ValueError]. *)
Definition read_min_members (f : Py.form) : Z :=
  match form_lookup f "min_members" with
  | None => Z.max 1 1
  | Some s =>
      match int_of_str s with
      | Some z => Z.max 1 z
      | None => 1
      end
  end.

(** [max(min_members, int(request.form.get('max_members', min_members)))],
    [min_members] on [ValueError]. *)
Definition read_max_members (f : Py.form) (min_members : Z) : Z :=
  match form_lookup f "max_members" with
  | None => Z.max min_members min_members
  | Some s =>
      match int_of_str s with
      | Some z => Z.max min_members z
      | None => min_members
      end
  end.

(** [request.form.get(k) == 'on'] *)
Definition checkbox (f : Py.form) (k : string) : bool :=
  match form_lookup f k with
  | Some s => String.eqb s "on"
  | None => false
  end.

Definition admin_events_view : handler :=
  fun req e w =>
    match method req with
    | POST =>
        let f := form req in
        let event_name := strip (form_get f "event_name" EmptyString) in
        let require_team_name := checkbox f "require_team_name" in
        let min_members := read_min_members f in
        let max_members := read_max_members f min_members in
        let doc :=
          [("event_name", VStr event_name);
           ("require_team_name", VBool require_team_name);
           ("min_members", VInt min_members);
           ("max_members", VInt max_members);
           ("active", VBool true);
           ("created_at", VDatetime (utcnow e))] in
        let w2 :=
          match db_insert_one Events doc (new_oid e) w with
          | (inr _, w1) => flash (Msg "Event created.") "success" w1
          | (inl DuplicateKeyError, w1) =>
              flash (Msg "Event name already exists.") "error" w1
          | (inl x, w1) => flash (MsgExc "Error: " x) "error" w1
          end in
        (Redirect "admin_events", w2)
    | GET =>
        let '(found, w1) := db_find Events [] w in
        let events := docs_to_json (Mongo.sort_desc "created_at" found) in
        (Render "admin_events.html" [("events", CVal events)] 200, w1)
    end.

Definition admin_events : handler := admin_required admin_events_view.

Definition admin_edit_event_view (event_id : string) : handler :=
  fun req e w =>
    match ObjectId event_id with
    | inl _ =>
        (Redirect "admin_events", flash (Msg "Invalid event id.") "error" w)
    | inr o =>
        let q := [("_id", Mongo.Equals (VObjectId o))] in
        let '(event, w1) := db_find_one Events q w in
        match event with
        | None | Some [] =>
            (Redirect "admin_events", flash (Msg "Event not found.") "error" w1)
        | Some ev =>
            match method req with
            | POST =>
                let f := form req in
                let event_name := strip (form_get f "event_name" EmptyString) in
                let require_team_name := checkbox f "require_team_name" in
                let min_members := read_min_members f in
                let max_members := read_max_members f min_members in
                let active := checkbox f "active" in
                let update :=
                  [("event_name", VStr event_name);
                   ("require_team_name", VBool require_team_name);
                   ("min_members", VInt min_members);
                   ("max_members", VInt max_members);
                   ("active", VBool active);
                   ("updated_at", VDatetime (utcnow e))] in
                let w3 :=
                  match db_update_one Events q update w1 with
                  | (inr _, w2) => flash (Msg "Event updated.") "success" w2
                  | (inl DuplicateKeyError, w2) =>
                      flash (Msg "Event name conflicts with existing event.")
                            "error" w2
                  | (inl x, w2) => flash (MsgExc "Error: " x) "error" w2
                  end in
                (Redirect "admin_events", w3)
            | GET =>
                (Render "admin_edit_event.html"
                        [("event", CVal (VDict (doc_to_json ev)))] 200, w1)
            end
        end
    end.

Definition admin_edit_event (event_id : string) : handler :=
  admin_required (admin_edit_event_view event_id).

Definition admin_delete_event_view (event_id : string) : handler :=
  fun _ _ w =>
    match ObjectId event_id with
    | inl _ =>
        (Redirect "admin_events", flash (Msg "Invalid event id.") "error" w)
    | inr o =>
        let '(_, w1) := db_delete_one Events [("_id", Mongo.Equals (VObjectId o))] w in
        (Redirect "admin_events", flash (Msg "Event deleted.") "success" w1)
    end.

Definition admin_delete_event (event_id : string) : handler :=
  admin_required (admin_delete_event_view event_id).

(** *** Admin: registered teams *)

Definition view_registered_teams_view : handler :=
  fun _ _ w =>
    let '(found, w1) := db_find Teams [] w in
    let teams := docs_to_json (Mongo.sort_desc "created_at" found) in
    (Render "registered_details.html" [("teams", CVal teams)] 200, w1).

Definition view_registered_teams : handler :=
  admin_required view_registered_teams_view.

Definition admin_view_team_view (team_id : string) : handler :=
  fun _ _ w =>
    match ObjectId team_id with
    | inl _ => (Redirect "admin_teams", flash (Msg "Invalid team id.") "error" w)
    | inr o =>
        let '(team, w1) := db_find_one Teams [("_id", Mongo.Equals (VObjectId o))] w in
        match team with
        | None | Some [] =>
            (Redirect "admin_teams", flash (Msg "Team not found.") "error" w1)
        | Some t =>
            (Render "edit_team.html"
                    [("team", CVal (VDict (doc_to_json t)));
                     ("view_only", CVal (VBool true))] 200, w1)
        end
    end.

Definition admin_view_team (team_id : string) : handler :=
  admin_required (admin_view_team_view team_id).

(** The [while True] loop of [admin_edit_team] from position [i] on; [None]
    when [fuel] iterations were not enough to reach the [break]. *)
Fixpoint edit_members_loop (fuel : nat) (f : Py.form) (i : Z)
    (members : list value) : option (list value) :=
  match fuel with
  | O => None
  | S fuel' =>
      let key_name := member_key i "name" in
      if negb (form_mem f key_name) then Some members
      else
        let name := strip (form_get f key_name EmptyString) in
        let email := member_field f i "email" in
        let reg := member_field f i "reg_no" in
        if negb (str_empty name) || negb (str_empty email) || negb (str_empty reg)
        then edit_members_loop fuel' f (i + 1)
               (members ++ [member_record name email reg])%list
        else edit_members_loop fuel' f (i + 1) members
  end.

(** The members the loop collects. A form of [n] fields makes the loop break
    within [n + 1] iterations ([edit_members_loop_total]), so the default is
    never taken. *)
Definition edit_members (f : Py.form) : list value :=
  default [] (edit_members_loop (S (List.length f)) f 1 []).

(** The [$set] document [admin_edit_team] builds. *)
Definition edit_team_data (f : Py.form) (now : datetime) : dict :=
  let data :=
    [("team_name", VStr (strip (form_get f "team_name" EmptyString)));
     ("team_lead_name", VStr (strip (form_get f "team_lead_name" EmptyString)));
     ("team_lead_email", VStr (strip (form_get f "team_lead_email" EmptyString)));
     ("team_lead_phone", VStr (strip (form_get f "team_lead_phone" EmptyString)));
     ("team_lead_reg_no", VStr (strip (form_get f "team_lead_reg_no" EmptyString)));
     ("updated_at", VDatetime now)] in
  let members := edit_members f in
  match members with
  | [] => data
  | _ => dict_set data "members" (VList members)
  end.

Definition admin_edit_team_view (team_id : string) : handler :=
  fun req e w =>
    match ObjectId team_id with
    | inl _ => (Redirect "admin_teams", flash (Msg "Invalid team id.") "error" w)
    | inr o =>
        let q := [("_id", Mongo.Equals (VObjectId o))] in
        match method req with
        | POST =>
            let data := edit_team_data (form req) (utcnow e) in
            let w2 :=
              match db_update_one Teams q data w with
              | (inr matched_count, w1) =>
                  if matched_count =? 0
                  then flash (Msg "Team not found.") "error" w1
                  else flash (Msg "Team updated successfully.") "success" w1
              | (inl x, w1) => flash (MsgExc "Error updating team: " x) "error" w1
              end in
            (Redirect "admin_teams", w2)
        | GET =>
            let '(team, w1) := db_find_one Teams q w in
            match team with
            | None | Some [] =>
                (Redirect "admin_teams", flash (Msg "Team not found.") "error" w1)
            | Some t =>
                (Render "edit_team.html"
                        [("team", CVal (VDict (doc_to_json t)));
                         ("view_only", CVal (VBool false))] 200, w1)
            end
        end
    end.

Definition admin_edit_team (team_id : string) : handler :=
  admin_required (admin_edit_team_view team_id).

(** [admin_teams]: search and pagination. What the server makes of a
    [$regex] pattern with option [i] is the parameter [regex_compile]: the
    texts the pattern matches, or [None] for a pattern the server refuses. *)
Section AdminTeams.
Variable regex_compile : string -> option (string -> bool).

Definition field_regex (rx : string -> bool) (fld : option value) : bool :=
  match fld with
  | Some (VStr s) => rx s
  | Some (VList l) =>
      existsb (fun x => match x with VStr s => rx s | _ => false end) l
  | _ => false
  end.

Definition members_regex (rx : string -> bool) (k : string)
    (fld : option value) : bool :=
  match fld with
  | Some (VList l) =>
      existsb (fun x => match x with
                        | VDict m => field_regex rx (dict_get m k)
                        | _ => false
                        end) l
  | Some (VDict m) => field_regex rx (dict_get m k)
  | _ => false
  end.

(** The [$or] of the six [$regex] clauses. *)
Definition team_search (rx : string -> bool) (d : dict) : bool :=
  field_regex rx (dict_get d "team_name")
  || field_regex rx (dict_get d "team_lead_name")
  || field_regex rx (dict_get d "team_lead_email")
  || field_regex rx (dict_get d "team_lead_reg_no")
  || members_regex rx "name" (dict_get d "members")
  || members_regex rx "email" (dict_get d "members").

Definition int_arg (a : Py.form) (k : string) (dflt : Z) : option Z :=
  match form_lookup a k with
  | None => Some dflt
  | Some s => int_of_str s
  end.

(** The documents [mongo_filter] selects: all of them for an empty [q];
    [None] when the server refuses the pattern. *)
Definition team_selection (q : string) (l : list dict) : option (list dict) :=
  if str_empty q then Some l
  else match regex_compile q with
       | Some rx => Some (List.filter (team_search rx) l)
       | None => None
       end.

Definition admin_teams_view : handler :=
  fun req _ w =>
    let q := strip (form_get (args req) "q" EmptyString) in
    let '(page, per_page) :=
      match int_arg (args req) "page" 1 with
      | Some p =>
          match int_arg (args req) "per_page" 10 with
          | Some pp => (Z.max 1 p, Z.max 5 pp)
          | None => (1, 10)
          end
      | None => (1, 10)
      end in
    let w1 := log (DbCount Teams) w in
    match team_selection q (Mongo.docs (teams_collection w)) with
    | None => (Uncaught OperationFailure, w1)
    | Some selected =>
        let total := Z.of_nat (List.length selected) in
        let skip := (page - 1) * per_page in
        let w2 := log (DbFind Teams) w1 in
        if Mongo.encodable (VInt skip) && Mongo.encodable (VInt per_page)
        then
          let cursor :=
            firstn (Z.to_nat per_page)
                   (skipn (Z.to_nat skip) (Mongo.sort_desc "created_at" selected)) in
          let teams := docs_to_json cursor in
          let pages := Z.max 1 ((total + per_page - 1) / per_page) in
          (Render "admin_teams.html"
                  [("teams", CVal teams); ("q", CVal (VStr q));
                   ("page", CVal (VInt page)); ("per_page", CVal (VInt per_page));
                   ("total", CVal (VInt total)); ("pages", CVal (VInt pages))] 200,
           w2)
        else (Uncaught OverflowError, w2)
    end.

Definition admin_teams : handler := admin_required admin_teams_view.
End AdminTeams.

Definition admin_delete_team_view (team_id : string) : handler :=
  fun _ _ w =>
    match ObjectId team_id with
    | inl _ => (Redirect "admin_teams", flash (Msg "Invalid team id.") "error" w)
    | inr o =>
        let '(deleted_count, w1) :=
          db_delete_one Teams [("_id", Mongo.Equals (VObjectId o))] w in
        (Redirect "admin_teams",
         if deleted_count =? 0
         then flash (Msg "Team not found or already deleted.") "error" w1
         else flash (Msg "Team deleted successfully.") "success" w1)
    end.

Definition admin_delete_team (team_id : string) : handler :=
  admin_required (admin_delete_team_view team_id).

(** *** Export *)

(** The rows of the CSV export: for each document the values under [keys],
    the empty string where a key is missing. *)
Fixpoint write_rows (keys : list string) (rows : list dict) (si : string)
  : exn + string :=
  match rows with
  | [] => inr si
  | row :: rest =>
      match csv_writerow si
              (map (fun k => dict_get_default row k (VStr EmptyString)) keys) with
      | inl x => inl x
      | inr si' => write_rows keys rest si'
      end
  end.

(** [_export_teams]. The workbook pandas writes for the other formats is the
    parameter [to_excel]. *)
Definition _export_teams (to_excel : list dict -> string) (format : string)
  : handler :=
  fun _ _ w =>
    let '(found, w1) := db_find Teams [] w in
    let teams_list := Mongo.sort_desc "created_at" found in
    let serializable := map doc_to_json teams_list in
    if String.eqb format "csv" then
      let si := EmptyString in
      let written :=
        match serializable with
        | [] => inr si
        | first :: _ =>
            let keys := dict_keys first in
            match csv_writerow si (map VStr keys) with
            | inl x => inl x
            | inr si' => write_rows keys serializable si'
            end
        end in
      match written with
      | inl x => (Uncaught x, w1)
      | inr data => (SendFile data "teams.csv" (Some "text/csv"), w1)
      end
    else (SendFile (to_excel serializable) "team_details.xlsx" None, w1).

Definition export_excel (to_excel : list dict -> string) : handler :=
  admin_required (_export_teams to_excel "excel").

Definition admin_export_teams (to_excel : list dict -> string) : handler :=
  admin_required (fun req e w =>
    let fmt := str_map lower (form_get (args req) "format" "excel") in
    _export_teams to_excel fmt req e w).

(** *** Stats *)

Definition _compute_stats (e : env) (w : world) : (Z * Z) * world :=
  let '(total, w1) := db_count_documents Teams [] w in
  let today_utc := utcnow e in
  let '(today_count, w2) :=
    db_count_documents Teams
      [("created_at",
        Mongo.GteLt
          (Datetime (year today_utc) (month today_utc) (day today_utc) 0 0 0 0)
          (Datetime (year today_utc) (month today_utc) (day today_utc)
                    23 59 59 999999))] w1 in
  ((total, today_count), w2).

Definition stats_response (e : env) (w : world) : response * world :=
  let '((total, today_count), w1) := _compute_stats e w in
  (Jsonify [("total", VInt total); ("today", VInt today_count)], w1).

Definition admin_stats : handler :=
  admin_required (fun _ e w => stats_response e w).

Definition public_stats : handler :=
  fun _ e w => stats_response e w.

Definition legacy_teams_view : handler :=
  fun _ _ w =>
    let '(found, w1) := db_find Legacy [] w in
    let docs := docs_to_json (Mongo.sort_desc "created_at" found) in
    (Render "legacy_teams.html" [("teams", CVal docs)] 200, w1).

Definition legacy_teams : handler := admin_required legacy_teams_view.

(** The views of [app.py] that carry [@admin_required]. *)
Inductive admin_route : handler -> Prop :=
| route_admin_dashboard : admin_route admin_dashboard
| route_admin_events : admin_route admin_events
| route_admin_edit_event id : admin_route (admin_edit_event id)
| route_admin_delete_event id : admin_route (admin_delete_event id)
| route_view_registered_teams : admin_route view_registered_teams
| route_admin_teams rx : admin_route (admin_teams rx)
| route_admin_view_team id : admin_route (admin_view_team id)
| route_admin_edit_team id : admin_route (admin_edit_team id)
| route_admin_delete_team id : admin_route (admin_delete_team id)
| route_export_excel xl : admin_route (export_excel xl)
| route_admin_export_teams xl : admin_route (admin_export_teams xl)
| route_admin_stats : admin_route admin_stats
| route_legacy_teams : admin_route legacy_teams.

(** [d] is the one document a request added to the registrations. *)
Definition persisted (w w' : world) (d : dict) : Prop :=
  Mongo.docs (teams_collection w') = (Mongo.docs (teams_collection w) ++ [d])%list.

(** The event a registration link resolves to, as [team_register] looks it
    up: by identifier only. *)
Definition resolve_event (event_id : string) (w : world) : option dict :=
  match ObjectId event_id with
  | inr o =>
      Mongo.find_one (events_collection w) [("_id", Mongo.Equals (VObjectId o))]
  | inl _ => None
  end.

(** A field of a serialised document, from the field of the document. *)
Definition json_field (k : string) (v : value) : value :=
  if String.eqb k "_id" then VStr (py_str v)
  else match v with VDatetime t => VStr (isoformat t) | _ => v end.

(** The test that appends position [i] to [members] in [team_register]. *)
Definition member_kept (f : Py.form) (min_members i : Z) : bool :=
  negb (str_empty (member_field f i "name"))
  || negb (str_empty (member_field f i "email"))
  || negb (str_empty (member_field f i "reg_no"))
  || (i <=? min_members).

(** The team name [team_register] stores for an event. *)
Definition stored_team_name (event : dict) (f : Py.form) : value :=
  if truthy (dict_get_default event "require_team_name" (VBool false))
  then VStr (strip (form_get f "team_name" EmptyString))
  else VNone.

(** Position [i] lacks a required field. *)
Definition missing_at (f : Py.form) (i : Z) : bool :=
  str_empty (member_field f i "name") || str_empty (member_field f i "email").

(** [l] with its first element satisfying [p] replaced by its image
    under [g]. *)
Fixpoint replace_first (p : dict -> bool) (g : dict -> dict) (l : list dict)
  : list dict :=
  match l with
  | [] => []
  | d :: r => if p d then g d :: r else d :: replace_first p g r
  end.

(** The [members] of a document are kept, or replaced by a non-empty list. *)
Definition members_kept_or_nonempty (d d' : dict) : Prop :=
  dict_get d' "members" = dict_get d "members"
  \/ exists l, l <> [] /\ dict_get d' "members" = Some (VList l).

(** A response without the event it echoes to the template. *)
Definition without_event (r : response) : response :=
  match r with
  | Render t ctx status =>
      Render t (List.filter (fun kv => negb (String.eqb (fst kv) "event")) ctx)
             status
  | _ => r
  end.

(** Modelled from the spec: the bounds an event form stands for. The
    minimum is the submitted number clamped up to 1, and 1 when nothing
    was submitted or it does not parse; the maximum is the submitted number
    clamped up to the minimum, and the minimum when nothing was submitted
    or it does not parse. *)
Definition spec_event_bounds (f : Py.form) (mn mx : Z) : Prop :=
  match form_lookup f "min_members" with
  | Some s => match int_of_str s with
              | Some z => mn = Z.max 1 z
              | None => mn = 1
              end
  | None => mn = 1
  end
  /\ match form_lookup f "max_members" with
     | Some s => match int_of_str s with
                 | Some z => mx = Z.max mn z
                 | None => mx = mn
                 end
     | None => mx = mn
     end.

(** The invariant of a stored event: [max_members >= min_members >= 1]. *)
Definition event_invariant (d : dict) : Prop :=
  exists mn mx,
    dict_get d "min_members" = Some (VInt mn)
    /\ dict_get d "max_members" = Some (VInt mx)
    /\ 1 <= mn <= mx.

(** ** Sample data *)

Module Sample.

Definition hackathon_id : string := "60c72b2f9af1c12a3c4d5e6f".
Definition workshop_id : string := "60c72b2f9af1c12a3c4d5e70".

(** The event of the scenarios of the specification, deactivated. *)
Definition hackathon : dict :=
  [("_id", VObjectId hackathon_id); ("event_name", VStr "Hackathon");
   ("require_team_name", VBool true); ("min_members", VInt 2);
   ("max_members", VInt 4); ("active", VBool false);
   ("created_at", VDatetime (Datetime 2024 1 2 3 4 5 0))].

Definition workshop : dict :=
  [("_id", VObjectId workshop_id); ("event_name", VStr "Workshop");
   ("require_team_name", VBool false); ("min_members", VInt 1);
   ("max_members", VInt 2); ("active", VBool true);
   ("created_at", VDatetime (Datetime 2024 2 1 9 0 0 0))].

Definition empty_collection : Mongo.collection := Mongo.Collection [] [].

(** Two events, no registration, nobody logged in. *)
Definition world0 : world :=
  World ∅ (Mongo.Collection [hackathon; workshop] ["event_name"])
        empty_collection empty_collection [] [].

Definition admin_world0 : world :=
  set_session (<["admin" := VBool true]> ∅) world0.

Definition env0 : env :=
  Env (Datetime 2024 3 15 12 0 0 0) "65f43a10c0ffee0000000001" ∅.

Definition two_members : Py.form :=
  [("team_name", "Bytes"); ("team_lead_name", "A");
   ("team_lead_email", "a@x.com");
   ("member_1_name", "Asha"); ("member_1_email", "asha@x.com");
   ("member_2_name", "Ravi"); ("member_2_email", "ravi@x.com");
   ("member_3_name", EmptyString); ("member_3_email", " ");
   ("member_4_name", EmptyString)].

Definition second_member_missing : Py.form :=
  [("team_name", "Bytes"); ("team_lead_name", "A");
   ("team_lead_email", "a@x.com");
   ("member_1_name", "Asha"); ("member_1_email", "asha@x.com");
   ("member_2_name", "Ravi"); ("member_2_email", "  ");
   ("member_3_name", "Kiran"); ("member_3_email", "kiran@x.com")].

Definition solo : Py.form :=
  [("team_name", "Ignored"); ("team_lead_name", "B");
   ("team_lead_email", "b@x.com");
   ("member_1_name", "Bala"); ("member_1_email", "bala@x.com")].

Definition post (f : Py.form) : request := Request POST f [].
Definition get : request := Request GET [] [].

Definition event_form : Py.form :=
  [("event_name", "Quiz"); ("min_members", "5"); ("max_members", "2")].

Definition team_id : string := "65f43a10c0ffee0000000002".

(** A stored registration with two members. *)
Definition team : dict :=
  [("_id", VObjectId team_id); ("event_id", VStr hackathon_id);
   ("event_name", VStr "Hackathon"); ("team_name", VStr "Bytes");
   ("team_lead_name", VStr "A"); ("team_lead_email", VStr "a@x.com");
   ("team_lead_phone", VStr EmptyString);
   ("team_lead_reg_no", VStr EmptyString);
   ("members", VList [member_record "Asha" "asha@x.com" EmptyString;
                      member_record "Ravi" "ravi@x.com" EmptyString]);
   ("created_at", VDatetime (Datetime 2024 3 15 23 59 59 999999))].

(** The admin is logged in and [team] is registered. *)
Definition admin_world1 : world :=
  World (<["admin" := VBool true]> ∅)
        (Mongo.Collection [hackathon; workshop] ["event_name"])
        (Mongo.Collection [team] []) empty_collection [] [].

(** The last microsecond of the day [team] was created on. *)
Definition env_late : env :=
  Env (Datetime 2024 3 15 23 59 59 999999) "65f43a10c0ffee0000000003" ∅.

Definition csv_request : request := Request GET [] [("format", "CSV")].

(** A team edit that submits no member fields. *)
Definition edit_form : Py.form :=
  [("team_name", " Bits "); ("team_lead_name", "A. Kumar");
   ("team_lead_email", "a@x.com")].

End Sample.

(** ** Static pages, index creation and the download *)

Definition home : handler :=
  fun _ _ w => (Render "home.html" [] 200, w).

Definition treasure : handler :=
  fun _ _ w => (Render "treasure.html" [] 200, w).

Definition upcoming_events : handler :=
  fun _ _ w => (Render "upcoming_events.html" [] 200, w).

(** Do two documents of [l] agree on the field [k]? *)
Fixpoint has_duplicates (k : string) (l : list dict) : bool :=
  match l with
  | [] => false
  | d :: r =>
      existsb (fun d' =>
        Mongo.scalar_eqb (Mongo.sort_key k d) (Mongo.sort_key k d')) r
      || has_duplicates k r
  end.

(** [create_index(k, unique=True)]: the server refuses to build the index
    over documents that agree on [k]. *)
Definition create_unique_index (c : Mongo.collection) (k : string)
  : (exn + unit) * Mongo.collection :=
  if existsb (String.eqb k) (Mongo.unique_fields c) then (inr tt, c)
  else if has_duplicates k (Mongo.docs c) then (inl DuplicateKeyError, c)
  else (inr tt, Mongo.Collection (Mongo.docs c) (k :: Mongo.unique_fields c)).

(** [init_db]: the indexes on [event_id] of the registrations and on
    [team_lead_email] of the legacy collection are not unique and constrain
    nothing; the unique index on [event_name] is built when the server
    accepts it, and a failure is swallowed. *)
Definition init_db (w : world) : world :=
  match create_unique_index (events_collection w) "event_name" with
  | (inr _, c) => put_coll Events c w
  | (inl _, _) => w
  end.

Definition newline : string := String "010" EmptyString.

(** [download_info]: the submitted fields as a text attachment. *)
Definition download_info : handler :=
  fun req _ w =>
    let team_info := form req in
    let g k := form_get team_info k EmptyString in
    let member i :=
      "Member " ++ i ++ ": " ++ g ("member_" ++ i ++ "_name") ++ " ("
      ++ g ("member_" ++ i ++ "_email") ++ ") | Reg No: "
      ++ g ("member_" ++ i ++ "_reg_no") ++ newline in
    let download_content :=
      newline
      ++ "Team Name: " ++ g "team_name" ++ newline
      ++ "Team Lead: " ++ g "team_lead_name" ++ newline
      ++ "Team Lead Email: " ++ g "team_lead_email" ++ newline
      ++ "Team Lead Phone: " ++ g "team_lead_phone" ++ newline
      ++ "Team Lead Registration Number: " ++ g "team_lead_reg_no" ++ newline
      ++ member "1" ++ member "2" ++ member "3" in
    (SendFile download_content "team_registration.txt" (Some "text/plain"), w).

(** ** Predicates of the further properties *)

(** All required positions that the loop of [team_register] reaches carry a
    name and an email. *)
Definition required_present (f : Py.form) (m n : Z) : Prop :=
  forall i, 1 <= i <= m -> i <= n -> missing_at f i = false.

(** The registration [team_register] assembles, as it is stored. *)
Definition registration_doc (fresh : oid) (event_id event_name team_name : value)
    (f : Py.form) (members : list value) (now : datetime) : dict :=
  [("_id", VObjectId fresh);
   ("event_id", event_id);
   ("event_name", event_name);
   ("team_name", team_name);
   ("team_lead_name", VStr (strip (form_get f "team_lead_name" EmptyString)));
   ("team_lead_email", VStr (strip (form_get f "team_lead_email" EmptyString)));
   ("team_lead_phone", VStr (strip (form_get f "team_lead_phone" EmptyString)));
   ("team_lead_reg_no", VStr (strip (form_get f "team_lead_reg_no" EmptyString)));
   ("members", VList members);
   ("created_at", VDatetime now)].

(** The collections, the session and the flashed messages of two worlds
    agree (the operation log may differ). *)
Definition same_data (w w' : world) : Prop :=
  events_collection w' = events_collection w
  /\ teams_collection w' = teams_collection w
  /\ legacy_collection w' = legacy_collection w
  /\ session w' = session w
  /\ flashes w' = flashes w.

(** Position [i] of a team edit carries some non-empty field. *)
Definition edit_kept (f : Py.form) (i : Z) : bool :=
  negb (str_empty (member_field f i "name"))
  || negb (str_empty (member_field f i "email"))
  || negb (str_empty (member_field f i "reg_no")).

(** The fields of a [datetime] are those of a time of day. *)
Definition valid_time (t : datetime) : Prop :=
  0 <= hour t <= 23 /\ 0 <= minute t <= 59 /\ 0 <= second t <= 59
  /\ 0 <= microsecond t <= 999999.

Definition same_day (s t : datetime) : Prop :=
  year s = year t /\ month s = month t /\ day s = day t.

(** No two documents of [l] agree on the field [k]. *)
Definition distinct_on (k : string) (l : list dict) : Prop :=
  has_duplicates k l = false.

(** ** Further sample data *)

Module Scenario.

Definition no_lead_email : Py.form :=
  [("team_name", "Bytes"); ("team_lead_name", "A"); ("team_lead_email", " ");
   ("member_1_name", "Asha"); ("member_1_email", "asha@x.com");
   ("member_2_name", "Ravi"); ("member_2_email", "ravi@x.com")].

Definition blank_team_name : Py.form :=
  [("team_name", "  "); ("team_lead_name", "A"); ("team_lead_email", "a@x.com");
   ("member_1_name", "Asha"); ("member_1_email", "asha@x.com");
   ("member_2_name", "Ravi"); ("member_2_email", "ravi@x.com")].

(** Two required members and a third, optional one. *)
Definition three_members : Py.form :=
  [("team_name", "Bytes"); ("team_lead_name", "A"); ("team_lead_email", "a@x.com");
   ("member_1_name", "Asha"); ("member_1_email", "asha@x.com");
   ("member_2_name", "Ravi"); ("member_2_email", "ravi@x.com");
   ("member_3_reg_no", "21BCE0001")].


(** A clock that is not on a whole millisecond. *)
Definition env_micro : env :=
  Env (Datetime 2024 3 15 10 20 30 123456) "65f43a10c0ffee0000000004" ∅.

End Scenario.

(** The submitted credentials are exactly the configured ones, on [POST]. *)
Definition credentials_match (req : request) (e : env) : Prop :=
  method req = POST
  /\ form_get (form req) "username" EmptyString = getenv e "ADMIN_USER" "admin"
  /\ form_get (form req) "password" EmptyString = getenv e "ADMIN_PASS" "acmvitap".

(** The requests that only read: a view and a request to it. The views
    that accept both methods are listed with [GET]. *)
Inductive read_only : handler -> request -> Prop :=
| ro_home req : read_only home req
| ro_treasure req : read_only treasure req
| ro_upcoming_events req : read_only upcoming_events req
| ro_team_register_root req : read_only team_register_root req
| ro_choose_event req : read_only choose_event req
| ro_team_register_none req : read_only (team_register None) req
| ro_team_register_get id req :
    method req = GET -> read_only (team_register id) req
| ro_admin_login_get req : method req = GET -> read_only admin_login req
| ro_admin_dashboard req : read_only admin_dashboard req
| ro_admin_events_get req : method req = GET -> read_only admin_events req
| ro_admin_edit_event_get id req :
    method req = GET -> read_only (admin_edit_event id) req
| ro_view_registered_teams req : read_only view_registered_teams req
| ro_admin_teams rx req : read_only (admin_teams rx) req
| ro_admin_view_team id req : read_only (admin_view_team id) req
| ro_admin_edit_team_get id req :
    method req = GET -> read_only (admin_edit_team id) req
| ro_export_excel xl req : read_only (export_excel xl) req
| ro_admin_export_teams xl req : read_only (admin_export_teams xl) req
| ro_admin_stats req : read_only admin_stats req
| ro_public_stats req : read_only public_stats req
| ro_download_info req : read_only download_info req
| ro_legacy_teams req : read_only legacy_teams req.

(** Only reads of collections occur in a log. *)
Definition is_read (o : db_op) : bool :=
  match o with
  | DbFind _ | DbFindOne _ | DbCount _ => true
  | DbInsert _ | DbUpdate _ | DbDelete _ => false
  end.

(** The range query of [_compute_stats] at the time [now]. *)
Definition today_query (now : datetime) : Mongo.filter :=
  [("created_at",
    Mongo.GteLt (Datetime (year now) (month now) (day now) 0 0 0 0)
                (Datetime (year now) (month now) (day now) 23 59 59 999999))].

(** The last millisecond of a day. *)
Definition last_millisecond (t : datetime) : Prop :=
  hour t = 23 /\ minute t = 59 /\ second t = 59 /\ 999000 <= microsecond t.

(** Each document of [l] is followed by one that is not greater on [k]. *)
Fixpoint descending_on (k : string) (l : list dict) : Prop :=
  match l with
  | [] => True
  | a :: r =>
      match r with
      | [] => True
      | b :: _ =>
          Mongo.bson_compare (Mongo.sort_key k a) (Mongo.sort_key k b) <> Lt
      end
      /\ descending_on k r
  end.

(** The fields an event edit writes. *)
Definition event_update_keys : list string :=
  ["event_name"; "require_team_name"; "min_members"; "max_members";
   "active"; "updated_at"].

(** [d'] is [d] after the edit form [f] was applied to it at [now]: the six
    fields come from the form and the clock (to the millisecond, as BSON
    holds it), every other field is as before. *)
Definition edited_event (f : Py.form) (now : datetime) (d d' : dict) : Prop :=
  dict_get d' "event_name"
  = Some (VStr (strip (form_get f "event_name" EmptyString)))
  /\ dict_get d' "require_team_name"
     = Some (VBool (checkbox f "require_team_name"))
  /\ dict_get d' "min_members" = Some (VInt (read_min_members f))
  /\ dict_get d' "max_members"
     = Some (VInt (read_max_members f (read_min_members f)))
  /\ dict_get d' "active" = Some (VBool (checkbox f "active"))
  /\ dict_get d' "updated_at" = Some (VDatetime (bson_datetime now))
  /\ forall k, ~ In k event_update_keys -> dict_get d' k = dict_get d k.

(** * Properties *)

(** ** Dictionaries and ranges *)

Section Dicts.

Lemma dict_get_set_eq (d : dict) k v : dict_get (dict_set d k v) k = Some v.
Proof.
  induction d as [|[k' v'] r IH]; simpl.
  - now rewrite String.eqb_refl.
  - destruct (String.eqb k k') eqn:E; simpl; rewrite E; auto.
Qed.

Lemma dict_get_set_ne (d : dict) k k' v :
  k <> k' -> dict_get (dict_set d k v) k' = dict_get d k'.
Proof.
  intros Hne. induction d as [|[k0 v0] r IH]; simpl.
  - apply String.eqb_neq in Hne. rewrite String.eqb_sym. now rewrite Hne.
  - destruct (String.eqb k k0) eqn:E; simpl.
    + apply String.eqb_eq in E. subst k0.
      destruct (String.eqb k' k) eqn:E'; auto.
      apply String.eqb_eq in E'. congruence.
    + now rewrite IH.
Qed.

Lemma dict_set_nonempty (d : dict) k v : dict_set d k v <> [].
Proof. destruct d as [|[k' v'] r]; simpl; [|destruct (String.eqb k k')]; discriminate. Qed.

Lemma dict_get_map_datetime (d : dict) k :
  dict_get (map (fun kv => match kv with
                           | (k, VDatetime t) => (k, VStr (isoformat t))
                           | _ => kv
                           end) d) k
  = option_map (fun v => match v with
                         | VDatetime t => VStr (isoformat t)
                         | _ => v
                         end) (dict_get d k).
Proof.
  induction d as [|[k' v'] r IH]; simpl; auto.
  destruct v'; simpl; destruct (String.eqb k k'); auto.
Qed.

Lemma dict_get_doc_to_json (d : dict) k :
  dict_get (doc_to_json d) k = option_map (json_field k) (dict_get d k).
Proof.
  unfold doc_to_json, json_field. destruct d as [|kv r]; [reflexivity|].
  remember (kv :: r) as d eqn:Hd. clear Hd. rewrite dict_get_map_datetime.
  destruct (String.eqb k "_id") eqn:E.
  - apply String.eqb_eq in E. subst k.
    destruct (dict_get d "_id") as [i|] eqn:Hi.
    + now rewrite dict_get_set_eq.
    + now rewrite Hi.
  - apply String.eqb_neq in E.
    destruct (dict_get d "_id") as [i|] eqn:Hi; [|reflexivity].
    rewrite dict_get_set_ne by congruence. reflexivity.
Qed.

Lemma doc_to_json_int (d : dict) k z :
  k <> "_id" -> dict_get d k = Some (VInt z) ->
  dict_get (doc_to_json d) k = Some (VInt z).
Proof.
  intros Hk H. rewrite dict_get_doc_to_json, H. unfold json_field; simpl.
  apply String.eqb_neq in Hk. now rewrite Hk.
Qed.

Lemma doc_to_json_bool (d : dict) k b :
  k <> "_id" -> dict_get d k = Some (VBool b) ->
  dict_get (doc_to_json d) k = Some (VBool b).
Proof.
  intros Hk H. rewrite dict_get_doc_to_json, H. unfold json_field; simpl.
  apply String.eqb_neq in Hk. now rewrite Hk.
Qed.

Lemma doc_to_json_nonempty (d : dict) : d <> [] -> doc_to_json d <> [].
Proof.
  destruct d as [|kv r]; [congruence|]. intros _. unfold doc_to_json.
  destruct (dict_get (kv :: r) "_id").
  - destruct (dict_set (kv :: r) "_id" (VStr (py_str v))) eqn:E; [|discriminate].
    now apply dict_set_nonempty in E.
  - discriminate.
Qed.

End Dicts.

(** ** Documents as BSON *)

Section Bson.

Lemma dict_get_to_bson d k :
  dict_get (to_bson d) k = option_map bson_value (dict_get d k).
Proof.
  induction d as [|[k' v] r IH]; simpl; [reflexivity|].
  now destruct (String.eqb k k').
Qed.

Lemma bson_datetime_idem t : bson_datetime (bson_datetime t) = bson_datetime t.
Proof.
  unfold bson_datetime. simpl. f_equal. now rewrite Z.div_mul by lia.
Qed.

Lemma bson_member_record name email reg_no :
  bson_value (member_record name email reg_no) = member_record name email reg_no.
Proof. reflexivity. Qed.

(** The member records the registration loop collects hold text only. *)
Lemma gather_members_bson f mn positions :
  forall acc members r,
    gather_members f mn positions acc = (members, r) ->
    map bson_value acc = acc ->
    map bson_value members = members.
Proof.
  induction positions as [|i rest IH]; intros acc members r; simpl.
  - now intros [= <- <-].
  - destruct ((i <=? mn) && _); [now intros [= <- <-]|].
    destruct (_ || _); intros H Hacc; apply (IH _ _ _ H); auto.
    rewrite map_app, Hacc. reflexivity.
Qed.

Lemma sort_key_to_bson k d :
  Mongo.sort_key k (to_bson d) = bson_value (Mongo.sort_key k d).
Proof.
  unfold Mongo.sort_key, dict_get_default. rewrite dict_get_to_bson.
  now destruct (dict_get d k).
Qed.

End Bson.

Section Ranges.

Lemma map_seq_from (A : Type) (g : nat -> A) a b :
  map g (seq a b) = map (fun k => g (a + k)%nat) (seq 0 b).
Proof.
  revert a g. induction b as [|b IH]; intros a g; simpl; [reflexivity|].
  rewrite Nat.add_0_r. f_equal.
  rewrite (IH (S a)), (IH 1%nat). apply map_ext. intros k.
  f_equal. lia.
Qed.

Lemma py_range_In lo hi i : In i (py_range lo hi) <-> lo <= i < hi.
Proof.
  unfold py_range. rewrite in_map_iff. split.
  - intros (k & <- & Hk). apply in_seq in Hk. lia.
  - intros H. exists (Z.to_nat (i - lo)). split; [lia|]. apply in_seq. lia.
Qed.

Lemma py_range_app lo mid hi :
  lo <= mid <= hi -> py_range lo hi = (py_range lo mid ++ py_range mid hi)%list.
Proof.
  intros H. unfold py_range.
  replace (Z.to_nat (hi - lo)) with (Z.to_nat (mid - lo) + Z.to_nat (hi - mid))%nat by lia.
  rewrite seq_app, map_app. f_equal. simpl.
  rewrite map_seq_from. apply map_ext. intros k. lia.
Qed.

Lemma py_range_length lo hi : List.length (py_range lo hi) = Z.to_nat (hi - lo).
Proof. unfold py_range. now rewrite length_map, length_seq. Qed.

Lemma py_range_cons lo hi : lo < hi -> py_range lo hi = lo :: py_range (lo + 1) hi.
Proof.
  intros H. rewrite (py_range_app lo (lo + 1) hi) by lia.
  unfold py_range at 1. replace (lo + 1 - lo) with 1 by lia. simpl.
  now rewrite Z.add_0_r.
Qed.

End Ranges.

(** ** The registration handler *)

Section Registration.

Lemma gather_members_pass f m ps acc :
  (forall i, In i ps -> i <= m ->
     str_empty (member_field f i "name") = false
     /\ str_empty (member_field f i "email") = false) ->
  gather_members f m ps acc
  = ((acc ++ map (member_at f) (List.filter (member_kept f m) ps))%list, None).
Proof.
  revert acc. induction ps as [|i ps IH]; intros acc H; simpl.
  - now rewrite app_nil_r.
  - assert (Hi : (i <=? m) && (str_empty (member_field f i "name")
                               || str_empty (member_field f i "email")) = false).
    { destruct (Z.leb_spec i m) as [Hle|]; [|reflexivity].
      destruct (H i (or_introl eq_refl) Hle) as [-> ->]. reflexivity. }
    rewrite Hi. fold (member_kept f m i).
    destruct (member_kept f m i); rewrite IH by (intros; apply H; auto; now right).
    + simpl. now rewrite <- app_assoc.
    + reflexivity.
Qed.

Lemma gather_members_stop f m ps i rest acc :
  (forall j, In j ps -> j <= m ->
     str_empty (member_field f j "name") = false
     /\ str_empty (member_field f j "email") = false) ->
  i <= m ->
  str_empty (member_field f i "name") = true
  \/ str_empty (member_field f i "email") = true ->
  gather_members f m (ps ++ i :: rest) acc
  = ((acc ++ map (member_at f) (List.filter (member_kept f m) ps))%list,
     Some (missing_required_message i)).
Proof.
  revert acc. induction ps as [|j ps IH]; intros acc H Hle Hempty; simpl.
  - rewrite app_nil_r.
    replace (i <=? m) with true by (symmetry; now apply Z.leb_le).
    destruct Hempty as [-> | ->]; simpl; [|rewrite orb_true_r]; reflexivity.
  - assert (Hj : (j <=? m) && (str_empty (member_field f j "name")
                               || str_empty (member_field f j "email")) = false).
    { destruct (Z.leb_spec j m) as [Hjm|]; [|reflexivity].
      destruct (H j (or_introl eq_refl) Hjm) as [-> ->]. reflexivity. }
    rewrite Hj. fold (member_kept f m j).
    destruct (member_kept f m j);
      rewrite IH by (auto; intros; apply H; auto; now right).
    + simpl. now rewrite <- app_assoc.
    + reflexivity.
Qed.

(** Positions up to [min_members] are always kept. *)
Lemma filter_kept_required f m lo hi :
  hi <= m + 1 ->
  List.filter (member_kept f m) (py_range lo hi) = py_range lo hi.
Proof.
  intros H. apply forallb_filter_id. apply forallb_forall. intros i Hi.
  apply py_range_In in Hi. unfold member_kept.
  replace (i <=? m) with true by (symmetry; apply Z.leb_le; lia).
  now rewrite !orb_true_r.
Qed.

(** Empty positions beyond [min_members] are dropped. *)
Lemma filter_kept_empty f m lo hi :
  m < lo ->
  (forall i, lo <= i < hi ->
     member_field f i "name" = EmptyString
     /\ member_field f i "email" = EmptyString
     /\ member_field f i "reg_no" = EmptyString) ->
  List.filter (member_kept f m) (py_range lo hi) = [].
Proof.
  intros Hm H.
  assert (Hall : forall i, In i (py_range lo hi) -> member_kept f m i = false).
  { intros i Hi. apply py_range_In in Hi. unfold member_kept.
    destruct (H i Hi) as (-> & -> & ->). simpl. apply Z.leb_gt. lia. }
  induction (py_range lo hi) as [|i l IH]; simpl; [reflexivity|].
  rewrite Hall by now left. apply IH. intros; apply Hall; now right.
Qed.

Lemma not_persisted w w' d :
  teams_collection w' = teams_collection w -> ~ persisted w w' d.
Proof.
  unfold persisted. intros -> H. apply (f_equal (@List.length dict)) in H.
  rewrite length_app in H. simpl in H. lia.
Qed.

(** What an insert into the registrations leaves behind. *)
Lemma insert_team_persisted reg fresh w x w1 d :
  dict_get reg "_id" = None ->
  db_insert_one Teams reg fresh w = (x, w1) ->
  persisted w w1 d ->
  d = to_bson (("_id", VObjectId fresh) :: reg).
Proof.
  unfold db_insert_one, Mongo.insert_one. intros Hid. rewrite Hid.
  destruct (negb _); [|destruct (Mongo.collides _ _ _)]; intros [= <- <-] Hp;
    try (now apply not_persisted in Hp).
  unfold persisted in Hp. simpl Mongo.docs in Hp. apply app_inv_head in Hp.
  now injection Hp as <-.
Qed.

Lemma insert_team_frame reg fresh w x w1 :
  db_insert_one Teams reg fresh w = (x, w1) ->
  events_collection w1 = events_collection w
  /\ legacy_collection w1 = legacy_collection w
  /\ session w1 = session w /\ flashes w1 = flashes w
  /\ oplog w1 = (oplog w ++ [DbInsert Teams])%list.
Proof.
  unfold db_insert_one. destruct (Mongo.insert_one _ _ _). intros [= <- <-].
  now simpl.
Qed.

(** The registration that [team_register_post] stores, when it stores one. *)
Lemma team_register_post_persisted event req e w r w' d :
  team_register_post event req e w = (r, w') ->
  persisted w w' d ->
  exists mn mx members,
    int_of_value (dict_get_default event "min_members" (VInt 1)) = inr mn
    /\ int_of_value (dict_get_default event "max_members" (VInt 1)) = inr mx
    /\ gather_members (form req) mn (py_range 1 (mx + 1)) [] = (members, None)
    /\ dict_get d "members" = Some (VList members)
    /\ dict_get d "team_name" = Some (stored_team_name event (form req)).
Proof.
  unfold team_register_post. intros H Hp.
  destruct (int_of_value (dict_get_default event "min_members" (VInt 1)))
    as [x|mn] eqn:Hmn; [injection H as <- <-; now apply not_persisted in Hp|].
  destruct (int_of_value (dict_get_default event "max_members" (VInt 1)))
    as [x|mx] eqn:Hmx; [injection H as <- <-; now apply not_persisted in Hp|].
  destruct (gather_members (form req) mn (py_range 1 (mx + 1)) [])
    as [members missing] eqn:Hg.
  destruct missing as [msg|];
    [injection H as <- <-; now apply not_persisted in Hp|].
  destruct (str_empty _ || str_empty _);
    [injection H as <- <-; now apply not_persisted in Hp|].
  destruct (truthy _ && negb _);
    [injection H as <- <-; now apply not_persisted in Hp|].
  destruct (dict_get event "_id") as [eid|];
    [|injection H as <- <-; now apply not_persisted in Hp].
  destruct (dict_get event "event_name") as [ename|];
    [|injection H as <- <-; now apply not_persisted in Hp].
  match type of H with
  | context [db_insert_one Teams ?reg ?fresh w] =>
      destruct (db_insert_one Teams reg fresh w) as [res w1] eqn:Hins;
      assert (Hd : persisted w w1 d ->
                   d = to_bson (("_id", VObjectId fresh) :: reg))
        by (apply (insert_team_persisted reg fresh w res w1 d eq_refl Hins))
  end.
  assert (Hw1 : persisted w w1 d).
  { destruct res as [x|iid]; [now injection H as _ <-|].
    unfold db_find_one in H. injection H as _ <-. exact Hp. }
  specialize (Hd Hw1). subst d.
  exists mn, mx, members. repeat split; auto.
  - simpl. now rewrite (gather_members_bson _ _ _ _ _ _ Hg).
  - simpl. unfold stored_team_name, dict_get_default.
    now destruct (truthy _).
Qed.

(** The registration that a request to [team_register] stores, when it
    stores one. *)
Lemma team_register_persisted id req e w r w' d :
  team_register (Some id) req e w = (r, w') ->
  persisted w w' d ->
  exists ev mn mx members,
    resolve_event id w = Some ev /\ method req = POST
    /\ int_of_value (dict_get_default (doc_to_json ev) "min_members" (VInt 1))
       = inr mn
    /\ int_of_value (dict_get_default (doc_to_json ev) "max_members" (VInt 1))
       = inr mx
    /\ gather_members (form req) mn (py_range 1 (mx + 1)) [] = (members, None)
    /\ dict_get d "members" = Some (VList members)
    /\ dict_get d "team_name"
       = Some (stored_team_name (doc_to_json ev) (form req)).
Proof.
  unfold team_register, resolve_event. intros H Hp.
  destruct id as [|c id']; [injection H as <- <-; now apply not_persisted in Hp|].
  destruct (ObjectId (String c id')) as [x|o];
    [injection H as <- <-; now apply not_persisted in Hp|].
  unfold db_find_one in H. simpl in H.
  destruct (Mongo.find_one (events_collection w) _) as [[|kv ev]|];
    try (injection H as <- <-; now apply not_persisted in Hp).
  destruct (method req);
    [injection H as <- <-; now apply not_persisted in Hp|].
  destruct (team_register_post_persisted _ _ _ _ _ _ d H Hp)
    as (mn & mx & members & ? & ? & ? & ? & ?).
  exists (kv :: ev), mn, mx, members. repeat split; auto.
Qed.

Lemma gather_members_accepts f m ps acc members :
  gather_members f m ps acc = (members, None) ->
  members = (acc ++ map (member_at f) (List.filter (member_kept f m) ps))%list.
Proof.
  revert acc. induction ps as [|i ps IH]; intros acc; simpl.
  - intros [= <-]. now rewrite app_nil_r.
  - destruct ((i <=? m) && _); [discriminate|].
    fold (member_kept f m i). destruct (member_kept f m i); intros H.
    + apply IH in H. simpl. now rewrite <- app_assoc in H.
    + now apply IH in H.
Qed.

(** With nothing submitted beyond position [m], exactly the positions
    [1..m] are kept. *)
Lemma kept_positions f m n :
  0 <= m <= n ->
  (forall i, m < i <= n ->
     member_field f i "name" = EmptyString
     /\ member_field f i "email" = EmptyString
     /\ member_field f i "reg_no" = EmptyString) ->
  List.filter (member_kept f m) (py_range 1 (n + 1)) = py_range 1 (m + 1).
Proof.
  intros Hmn Hempty. rewrite (py_range_app 1 (m + 1) (n + 1)) by lia.
  rewrite List.filter_app, filter_kept_required by lia.
  rewrite filter_kept_empty; [apply app_nil_r | lia |].
  intros i Hi. apply Hempty. lia.
Qed.

Lemma resolve_event_nonempty id w ev : resolve_event id w = Some ev -> ev <> [].
Proof.
  unfold resolve_event. destruct (ObjectId id) as [|o]; [discriminate|].
  unfold Mongo.find_one. intros H. apply find_some in H as [_ H].
  intros ->. discriminate.
Qed.

(** A resolved event is handed to the [POST] branch after one read. *)
Lemma team_register_resolved id ev req e w :
  resolve_event id w = Some ev -> method req = POST ->
  team_register (Some id) req e w
  = team_register_post (doc_to_json ev) req e (log (DbFindOne Events) w).
Proof.
  intros Hres Hm. pose proof (resolve_event_nonempty _ _ _ Hres) as Hne.
  unfold team_register, resolve_event in *.
  destruct id as [|c id']; [discriminate|].
  destruct (ObjectId (String c id')) as [|o]; [discriminate|].
  unfold db_find_one, get_coll. rewrite Hres, Hm.
  destruct ev; [congruence|reflexivity].
Qed.

Lemma first_missing f k :
  forall lo, lo <= k -> missing_at f k = true ->
  exists i, lo <= i <= k /\ missing_at f i = true
            /\ forall j, lo <= j < i -> missing_at f j = false.
Proof.
  intros lo Hlo Hk.
  remember (Z.to_nat (k - lo)) as d eqn:Hd. revert lo Hlo Hd.
  induction d as [|d IH]; intros lo Hlo Hd.
  - exists k. repeat split; auto; lia.
  - destruct (missing_at f lo) eqn:Hl.
    + exists lo. repeat split; auto; lia.
    + destruct (IH (lo + 1)) as (i & Hi & Hb & Hfirst); try lia.
      exists i. repeat split; auto; try lia. intros j Hj.
      destruct (Z.eq_dec j lo) as [->|]; auto. apply Hfirst. lia.
Qed.

End Registration.

(** C1. For an event with [min_members = m] and [max_members = n], [m <= n],
    and a submission with non-empty name and email at every position [1..m]
    and only empty fields at the positions [m+1..n] (all fields read as the
    handler reads them, stripped of surrounding whitespace), the member loop
    accepts the submission, and the registration the handler stores has as
    [members] the records of the positions [1..m], in that order: a
    sequence of length exactly [m]. *)
Theorem team_register_members_length id ev m n req e w r w' d :
  resolve_event id w = Some ev ->
  dict_get ev "min_members" = Some (VInt m) ->
  dict_get ev "max_members" = Some (VInt n) ->
  0 <= m <= n ->
  (forall i, 1 <= i <= m ->
     member_field (form req) i "name" <> EmptyString
     /\ member_field (form req) i "email" <> EmptyString) ->
  (forall i, m < i <= n ->
     member_field (form req) i "name" = EmptyString
     /\ member_field (form req) i "email" = EmptyString
     /\ member_field (form req) i "reg_no" = EmptyString) ->
  team_register (Some id) req e w = (r, w') ->
  persisted w w' d ->
  gather_members (form req) m (py_range 1 (n + 1)) []
  = (map (member_at (form req)) (py_range 1 (m + 1)), None)
  /\ exists members,
       dict_get d "members" = Some (VList members)
       /\ members = map (member_at (form req)) (py_range 1 (m + 1))
       /\ Z.of_nat (List.length members) = m.
Proof.
  intros Hres Hmin Hmax Hmn Hreq Hempty Hrun Hp.
  assert (Hloop : gather_members (form req) m (py_range 1 (n + 1)) []
                  = (map (member_at (form req)) (py_range 1 (m + 1)), None)).
  { rewrite gather_members_pass.
    - now rewrite kept_positions.
    - intros i Hi Hle. apply py_range_In in Hi.
      destruct (Hreq i ltac:(lia)) as [Hn He].
      split; [destruct (member_field (form req) i "name")
             |destruct (member_field (form req) i "email")];
        simpl; congruence. }
  split; [exact Hloop|].
  destruct (team_register_persisted _ _ _ _ _ _ _ Hrun Hp)
    as (ev' & mn & mx & members & Hres' & _ & Hmn' & Hmx' & Hg & Hmem & _).
  rewrite Hres in Hres'. injection Hres' as <-.
  unfold dict_get_default in Hmn', Hmx'.
  rewrite (doc_to_json_int ev "min_members" m) in Hmn' by (auto; discriminate).
  rewrite (doc_to_json_int ev "max_members" n) in Hmx' by (auto; discriminate).
  simpl in Hmn', Hmx'. injection Hmn' as <-. injection Hmx' as <-.
  rewrite Hloop in Hg. injection Hg as <-.
  eexists. split; [exact Hmem|]. split; [reflexivity|].
  rewrite length_map, py_range_length. lia.
Qed.

(** C2. When some position [k <= min_members] of a submission has an empty
    name or an empty email, there is a first such position [i]; the member
    loop stops there with the records of the positions before [i] and the
    message for [i], whatever the later positions hold; the handler answers
    400 with exactly "Member i name and email are required." and the
    submitted form echoed; the only operation on the store is the lookup of
    the event, so no registration is stored. *)
Theorem team_register_missing_member id ev m n k req e w :
  resolve_event id w = Some ev ->
  method req = POST ->
  dict_get ev "min_members" = Some (VInt m) ->
  dict_get ev "max_members" = Some (VInt n) ->
  m <= n ->
  1 <= k <= m ->
  missing_at (form req) k = true ->
  exists i,
    1 <= i <= k
    /\ missing_at (form req) i = true
    /\ (forall j, 1 <= j < i -> missing_at (form req) j = false)
    /\ gather_members (form req) m (py_range 1 (n + 1)) []
       = (map (member_at (form req)) (py_range 1 i),
          Some ("Member " ++ str_of_int i ++ " name and email are required."))
    /\ team_register (Some id) req e w
       = (Render "team_register.html"
            [("event", CVal (VDict (doc_to_json ev)));
             ("error", CMsg (Msg ("Member " ++ str_of_int i
                                  ++ " name and email are required.")));
             ("form", CForm (form req))] 400,
          log (DbFindOne Events) w)
    /\ teams_collection (snd (team_register (Some id) req e w))
       = teams_collection w.
Proof.
  intros Hres Hpost Hmin Hmax Hmn Hk Hbad.
  destruct (first_missing (form req) k 1 ltac:(lia) Hbad)
    as (i & Hi & Hbi & Hfirst).
  exists i. split; [exact Hi|]. split; [exact Hbi|]. split; [exact Hfirst|].
  assert (Hloop : gather_members (form req) m (py_range 1 (n + 1)) []
                  = (map (member_at (form req)) (py_range 1 i),
                     Some (missing_required_message i))).
  { rewrite (py_range_app 1 i (n + 1)) by lia.
    rewrite (py_range_cons i (n + 1)) by lia.
    rewrite gather_members_stop.
    - now rewrite filter_kept_required by lia.
    - intros j Hj _. apply py_range_In in Hj.
      specialize (Hfirst j Hj). unfold missing_at in Hfirst.
      now apply orb_false_iff in Hfirst.
    - lia.
    - unfold missing_at in Hbi. now apply orb_true_iff in Hbi. }
  assert (Hrun : team_register (Some id) req e w
                 = (register_page (doc_to_json ev)
                      (Msg (missing_required_message i)) (form req) 400,
                    log (DbFindOne Events) w)).
  { rewrite (team_register_resolved id ev) by assumption.
    unfold team_register_post, dict_get_default.
    rewrite (doc_to_json_int ev "min_members" m) by (auto; discriminate).
    rewrite (doc_to_json_int ev "max_members" n) by (auto; discriminate).
    simpl default. simpl int_of_value. cbv iota. rewrite Hloop. reflexivity. }
  split; [exact Hloop|]. split; [exact Hrun|]. now rewrite Hrun.
Qed.

(** C3. For an event whose [require_team_name] is false, a registration the
    handler stores has [team_name] set to [None] (null), whatever the
    submitted form holds under [team_name]. *)
Theorem team_register_no_team_name id ev req e w r w' d :
  resolve_event id w = Some ev ->
  dict_get ev "require_team_name" = Some (VBool false) ->
  team_register (Some id) req e w = (r, w') ->
  persisted w w' d ->
  dict_get d "team_name" = Some VNone.
Proof.
  intros Hres Hrtn Hrun Hp.
  destruct (team_register_persisted _ _ _ _ _ _ _ Hrun Hp)
    as (ev' & mn & mx & members & Hres' & _ & _ & _ & _ & _ & Hname).
  rewrite Hres in Hres'. injection Hres' as <-.
  rewrite Hname. unfold stored_team_name, dict_get_default.
  now rewrite (doc_to_json_bool ev "require_team_name" false).
Qed.

(** C8. A request to the registration route whose event identifier does not
    resolve to an event (a malformed identifier included) is answered
    "Invalid event" with status 404, for [GET] as for any method; the
    collections, the session and the flashed messages are left as they
    were, and the store saw at most the one lookup. *)
Theorem team_register_invalid_event id req e w :
  id <> EmptyString ->
  resolve_event id w = None ->
  exists w',
    team_register (Some id) req e w = (Text "Invalid event" 404, w')
    /\ events_collection w' = events_collection w
    /\ teams_collection w' = teams_collection w
    /\ legacy_collection w' = legacy_collection w
    /\ session w' = session w
    /\ flashes w' = flashes w
    /\ (oplog w' = oplog w \/ oplog w' = (oplog w ++ [DbFindOne Events])%list).
Proof.
  intros Hid Hres. unfold team_register, resolve_event in *.
  destruct id as [|c id']; [congruence|].
  destruct (ObjectId (String c id')) as [x|o].
  - exists w. repeat split; auto.
  - unfold db_find_one, get_coll. rewrite Hres.
    exists (log (DbFindOne Events) w). repeat split; auto.
Qed.

(** Witness of C1 on the sample hackathon: two members are stored. *)
Lemma team_register_members_length_witness :
  gather_members Sample.two_members 2 (py_range 1 5) []
  = (map (member_at Sample.two_members) (py_range 1 3), None)
  /\ exists members,
       dict_get
         (nth 0 (Mongo.docs (teams_collection
            (snd (team_register (Some Sample.hackathon_id)
                    (Sample.post Sample.two_members) Sample.env0 Sample.world0))))
            []) "members" = Some (VList members)
       /\ members = map (member_at Sample.two_members) (py_range 1 3)
       /\ Z.of_nat (List.length members) = 2.
Proof.
  apply (team_register_members_length Sample.hackathon_id Sample.hackathon 2 4
           (Sample.post Sample.two_members) Sample.env0 Sample.world0
           (fst (team_register (Some Sample.hackathon_id)
                   (Sample.post Sample.two_members) Sample.env0 Sample.world0))
           (snd (team_register (Some Sample.hackathon_id)
                   (Sample.post Sample.two_members) Sample.env0 Sample.world0))).
  - reflexivity.
  - reflexivity.
  - reflexivity.
  - lia.
  - intros i Hi. assert (Hc : i = 1 \/ i = 2) by lia.
    destruct Hc as [-> | ->]; vm_compute; split; discriminate.
  - intros i Hi. assert (Hc : i = 3 \/ i = 4) by lia.
    destruct Hc as [-> | ->]; vm_compute; repeat split.
  - apply surjective_pairing.
  - vm_compute. reflexivity.
Defined.

(** Witness of C2: the second member of the sample lacks an email. *)
Lemma team_register_missing_member_witness :
  exists i,
    1 <= i <= 2
    /\ missing_at Sample.second_member_missing i = true
    /\ (forall j, 1 <= j < i -> missing_at Sample.second_member_missing j = false)
    /\ gather_members Sample.second_member_missing 2 (py_range 1 (4 + 1)) []
       = (map (member_at Sample.second_member_missing) (py_range 1 i),
          Some ("Member " ++ str_of_int i ++ " name and email are required."))
    /\ team_register (Some Sample.hackathon_id)
         (Sample.post Sample.second_member_missing) Sample.env0 Sample.world0
       = (Render "team_register.html"
            [("event", CVal (VDict (doc_to_json Sample.hackathon)));
             ("error", CMsg (Msg ("Member " ++ str_of_int i
                                  ++ " name and email are required.")));
             ("form", CForm Sample.second_member_missing)] 400,
          log (DbFindOne Events) Sample.world0)
    /\ teams_collection
         (snd (team_register (Some Sample.hackathon_id)
                 (Sample.post Sample.second_member_missing) Sample.env0
                 Sample.world0))
       = teams_collection Sample.world0.
Proof.
  apply (team_register_missing_member Sample.hackathon_id Sample.hackathon 2 4 2
           (Sample.post Sample.second_member_missing) Sample.env0 Sample.world0).
  - reflexivity.
  - reflexivity.
  - reflexivity.
  - reflexivity.
  - lia.
  - lia.
  - reflexivity.
Defined.

(** Witness of C3: the workshop needs no team name; "Ignored" is not stored. *)
Lemma team_register_no_team_name_witness :
  dict_get
    (nth 0 (Mongo.docs (teams_collection
       (snd (team_register (Some Sample.workshop_id) (Sample.post Sample.solo)
               Sample.env0 Sample.world0)))) [])
    "team_name" = Some VNone.
Proof.
  apply (team_register_no_team_name Sample.workshop_id Sample.workshop
           (Sample.post Sample.solo) Sample.env0 Sample.world0
           (fst (team_register (Some Sample.workshop_id) (Sample.post Sample.solo)
                   Sample.env0 Sample.world0))
           (snd (team_register (Some Sample.workshop_id) (Sample.post Sample.solo)
                   Sample.env0 Sample.world0))).
  - reflexivity.
  - reflexivity.
  - apply surjective_pairing.
  - vm_compute. reflexivity.
Defined.

(** Witness of C8: a well-formed identifier of no event, on [GET]. *)
Lemma team_register_invalid_event_witness :
  exists w',
    team_register (Some "60c72b2f9af1c12a3c4d5e00") Sample.get Sample.env0
                  Sample.world0
    = (Text "Invalid event" 404, w')
    /\ events_collection w' = events_collection Sample.world0
    /\ teams_collection w' = teams_collection Sample.world0
    /\ legacy_collection w' = legacy_collection Sample.world0
    /\ session w' = session Sample.world0
    /\ flashes w' = flashes Sample.world0
    /\ (oplog w' = oplog Sample.world0
        \/ oplog w' = (oplog Sample.world0 ++ [DbFindOne Events])%list).
Proof.
  apply (team_register_invalid_event "60c72b2f9af1c12a3c4d5e00" Sample.get
           Sample.env0 Sample.world0).
  - discriminate.
  - reflexivity.
Defined.

(** ** The admin guard *)

Section Guard.

Lemma admin_required_blocks (view : handler) req e w :
  session w !! "admin" = None ->
  admin_required view req e w = (Redirect "admin_login", w).
Proof. unfold admin_required. now intros ->. Qed.

Lemma admin_required_passes (view : handler) req e w x :
  session w !! "admin" = Some x ->
  admin_required view req e w = view req e w.
Proof. unfold admin_required. now intros ->. Qed.

Lemma admin_route_guarded h :
  admin_route h -> exists view, h = admin_required view.
Proof. intros []; eexists; reflexivity. Qed.

End Guard.

(** C9. In a session without the admin flag, a view wrapped in
    [admin_required] answers with the redirect to the login page and returns
    the world as it received it: the wrapped view does not run, whatever it
    is, and no collection operation is logged. This holds for each of the
    guarded routes of the application. [logout] deletes the flag from the
    session of any world, set or not, touches nothing else, and redirects to
    the home page. *)
Theorem admin_guard_and_logout req e w :
  session w !! "admin" = None ->
  (forall view : handler,
      admin_required view req e w = (Redirect "admin_login", w))
  /\ (forall h, admin_route h -> h req e w = (Redirect "admin_login", w))
  /\ (forall req0 e0 w0,
        fst (logout req0 e0 w0) = Redirect "home"
        /\ session (snd (logout req0 e0 w0)) !! "admin" = None
        /\ (forall k, k <> "admin" ->
              session (snd (logout req0 e0 w0)) !! k = session w0 !! k)
        /\ events_collection (snd (logout req0 e0 w0)) = events_collection w0
        /\ teams_collection (snd (logout req0 e0 w0)) = teams_collection w0
        /\ legacy_collection (snd (logout req0 e0 w0)) = legacy_collection w0
        /\ oplog (snd (logout req0 e0 w0)) = oplog w0).
Proof.
  intros Hno. split; [|split].
  - intros view. now apply admin_required_blocks.
  - intros h Hh. destruct (admin_route_guarded h Hh) as [view ->].
    now apply admin_required_blocks.
  - intros req0 e0 w0. unfold logout. simpl. repeat split.
    + apply lookup_delete_eq.
    + intros k Hk. now apply lookup_delete_ne.
Qed.

(** Witness of C9: nobody is logged in in the sample world. *)
Lemma admin_guard_and_logout_witness :
  (forall view : handler,
      admin_required view (Sample.post Sample.event_form) Sample.env0 Sample.world0
      = (Redirect "admin_login", Sample.world0))
  /\ (forall h, admin_route h ->
        h (Sample.post Sample.event_form) Sample.env0 Sample.world0
        = (Redirect "admin_login", Sample.world0))
  /\ (forall req0 e0 w0,
        fst (logout req0 e0 w0) = Redirect "home"
        /\ session (snd (logout req0 e0 w0)) !! "admin" = None
        /\ (forall k, k <> "admin" ->
              session (snd (logout req0 e0 w0)) !! k = session w0 !! k)
        /\ events_collection (snd (logout req0 e0 w0)) = events_collection w0
        /\ teams_collection (snd (logout req0 e0 w0)) = teams_collection w0
        /\ legacy_collection (snd (logout req0 e0 w0)) = legacy_collection w0
        /\ oplog (snd (logout req0 e0 w0)) = oplog w0).
Proof.
  apply (admin_guard_and_logout (Sample.post Sample.event_form) Sample.env0
           Sample.world0).
  reflexivity.
Defined.

(** ** Event management *)

Section Events.

Lemma read_members_bounds f :
  1 <= read_min_members f <= read_max_members f (read_min_members f).
Proof.
  unfold read_min_members, read_max_members.
  destruct (form_lookup f "min_members") as [s|];
    [destruct (int_of_str s)|];
    (destruct (form_lookup f "max_members") as [s'|];
     [destruct (int_of_str s')|]); lia.
Qed.

Lemma insert_one_docs c d fresh r c' :
  Mongo.insert_one c d fresh = (r, c') ->
  Mongo.docs c' = Mongo.docs c
  \/ (dict_get d "_id" = None
      /\ Mongo.docs c'
         = (Mongo.docs c ++ [to_bson (("_id", VObjectId fresh) :: d)])%list)
  \/ (dict_get d "_id" <> None
      /\ Mongo.docs c' = (Mongo.docs c ++ [to_bson d])%list).
Proof.
  unfold Mongo.insert_one.
  destruct (dict_get d "_id") eqn:Hid;
    (destruct (negb _); [|destruct (Mongo.collides _ _ _)]);
    intros [= <- <-]; simpl; auto.
Qed.

Lemma update_first_In q upd uniq rest :
  forall before n l,
    Mongo.update_first q upd uniq before rest = inr (n, l) ->
    forall d, In d l ->
      In d before \/ In d rest
      \/ exists d0, In d0 rest /\ Mongo.matches q d0 = true
                    /\ d = Mongo.apply_set d0 upd.
Proof.
  induction rest as [|x rest IH]; intros before n l; simpl.
  - intros [= <- <-] d Hd. now left.
  - destruct (Mongo.matches q x) eqn:Hm.
    + destruct (Mongo.collides _ _ _); [discriminate|].
      intros [= <- <-] d Hd. apply in_app_or in Hd as [Hd|[Hd|Hd]]; auto.
      right. right. exists x. auto.
    + intros H d Hd. destruct (IH _ _ _ H d Hd) as [Hb|[Hr|(d0 & ? & ? & ?)]].
      * apply in_app_or in Hb as [Hb|[<-|[]]]; auto.
      * auto.
      * right. right. exists d0. auto.
Qed.

Lemma update_one_In c q upd r c' :
  Mongo.update_one c q upd = (r, c') ->
  forall d, In d (Mongo.docs c') ->
    In d (Mongo.docs c)
    \/ exists d0, In d0 (Mongo.docs c) /\ Mongo.matches q d0 = true
                  /\ d = Mongo.apply_set d0 (to_bson upd).
Proof.
  unfold Mongo.update_one. destruct (negb _); [intros [= <- <-]; auto|].
  destruct (Mongo.update_first q (to_bson upd) (Mongo.unique_fields c) []
              (Mongo.docs c))
    as [x|[n l]] eqn:Hu; intros [= <- <-] d Hd; auto.
  simpl in Hd. destruct (update_first_In _ _ _ _ _ _ _ Hu d Hd) as [[]|[?|?]]; auto.
Qed.

(** The document an event form is stored as carries clamped bounds. *)
Lemma created_event_invariant (f : Py.form) name rtn now fresh :
  let d := to_bson
             (("_id", VObjectId fresh)
              :: [("event_name", name); ("require_team_name", rtn);
                  ("min_members", VInt (read_min_members f));
                  ("max_members",
                   VInt (read_max_members f (read_min_members f)));
                  ("active", VBool true); ("created_at", now)]) in
  event_invariant d.
Proof.
  intros d. exists (read_min_members f), (read_max_members f (read_min_members f)).
  split; [reflexivity|]. split; [reflexivity|]. apply read_members_bounds.
Qed.

Lemma updated_event_invariant (f : Py.form) name rtn act now d0 :
  let upd := to_bson
               [("event_name", name); ("require_team_name", rtn);
                ("min_members", VInt (read_min_members f));
                ("max_members",
                 VInt (read_max_members f (read_min_members f)));
                ("active", act); ("updated_at", now)] in
  event_invariant (Mongo.apply_set d0 upd).
Proof.
  intros upd. exists (read_min_members f), (read_max_members f (read_min_members f)).
  unfold Mongo.apply_set, upd. simpl fold_left.
  split; [|split; [|apply read_members_bounds]].
  - rewrite !dict_get_set_ne by discriminate. apply dict_get_set_eq.
  - rewrite !dict_get_set_ne by discriminate. apply dict_get_set_eq.
Qed.

Lemma admin_events_stores req e w d :
  In d (Mongo.docs (events_collection (snd (admin_events req e w)))) ->
  In d (Mongo.docs (events_collection w)) \/ event_invariant d.
Proof.
  unfold admin_events, admin_required.
  destruct (session w !! "admin"); [|auto].
  unfold admin_events_view. destruct (method req); [simpl; auto|].
  unfold db_insert_one.
  match goal with
  | |- context [Mongo.insert_one ?c ?doc ?fresh] =>
      destruct (Mongo.insert_one c doc fresh) as [r c'] eqn:Hins
  end.
  apply insert_one_docs in Hins.
  assert (Hev : forall w1, events_collection
                  (match r with
                   | inr _ => flash (Msg "Event created.") "success" w1
                   | inl DuplicateKeyError =>
                       flash (Msg "Event name already exists.") "error" w1
                   | inl x => flash (MsgExc "Error: " x) "error" w1
                   end) = events_collection w1).
  { intros w1. destruct r as [[]|]; reflexivity. }
  simpl snd. rewrite Hev. simpl events_collection.
  destruct Hins as [-> | [[_ ->] | [Hid _]]]; auto.
  - intros Hd. apply in_app_or in Hd as [Hd|[<-|[]]]; auto.
    right. apply created_event_invariant.
  - now contradiction Hid.
Qed.

Lemma admin_edit_event_stores id req e w d :
  In d (Mongo.docs (events_collection (snd (admin_edit_event id req e w)))) ->
  In d (Mongo.docs (events_collection w)) \/ event_invariant d.
Proof.
  unfold admin_edit_event, admin_required.
  destruct (session w !! "admin"); [|auto].
  unfold admin_edit_event_view. destruct (ObjectId id) as [|o]; [simpl; auto|].
  unfold db_find_one. simpl get_coll.
  destruct (Mongo.find_one _ _) as [[|kv ev]|]; try (simpl; now auto).
  destruct (method req); [simpl; auto|].
  unfold db_update_one.
  match goal with
  | |- context [Mongo.update_one ?c ?q ?upd] =>
      destruct (Mongo.update_one c q upd) as [r c'] eqn:Hupd
  end.
  pose proof (update_one_In _ _ _ _ _ Hupd d) as Hin.
  assert (Hev : forall w1, events_collection
                  (match r with
                   | inr _ => flash (Msg "Event updated.") "success" w1
                   | inl DuplicateKeyError =>
                       flash (Msg "Event name conflicts with existing event.")
                             "error" w1
                   | inl x => flash (MsgExc "Error: " x) "error" w1
                   end) = events_collection w1).
  { intros w1. destruct r as [[]|]; reflexivity. }
  simpl snd. rewrite Hev. simpl events_collection.
  intros Hd. destruct (Hin Hd) as [?|(d0 & _ & _ & ->)]; auto.
  right. apply updated_event_invariant.
Qed.

End Events.

(** ** Editing a team *)

Section EditTeam.

Lemma str_length_app (s t : string) :
  String.length (s ++ t) = (String.length s + String.length t)%nat.
Proof. induction s as [|c s IH]; simpl; [reflexivity|now rewrite IH]. Qed.

Lemma str_app_inv_tail (s1 s2 t : string) : s1 ++ t = s2 ++ t -> s1 = s2.
Proof.
  revert s2. induction s1 as [|c s1 IH]; intros [|c2 s2] H; simpl in H.
  - reflexivity.
  - apply (f_equal String.length) in H. cbn in H.
    rewrite !str_length_app in H. cbn in H. lia.
  - apply (f_equal String.length) in H. cbn in H.
    rewrite !str_length_app in H. cbn in H. lia.
  - injection H as -> H. f_equal. now apply IH.
Qed.

Lemma str_of_int_inj i j : str_of_int i = str_of_int j -> i = j.
Proof.
  unfold str_of_int. intros H.
  apply (f_equal NilEmpty.int_of_string) in H.
  rewrite !NilEmpty.isi in H. injection H as H.
  apply (f_equal Z.of_int) in H. now rewrite !DecimalZ.of_to in H.
Qed.

Lemma member_key_inj i j field : member_key i field = member_key j field -> i = j.
Proof.
  unfold member_key. intros H. apply String.app_inj in H.
  apply str_app_inv_tail in H. now apply str_of_int_inj.
Qed.

Lemma form_mem_In f k : form_mem f k = true -> In k (map fst f).
Proof.
  unfold form_mem. induction f as [|[k' v] r IH]; simpl; [discriminate|].
  destruct (String.eqb k k') eqn:E.
  - apply String.eqb_eq in E. auto.
  - auto.
Qed.

(** Running out of fuel means every position tried had its name field. *)
Lemma edit_members_loop_None fuel f :
  forall i acc,
    edit_members_loop fuel f i acc = None ->
    forall j, (j < fuel)%nat ->
      form_mem f (member_key (i + Z.of_nat j) "name") = true.
Proof.
  induction fuel as [|fuel IH]; intros i acc H j Hj; [lia|].
  simpl in H.
  destruct (form_mem f (member_key i "name")) eqn:E; [|discriminate].
  simpl in H. destruct j as [|j].
  - now rewrite Z.add_0_r.
  - replace (i + Z.of_nat (S j)) with (i + 1 + Z.of_nat j) by lia.
    destruct (negb _ || negb _ || negb _); eapply IH; eauto; lia.
Qed.

(** The loop of [admin_edit_team] ends: a form of [n] fields cannot hold
    the name fields of [n + 1] positions. *)
Lemma edit_members_loop_total f :
  edit_members_loop (S (List.length f)) f 1 [] <> None.
Proof.
  intros H. pose proof (edit_members_loop_None _ _ _ _ H) as Hkeys.
  set (keys := map (fun j => member_key (1 + Z.of_nat j) "name")
                   (seq 0 (S (List.length f)))).
  assert (Hnd : List.NoDup keys).
  { apply NoDup_map_NoDup_ForallPairs; [|apply seq_NoDup].
    intros a b _ _ Hab. apply member_key_inj in Hab. lia. }
  assert (Hincl : incl keys (map fst f)).
  { intros k Hk. apply in_map_iff in Hk as (j & <- & Hj).
    apply in_seq in Hj. apply form_mem_In, Hkeys. lia. }
  pose proof (List.NoDup_incl_length Hnd Hincl) as Hlen.
  unfold keys in Hlen. rewrite !length_map, length_seq in Hlen. lia.
Qed.

(** More fuel does not change what the loop returns. *)
Lemma edit_members_loop_more fuel f :
  forall i acc r,
    edit_members_loop fuel f i acc = Some r ->
    forall extra, edit_members_loop (fuel + extra) f i acc = Some r.
Proof.
  induction fuel as [|fuel IH]; intros i acc r H extra; [discriminate|].
  simpl in *. destruct (negb (form_mem f (member_key i "name"))); [exact H|].
  destruct (negb _ || negb _ || negb _); now apply IH.
Qed.

Lemma edit_members_spec f :
  edit_members_loop (S (List.length f)) f 1 [] = Some (edit_members f).
Proof.
  unfold edit_members. pose proof (edit_members_loop_total f) as H.
  destruct (edit_members_loop (S (List.length f)) f 1 []); [reflexivity|congruence].
Qed.

(** Positions without any non-empty field add nothing. *)
Lemma edit_members_loop_blank fuel f :
  (forall i, 1 <= i ->
     member_field f i "name" = EmptyString
     /\ member_field f i "email" = EmptyString
     /\ member_field f i "reg_no" = EmptyString) ->
  forall i acc r, 1 <= i ->
    edit_members_loop fuel f i acc = Some r -> r = acc.
Proof.
  intros Hblank. induction fuel as [|fuel IH]; intros i acc r Hi H; [discriminate|].
  simpl in H. destruct (negb (form_mem f (member_key i "name"))); [congruence|].
  destruct (Hblank i Hi) as (Hn & He & Hr).
  unfold member_field in Hn. rewrite Hn, He, Hr in H. simpl in H.
  apply IH in H; [exact H|lia].
Qed.

Lemma edit_members_blank f :
  (forall i, 1 <= i ->
     member_field f i "name" = EmptyString
     /\ member_field f i "email" = EmptyString
     /\ member_field f i "reg_no" = EmptyString) ->
  edit_members f = [].
Proof.
  intros Hblank. pose proof (edit_members_spec f) as H.
  now apply (edit_members_loop_blank _ _ Hblank) in H.
Qed.

Lemma dict_get_apply_set_other d upd k :
  dict_get upd k = None ->
  dict_get (Mongo.apply_set d upd) k = dict_get d k.
Proof.
  unfold Mongo.apply_set. revert d.
  induction upd as [|[k0 v0] r IH]; intros d H; simpl in *; [reflexivity|].
  destruct (String.eqb k k0) eqn:E; [discriminate|].
  rewrite IH by assumption. apply dict_get_set_ne.
  apply String.eqb_neq in E. congruence.
Qed.

(** The [$set] document never clears [members]. *)
Lemma edit_team_data_members f now :
  dict_get (edit_team_data f now) "members" = None
  \/ exists l, l <> [] /\ dict_get (edit_team_data f now) "members" = Some (VList l).
Proof.
  unfold edit_team_data. destruct (edit_members f) as [|x l] eqn:E.
  - left. reflexivity.
  - right. exists (x :: l). split; [discriminate|]. apply dict_get_set_eq.
Qed.

Lemma dict_get_apply_set_last d upd k v :
  dict_get (Mongo.apply_set d (upd ++ [(k, v)])%list) k = Some v.
Proof.
  unfold Mongo.apply_set. rewrite fold_left_app. simpl. apply dict_get_set_eq.
Qed.

Lemma apply_set_members d upd :
  dict_get (Mongo.apply_set d upd) "members" = dict_get d "members"
  \/ exists v, dict_get upd "members" = Some v.
Proof.
  destruct (dict_get upd "members") eqn:E; [right; eauto|].
  left. now apply dict_get_apply_set_other.
Qed.

Lemma Forall2_same (A : Type) (R : A -> A -> Prop) (l : list A) :
  (forall x, R x x) -> Forall2 R l l.
Proof. intros H. induction l; constructor; auto. Qed.

(** An update relates each document to the one in its place afterwards. *)
Lemma update_first_Forall2 (R : dict -> dict -> Prop) q upd uniq :
  (forall d, R d d) ->
  (forall d, R d (Mongo.apply_set d upd)) ->
  forall rest before n l,
    Mongo.update_first q upd uniq before rest = inr (n, l) ->
    Forall2 R (before ++ rest)%list l.
Proof.
  intros Hrefl Hset. induction rest as [|x rest IH]; intros before n l; simpl.
  - intros [= <- <-]. rewrite app_nil_r. now apply Forall2_same.
  - destruct (Mongo.matches q x).
    + destruct (Mongo.collides _ _ _); [discriminate|]. intros [= <- <-].
      apply Forall2_app; [now apply Forall2_same|].
      constructor; [apply Hset|now apply Forall2_same].
    + intros H. apply IH in H. now rewrite <- app_assoc in H.
Qed.

Lemma update_one_Forall2 (R : dict -> dict -> Prop) c q upd r c' :
  (forall d, R d d) ->
  (forall d, R d (Mongo.apply_set d (to_bson upd))) ->
  Mongo.update_one c q upd = (r, c') ->
  Forall2 R (Mongo.docs c) (Mongo.docs c').
Proof.
  intros Hrefl Hset. unfold Mongo.update_one.
  destruct (negb _); [intros [= <- <-]; now apply Forall2_same|].
  destruct (Mongo.update_first q _ (Mongo.unique_fields c) [] (Mongo.docs c))
    as [x|[n l]] eqn:Hu; intros [= <- <-]; [now apply Forall2_same|].
  simpl. now apply (update_first_Forall2 R) in Hu.
Qed.

Lemma update_first_no_unique q upd rest :
  forall before,
    exists n,
      Mongo.update_first q upd [] before rest
      = inr (n, (before ++ replace_first (Mongo.matches q)
                              (fun d => Mongo.apply_set d upd) rest)%list).
Proof.
  induction rest as [|x rest IH]; intros before; simpl.
  - exists 0. now rewrite app_nil_r.
  - destruct (Mongo.matches q x).
    + exists 1. reflexivity.
    + destruct (IH (before ++ [x])%list) as [n Hn]. exists n.
      now rewrite Hn, <- app_assoc.
Qed.

Lemma flash_teams m c w : teams_collection (flash m c w) = teams_collection w.
Proof. reflexivity. Qed.

(** What a request to [admin_edit_team] does to the registrations. *)
Lemma admin_edit_team_Forall2 (R : dict -> dict -> Prop) id req e w :
  (forall d, R d d) ->
  (forall d, R d (Mongo.apply_set d
                    (to_bson (edit_team_data (form req) (utcnow e))))) ->
  Forall2 R (Mongo.docs (teams_collection w))
          (Mongo.docs (teams_collection (snd (admin_edit_team id req e w)))).
Proof.
  intros Hrefl Hset. unfold admin_edit_team, admin_required.
  destruct (session w !! "admin"); [|now apply Forall2_same].
  unfold admin_edit_team_view.
  destruct (ObjectId id) as [|o]; [now apply Forall2_same|].
  destruct (method req).
  - unfold db_find_one. simpl get_coll.
    destruct (Mongo.find_one _ _) as [[|kv t]|]; now apply Forall2_same.
  - unfold db_update_one. simpl get_coll.
    destruct (Mongo.update_one _ _ _) as [r c'] eqn:Hupd.
    apply (update_one_Forall2 R) in Hupd; auto.
    destruct r as [x|n]; [|destruct (n =? 0)]; exact Hupd.
Qed.

Lemma edit_team_data_blank f now :
  edit_members f = [] ->
  edit_team_data f now
  = [("team_name", VStr (strip (form_get f "team_name" EmptyString)));
     ("team_lead_name", VStr (strip (form_get f "team_lead_name" EmptyString)));
     ("team_lead_email", VStr (strip (form_get f "team_lead_email" EmptyString)));
     ("team_lead_phone", VStr (strip (form_get f "team_lead_phone" EmptyString)));
     ("team_lead_reg_no", VStr (strip (form_get f "team_lead_reg_no" EmptyString)));
     ("updated_at", VDatetime now)].
Proof. unfold edit_team_data. now intros ->. Qed.

Lemma edit_team_never_clears f now d :
  members_kept_or_nonempty d
    (Mongo.apply_set d (to_bson (edit_team_data f now))).
Proof.
  unfold members_kept_or_nonempty, edit_team_data.
  destruct (edit_members f) as [|x l] eqn:E.
  - left. now apply dict_get_apply_set_other.
  - right. exists (map bson_value (x :: l)). split; [discriminate|].
    unfold Mongo.apply_set. simpl. apply dict_get_set_eq.
Qed.

End EditTeam.

(** C10. When no member position of an admin team-edit submission has a
    non-empty name, email or registration number (fields read stripped, a
    form without member fields included), the [$set] document has no
    [members] key; after the request every registration has the [members]
    it had; the document the update applies to gets the submitted team name
    and team-lead fields; with an admin session, a valid identifier and no
    unique index on the registrations, the first registration with that
    identifier is the one updated. For any submission whatever, each
    registration keeps its [members] or gets a non-empty list: the edit
    cannot clear them. *)
Theorem admin_edit_team_keeps_members id req e w :
  (forall i, 1 <= i ->
     member_field (form req) i "name" = EmptyString
     /\ member_field (form req) i "email" = EmptyString
     /\ member_field (form req) i "reg_no" = EmptyString) ->
  let data := to_bson (edit_team_data (form req) (utcnow e)) in
  let w' := snd (admin_edit_team id req e w) in
  dict_get data "members" = None
  /\ Forall2 (fun d d' => dict_get d' "members" = dict_get d "members")
             (Mongo.docs (teams_collection w)) (Mongo.docs (teams_collection w'))
  /\ (forall t,
        dict_get (Mongo.apply_set t data) "members" = dict_get t "members"
        /\ dict_get (Mongo.apply_set t data) "team_name"
           = Some (VStr (strip (form_get (form req) "team_name" EmptyString)))
        /\ dict_get (Mongo.apply_set t data) "team_lead_name"
           = Some (VStr (strip (form_get (form req) "team_lead_name" EmptyString)))
        /\ dict_get (Mongo.apply_set t data) "team_lead_email"
           = Some (VStr (strip (form_get (form req) "team_lead_email" EmptyString)))
        /\ dict_get (Mongo.apply_set t data) "team_lead_phone"
           = Some (VStr (strip (form_get (form req) "team_lead_phone" EmptyString)))
        /\ dict_get (Mongo.apply_set t data) "team_lead_reg_no"
           = Some (VStr (strip (form_get (form req) "team_lead_reg_no" EmptyString))))
  /\ (forall o x,
        session w !! "admin" = Some x -> method req = POST ->
        ObjectId id = inr o ->
        Mongo.unique_fields (teams_collection w) = [] ->
        fst (admin_edit_team id req e w) = Redirect "admin_teams"
        /\ Mongo.docs (teams_collection w')
           = replace_first (Mongo.matches [("_id", Mongo.Equals (VObjectId o))])
               (fun t => Mongo.apply_set t data)
               (Mongo.docs (teams_collection w)))
  /\ (forall id1 req1 e1 w1,
        Forall2 members_kept_or_nonempty
                (Mongo.docs (teams_collection w1))
                (Mongo.docs (teams_collection
                               (snd (admin_edit_team id1 req1 e1 w1))))).
Proof.
  intros Hblank data w'.
  pose proof (f_equal to_bson
                (edit_team_data_blank (form req) (utcnow e)
                   (edit_members_blank _ Hblank))) as Hdata.
  fold data in Hdata. simpl in Hdata.
  assert (Hnone : dict_get data "members" = None) by now rewrite Hdata.
  split; [exact Hnone|]. split; [|split; [|split]].
  - apply admin_edit_team_Forall2; [reflexivity|].
    intros d. now apply dict_get_apply_set_other.
  - intros t. split; [now apply dict_get_apply_set_other|].
    rewrite Hdata. unfold Mongo.apply_set. simpl fold_left.
    repeat split;
      (rewrite !dict_get_set_ne by discriminate; apply dict_get_set_eq).
  - intros o x Hadmin Hpost Hoid Huniq. subst w'.
    unfold admin_edit_team, admin_required. rewrite Hadmin.
    unfold admin_edit_team_view. rewrite Hoid, Hpost.
    unfold db_update_one, Mongo.update_one. simpl get_coll.
    fold data. rewrite Huniq.
    assert (Henc : Mongo.dict_encodable
                     (edit_team_data (form req) (utcnow e)) = true)
      by now rewrite (edit_team_data_blank _ _ (edit_members_blank _ Hblank)).
    rewrite Henc. simpl negb. cbv iota.
    destruct (update_first_no_unique [("_id", Mongo.Equals (VObjectId o))] data
                (Mongo.docs (teams_collection w)) []) as [n ->].
    simpl. destruct (n =? 0); split; reflexivity.
  - intros id1 req1 e1 w1. apply admin_edit_team_Forall2.
    + intros d. now left.
    + intros d. apply edit_team_never_clears.
Qed.

(** Witness of C10: the sample edit renames the team and leaves its two
    members. *)
Lemma admin_edit_team_keeps_members_witness :
  let d' := nth 0 (Mongo.docs (teams_collection
              (snd (admin_edit_team Sample.team_id (Sample.post Sample.edit_form)
                      Sample.env0 Sample.admin_world1)))) [] in
  dict_get d' "members" = dict_get Sample.team "members"
  /\ dict_get d' "team_name" = Some (VStr "Bits").
Proof.
  assert (Hblank : forall i, 1 <= i ->
            member_field (form (Sample.post Sample.edit_form)) i "name" = EmptyString
            /\ member_field (form (Sample.post Sample.edit_form)) i "email"
               = EmptyString
            /\ member_field (form (Sample.post Sample.edit_form)) i "reg_no"
               = EmptyString).
  { intros i _. repeat split; vm_compute; reflexivity. }
  destruct (admin_edit_team_keeps_members Sample.team_id
              (Sample.post Sample.edit_form) Sample.env0 Sample.admin_world1
              Hblank) as (_ & _ & Hfields & Hupd & _).
  destruct (Hupd Sample.team_id (VBool true) eq_refl eq_refl eq_refl eq_refl)
    as [_ Hdocs].
  cbv zeta. rewrite Hdocs.
  destruct (Hfields Sample.team) as (Hm & Hn & _).
  split; [exact Hm | exact Hn].
Defined.

(** ** Active and inactive events *)

Section Active.

Lemma In_insert_desc k x l d : In d (Mongo.insert_desc k x l) <-> d = x \/ In d l.
Proof.
  induction l as [|y r IH]; simpl.
  - intuition congruence.
  - destruct (Mongo.bson_compare _ _); simpl; rewrite ?IH; intuition congruence.
Qed.

Lemma In_sort_desc k l d : In d (Mongo.sort_desc k l) <-> In d l.
Proof.
  unfold Mongo.sort_desc. induction l as [|x r IH]; simpl; [tauto|].
  rewrite In_insert_desc, IH. intuition congruence.
Qed.

Lemma matches_id_set_active o d v :
  Mongo.matches [("_id", Mongo.Equals (VObjectId o))] (dict_set d "active" v)
  = Mongo.matches [("_id", Mongo.Equals (VObjectId o))] d.
Proof. simpl. now rewrite dict_get_set_ne by discriminate. Qed.

Lemma doc_to_json_set_active ev v k :
  k <> "active" ->
  dict_get (doc_to_json (dict_set ev "active" v)) k = dict_get (doc_to_json ev) k.
Proof.
  intros Hk. rewrite !dict_get_doc_to_json.
  now rewrite dict_get_set_ne by congruence.
Qed.

(** The [POST] branch reads five fields of the event; two events that
    agree on them are treated alike. *)
Lemma team_register_post_fields ev1 ev2 req e w :
  dict_get ev1 "require_team_name" = dict_get ev2 "require_team_name" ->
  dict_get ev1 "min_members" = dict_get ev2 "min_members" ->
  dict_get ev1 "max_members" = dict_get ev2 "max_members" ->
  dict_get ev1 "_id" = dict_get ev2 "_id" ->
  dict_get ev1 "event_name" = dict_get ev2 "event_name" ->
  snd (team_register_post ev1 req e w) = snd (team_register_post ev2 req e w)
  /\ without_event (fst (team_register_post ev1 req e w))
     = without_event (fst (team_register_post ev2 req e w)).
Proof.
  intros H1 H2 H3 H4 H5. unfold team_register_post, dict_get_default.
  rewrite H1, H2, H3, H4, H5.
  destruct (int_of_value _); [now split|].
  destruct (int_of_value _); [now split|].
  destruct (gather_members _ _ _ _) as [members [msg|]]; [now split|].
  destruct (str_empty _ || str_empty _); [now split|].
  destruct (truthy _ && negb _); [now split|].
  destruct (dict_get ev2 "_id"); [|now split].
  destruct (dict_get ev2 "event_name"); [|now split].
  destruct (db_insert_one _ _ _ _) as [[x|iid] w1]; [now split|].
  destruct (db_find_one _ _ _). now split.
Qed.

Lemma team_register_post_not_text ev req e w body status :
  fst (team_register_post ev req e w) <> Text body status.
Proof.
  unfold team_register_post.
  destruct (int_of_value _); [discriminate|].
  destruct (int_of_value _); [discriminate|].
  destruct (gather_members _ _ _ _) as [members [msg|]]; [discriminate|].
  destruct (str_empty _ || str_empty _); [discriminate|].
  destruct (truthy _ && negb _); [discriminate|].
  destruct (dict_get ev "_id"); [|discriminate].
  destruct (dict_get ev "event_name"); [|discriminate].
  destruct (db_insert_one _ _ _ _) as [[x|iid] w1]; [discriminate|].
  destruct (db_find_one _ _ _). discriminate.
Qed.

Lemma choose_event_lists req e w :
  fst (choose_event req e w)
  = Render "choose_event.html"
      [("events",
        CVal (docs_to_json
                (Mongo.sort_desc "created_at"
                   (Mongo.find (events_collection w)
                      [("active", Mongo.Equals (VBool true))]))))] 200.
Proof. reflexivity. Qed.

End Active.

(** C5. The registration handler finds the event by [_id] alone: setting
    [active] to any value does not change whether a document matches the
    lookup. An event the identifier resolves to is handed to the form or to
    the submit branch, never answered "Invalid event", and the submit branch
    gives the same world and the same response (the echoed event apart) for
    the event with [active] set to any value. The chooser lists exactly the
    events of the collection whose [active] equals [True]. *)
Theorem registration_ignores_active id ev req e w :
  resolve_event id w = Some ev ->
  (forall o d v,
      Mongo.matches [("_id", Mongo.Equals (VObjectId o))] (dict_set d "active" v)
      = Mongo.matches [("_id", Mongo.Equals (VObjectId o))] d)
  /\ team_register (Some id) req e w
     = match method req with
       | POST => team_register_post (doc_to_json ev) req e
                                    (log (DbFindOne Events) w)
       | GET => (Render "team_register.html"
                        [("event", CVal (VDict (doc_to_json ev)))] 200,
                 log (DbFindOne Events) w)
       end
  /\ fst (team_register (Some id) req e w) <> Text "Invalid event" 404
  /\ (forall v w0,
        snd (team_register_post (doc_to_json (dict_set ev "active" v)) req e w0)
        = snd (team_register_post (doc_to_json ev) req e w0)
        /\ without_event
             (fst (team_register_post (doc_to_json (dict_set ev "active" v))
                     req e w0))
           = without_event (fst (team_register_post (doc_to_json ev) req e w0)))
  /\ (forall req0 e0,
        exists listed,
          fst (choose_event req0 e0 w)
          = Render "choose_event.html" [("events", CVal (docs_to_json listed))] 200
          /\ forall d,
               In d listed
               <-> In d (Mongo.docs (events_collection w))
                   /\ Mongo.field_equals (dict_get d "active") (VBool true) = true).
Proof.
  intros Hres.
  assert (Hrun : team_register (Some id) req e w
     = match method req with
       | POST => team_register_post (doc_to_json ev) req e
                                    (log (DbFindOne Events) w)
       | GET => (Render "team_register.html"
                        [("event", CVal (VDict (doc_to_json ev)))] 200,
                 log (DbFindOne Events) w)
       end).
  { destruct (method req) eqn:Hm.
    - pose proof (resolve_event_nonempty _ _ _ Hres) as Hne.
      unfold team_register, resolve_event in *.
      destruct id as [|c id']; [discriminate|].
      destruct (ObjectId (String c id')) as [|o]; [discriminate|].
      unfold db_find_one, get_coll. rewrite Hres, Hm.
      destruct ev; [congruence|reflexivity].
    - now apply team_register_resolved. }
  split; [intros; apply matches_id_set_active|].
  split; [exact Hrun|]. split; [|split].
  - rewrite Hrun. destruct (method req); [discriminate|].
    apply team_register_post_not_text.
  - intros v w0.
    apply team_register_post_fields; apply doc_to_json_set_active; discriminate.
  - intros req0 e0. eexists. split; [apply choose_event_lists|].
    intros d. rewrite In_sort_desc. unfold Mongo.find. rewrite filter_In.
    simpl. now rewrite andb_true_r.
Qed.

(** Witness of C5: the sample hackathon is inactive; the chooser does not
    list it, and a registration through its link is stored. *)
Lemma registration_ignores_active_witness :
  dict_get Sample.hackathon "active" = Some (VBool false)
  /\ fst (team_register (Some Sample.hackathon_id)
            (Sample.post Sample.two_members) Sample.env0 Sample.world0)
     <> Text "Invalid event" 404
  /\ List.length (Mongo.docs (teams_collection
        (snd (team_register (Some Sample.hackathon_id)
                (Sample.post Sample.two_members) Sample.env0 Sample.world0))))
     = 1%nat
  /\ fst (choose_event Sample.get Sample.env0 Sample.world0)
     = Render "choose_event.html"
         [("events", CVal (docs_to_json [Sample.workshop]))] 200.
Proof.
  destruct (registration_ignores_active Sample.hackathon_id Sample.hackathon
              (Sample.post Sample.two_members) Sample.env0 Sample.world0 eq_refl)
    as (_ & _ & Hnot404 & _ & _).
  split; [reflexivity|]. split; [exact Hnot404|].
  split; reflexivity.
Defined.

(** ** Export and stats *)

Section ExportStats.

Lemma find_all c : Mongo.find c [] = Mongo.docs c.
Proof.
  unfold Mongo.find. apply forallb_filter_id. apply forallb_forall.
  reflexivity.
Qed.

Lemma sort_desc_nonempty k l : l <> [] -> Mongo.sort_desc k l <> [].
Proof.
  destruct l as [|x r]; [congruence|]. intros _ H.
  assert (Hin : In x (Mongo.sort_desc k (x :: r)))
    by (apply In_sort_desc; now left).
  rewrite H in Hin. destruct Hin.
Qed.



(** With no registration the CSV export is an empty file. *)
Lemma export_csv_empty xl req e w :
  Mongo.docs (teams_collection w) = [] ->
  _export_teams xl "csv" req e w
  = (SendFile EmptyString "teams.csv" (Some "text/csv"), log (DbFind Teams) w).
Proof.
  intros H. unfold _export_teams, db_find. simpl get_coll.
  rewrite find_all, H. reflexivity.
Qed.

(** With a registration the header row is written first, as a [str], and
    the [BytesIO] refuses it. *)
Lemma export_csv_nonempty xl req e w :
  Mongo.docs (teams_collection w) <> [] ->
  _export_teams xl "csv" req e w = (Uncaught TypeError, log (DbFind Teams) w).
Proof.
  intros H. unfold _export_teams, db_find. simpl get_coll.
  rewrite find_all.
  destruct (Mongo.sort_desc "created_at" (Mongo.docs (teams_collection w)))
    as [|t ts] eqn:E; [now apply sort_desc_nonempty in E|].
  reflexivity.
Qed.

Lemma compute_stats_total e w :
  fst (fst (_compute_stats e w))
  = Z.of_nat (List.length (Mongo.docs (teams_collection w))).
Proof.
  unfold _compute_stats, db_count_documents, Mongo.count_documents. simpl.
  now rewrite find_all.
Qed.

(** What [today] counts: the registrations whose [created_at] lies in
    the range of the query. *)
Lemma compute_stats_today e w :
  snd (fst (_compute_stats e w))
  = Z.of_nat (List.length (List.filter
      (fun d =>
         Mongo.field_in_range (dict_get d "created_at")
           (Datetime (year (utcnow e)) (month (utcnow e)) (day (utcnow e))
                     0 0 0 0)
           (Datetime (year (utcnow e)) (month (utcnow e)) (day (utcnow e))
                     23 59 59 999999))
      (Mongo.docs (teams_collection w)))).
Proof.
  unfold _compute_stats, db_count_documents, Mongo.count_documents, Mongo.find.
  simpl. do 2 f_equal. apply filter_ext. intros d. apply andb_true_r.
Qed.

(** The upper bound of the day's range is itself outside the range. *)
Lemma last_microsecond_not_counted y m d :
  Mongo.in_range (Datetime y m d 0 0 0 0) (Datetime y m d 23 59 59 999999)
                 (VDatetime (Datetime y m d 23 59 59 999999)) = false.
Proof.
  unfold Mongo.in_range, datetime_leb, datetime_ltb, datetime_compare. simpl.
  rewrite !Z.compare_refl. reflexivity.
Qed.

End ExportStats.

(** C6. With the sample registration in the store, the CSV export of an
    admin raises [TypeError] and sends no file: [csv.writer] hands the
    header row to [BytesIO.write] as a [str]. The claim expects a CSV file
    that parses back to the serialised documents. *)
Theorem export_csv_raises xl :
  admin_export_teams xl Sample.csv_request Sample.env0 Sample.admin_world1
  = (Uncaught TypeError, log (DbFind Teams) Sample.admin_world1).
Proof.
  unfold admin_export_teams.
  rewrite (admin_required_passes _ _ _ _ (VBool true)) by reflexivity.
  replace (str_map lower (form_get (args Sample.csv_request) "format" "excel"))
    with "csv" by reflexivity.
  apply export_csv_nonempty. discriminate.
Qed.

(** C7. A registration created in the last microsecond of the current UTC
    day is in the total but not in today's count: the range query ends
    with [$lt] at 23:59:59.999999. The claim counts every instant of the
    day up to the next midnight. *)
Theorem compute_stats_misses_last_microsecond :
  dict_get Sample.team "created_at"
  = Some (VDatetime (Datetime 2024 3 15 23 59 59 999999))
  /\ utcnow Sample.env_late = Datetime 2024 3 15 23 59 59 999999
  /\ fst (_compute_stats Sample.env_late Sample.admin_world1) = (1, 0)
  /\ fst (public_stats Sample.get Sample.env_late Sample.admin_world1)
     = Jsonify [("total", VInt 1); ("today", VInt 0)].
Proof. repeat split. Qed.

(** * Further properties of the handlers *)

(** ** Registration: rejections, success and the stored document *)

Section RegistrationOutcomes.

Lemma gather_required_pass f m n :
  required_present f m n ->
  gather_members f m (py_range 1 (n + 1)) []
  = (map (member_at f) (List.filter (member_kept f m) (py_range 1 (n + 1))), None).
Proof.
  intros Hreq. rewrite gather_members_pass; [reflexivity|].
  intros i Hi Hle. apply py_range_In in Hi.
  specialize (Hreq i ltac:(lia) ltac:(lia)). unfold missing_at in Hreq.
  now apply orb_false_iff in Hreq.
Qed.

Lemma gather_accepts_required f m ps :
  forall acc members,
    gather_members f m ps acc = (members, None) ->
    forall i, In i ps -> i <= m -> missing_at f i = false.
Proof.
  induction ps as [|j ps IH]; intros acc members H i Hi Hle; [destruct Hi|].
  simpl in H. fold (missing_at f j) in H.
  destruct ((j <=? m) && missing_at f j) eqn:E; [discriminate|].
  destruct Hi as [->|Hi].
  - apply andb_false_iff in E as [E|E]; [apply Z.leb_gt in E; lia|exact E].
  - destruct (negb _ || negb _ || negb _ || (j <=? m)); eapply IH; eauto.
Qed.

Lemma members_encodable f l :
  forallb Mongo.encodable (map (member_at f) l) = true.
Proof. induction l as [|i l IH]; simpl; auto. Qed.

Lemma scalar_eqb_oid_field o d :
  Mongo.scalar_eqb (VObjectId o) (Mongo.sort_key "_id" d) = true ->
  Mongo.field_equals (dict_get d "_id") (VObjectId o) = true.
Proof.
  unfold Mongo.sort_key, dict_get_default.
  destruct (dict_get d "_id") as [[]|]; simpl; try discriminate.
  now rewrite String.eqb_sym.
Qed.

Lemma fresh_id_no_collision c o d :
  Mongo.find_one c [("_id", Mongo.Equals (VObjectId o))] = None ->
  Mongo.sort_key "_id" d = VObjectId o ->
  Mongo.collides ["_id"] (Mongo.docs c) d = false.
Proof.
  unfold Mongo.find_one, Mongo.collides. intros Hnone Hid. simpl.
  rewrite orb_false_r, Hid. apply not_true_is_false. intros Hex.
  apply existsb_exists in Hex as (d' & Hin & Heq).
  apply scalar_eqb_oid_field in Heq.
  pose proof (find_none _ _ Hnone d' Hin) as Hm. simpl in Hm.
  rewrite Heq in Hm. discriminate.
Qed.

Lemma find_one_appended l u d o :
  Mongo.find_one (Mongo.Collection l u) [("_id", Mongo.Equals (VObjectId o))] = None ->
  dict_get d "_id" = Some (VObjectId o) ->
  Mongo.find_one (Mongo.Collection (l ++ [d])%list u)
                 [("_id", Mongo.Equals (VObjectId o))] = Some d.
Proof.
  unfold Mongo.find_one. simpl Mongo.docs. intros Hnone Hid.
  induction l as [|x l IH]; simpl in *.
  - rewrite Hid. simpl. now rewrite String.eqb_refl.
  - destruct (Mongo.field_equals (dict_get x "_id") (VObjectId o) && true);
      [discriminate|auto].
Qed.

(** A fresh identifier makes the insert of a registration succeed. *)
Lemma insert_fresh_team reg fresh w :
  dict_get reg "_id" = None ->
  Mongo.dict_encodable reg = true ->
  Mongo.unique_fields (teams_collection w) = [] ->
  Mongo.find_one (teams_collection w) [("_id", Mongo.Equals (VObjectId fresh))]
  = None ->
  db_insert_one Teams reg fresh w
  = (inr (VObjectId fresh),
     log (DbInsert Teams)
         (put_coll Teams
            (Mongo.Collection
               (Mongo.docs (teams_collection w)
                ++ [to_bson (("_id", VObjectId fresh) :: reg)])
               [])
            w)).
Proof.
  intros Hid Henc Huniq Hfresh.
  unfold db_insert_one, Mongo.insert_one. simpl get_coll. rewrite Hid.
  assert (Henc' : Mongo.dict_encodable (("_id", VObjectId fresh) :: reg) = true)
    by (simpl; exact Henc).
  rewrite Henc'. simpl negb. cbv iota zeta. rewrite Huniq.
  rewrite (fresh_id_no_collision _ fresh) by (auto; reflexivity).
  reflexivity.
Qed.

(** The steps of the [POST] branch up to the team-lead check. *)
Lemma team_register_post_members ev m n req e w :
  dict_get ev "min_members" = Some (VInt m) ->
  dict_get ev "max_members" = Some (VInt n) ->
  required_present (form req) m n ->
  team_register_post (doc_to_json ev) req e w
  = let f := form req in
    let event := doc_to_json ev in
    let members :=
      map (member_at f) (List.filter (member_kept f m) (py_range 1 (n + 1))) in
    let team_lead_name := strip (form_get f "team_lead_name" EmptyString) in
    let team_lead_email := strip (form_get f "team_lead_email" EmptyString) in
    if str_empty team_lead_name || str_empty team_lead_email
    then (register_page event (Msg "Team lead name and email are required.") f 400, w)
    else
    if truthy (dict_get_default event "require_team_name" (VBool false))
       && negb (truthy (stored_team_name event f))
    then (register_page event (Msg "Team name is required for this event.") f 400, w)
    else
    match dict_get event "_id" with
    | None => (Uncaught (KeyError "_id"), w)
    | Some event_id =>
    match dict_get event "event_name" with
    | None => (Uncaught (KeyError "event_name"), w)
    | Some event_name =>
    match db_insert_one Teams
            (tl (registration_doc (new_oid e) event_id event_name
                   (stored_team_name event f) f members (utcnow e)))
            (new_oid e) w with
    | (inr inserted_id, w1) =>
        let '(inserted, w2) :=
          db_find_one Teams [("_id", Mongo.Equals inserted_id)] w1 in
        let data := match inserted with
                    | Some d => VDict (doc_to_json d)
                    | None => VNone
                    end in
        (Render "download_info.html" [("data", CVal data)] 200, w2)
    | (inl x, w1) =>
        (register_page event (MsgExc "An error occurred: " x) f 500, w1)
    end end end.
Proof.
  intros Hmin Hmax Hreq. unfold team_register_post, dict_get_default.
  rewrite (doc_to_json_int ev "min_members" m) by (auto; discriminate).
  rewrite (doc_to_json_int ev "max_members" n) by (auto; discriminate).
  simpl default. simpl int_of_value. cbv iota.
  rewrite (gather_required_pass _ _ _ Hreq). reflexivity.
Qed.

End RegistrationOutcomes.

(** X1. When the required member positions are filled but the team lead's
    name or email is empty (stripped), the submit handler answers 400 with
    "Team lead name and email are required.", echoes the form, and does
    nothing on the store beyond the lookup of the event. *)
Theorem team_register_lead_required id ev m n req e w :
  resolve_event id w = Some ev ->
  method req = POST ->
  dict_get ev "min_members" = Some (VInt m) ->
  dict_get ev "max_members" = Some (VInt n) ->
  required_present (form req) m n ->
  str_empty (strip (form_get (form req) "team_lead_name" EmptyString))
  || str_empty (strip (form_get (form req) "team_lead_email" EmptyString)) = true ->
  team_register (Some id) req e w
  = (Render "team_register.html"
       [("event", CVal (VDict (doc_to_json ev)));
        ("error", CMsg (Msg "Team lead name and email are required."));
        ("form", CForm (form req))] 400,
     log (DbFindOne Events) w).
Proof.
  intros Hres Hpost Hmin Hmax Hreq Hlead.
  rewrite (team_register_resolved id ev) by assumption.
  rewrite (team_register_post_members ev m n) by assumption.
  cbv zeta. now rewrite Hlead.
Qed.

Lemma team_register_lead_required_witness :
  team_register (Some Sample.hackathon_id) (Sample.post Scenario.no_lead_email)
                Sample.env0 Sample.world0
  = (Render "team_register.html"
       [("event", CVal (VDict (doc_to_json Sample.hackathon)));
        ("error", CMsg (Msg "Team lead name and email are required."));
        ("form", CForm Scenario.no_lead_email)] 400,
     log (DbFindOne Events) Sample.world0).
Proof.
  apply (team_register_lead_required Sample.hackathon_id Sample.hackathon 2 4
           (Sample.post Scenario.no_lead_email) Sample.env0 Sample.world0).
  - reflexivity.
  - reflexivity.
  - reflexivity.
  - reflexivity.
  - intros i Hi _. assert (Hc : i = 1 \/ i = 2) by lia.
    destruct Hc as [-> | ->]; reflexivity.
  - reflexivity.
Defined.

(** X2. For an event that requires a team name, a submission with valid
    members and team lead but an empty (stripped) team name is answered 400
    with "Team name is required for this event."; nothing is stored. *)
Theorem team_register_team_name_required id ev m n req e w :
  resolve_event id w = Some ev ->
  method req = POST ->
  dict_get ev "min_members" = Some (VInt m) ->
  dict_get ev "max_members" = Some (VInt n) ->
  dict_get ev "require_team_name" = Some (VBool true) ->
  required_present (form req) m n ->
  str_empty (strip (form_get (form req) "team_lead_name" EmptyString)) = false ->
  str_empty (strip (form_get (form req) "team_lead_email" EmptyString)) = false ->
  str_empty (strip (form_get (form req) "team_name" EmptyString)) = true ->
  team_register (Some id) req e w
  = (Render "team_register.html"
       [("event", CVal (VDict (doc_to_json ev)));
        ("error", CMsg (Msg "Team name is required for this event."));
        ("form", CForm (form req))] 400,
     log (DbFindOne Events) w).
Proof.
  intros Hres Hpost Hmin Hmax Hrtn Hreq Hname Hemail Hteam.
  rewrite (team_register_resolved id ev) by assumption.
  rewrite (team_register_post_members ev m n) by assumption.
  cbv zeta. rewrite Hname, Hemail. simpl orb. cbv iota.
  unfold stored_team_name, dict_get_default.
  rewrite (doc_to_json_bool ev "require_team_name" true) by (auto; discriminate).
  simpl default. simpl truthy. rewrite Hteam. reflexivity.
Qed.

Lemma team_register_team_name_required_witness :
  team_register (Some Sample.hackathon_id) (Sample.post Scenario.blank_team_name)
                Sample.env0 Sample.world0
  = (Render "team_register.html"
       [("event", CVal (VDict (doc_to_json Sample.hackathon)));
        ("error", CMsg (Msg "Team name is required for this event."));
        ("form", CForm Scenario.blank_team_name)] 400,
     log (DbFindOne Events) Sample.world0).
Proof.
  apply (team_register_team_name_required Sample.hackathon_id Sample.hackathon 2 4
           (Sample.post Scenario.blank_team_name) Sample.env0 Sample.world0).
  - reflexivity.
  - reflexivity.
  - reflexivity.
  - reflexivity.
  - reflexivity.
  - intros i Hi _. assert (Hc : i = 1 \/ i = 2) by lia.
    destruct Hc as [-> | ->]; reflexivity.
  - reflexivity.
  - reflexivity.
  - reflexivity.
Defined.

(** Closes the case of a request that stored nothing. *)
Ltac rejected :=
  repeat split; auto; try (left; split; [auto|discriminate]).

Section RegistrationStored.

Lemma registration_doc_encodable fresh s1 s2 tn f l now :
  Mongo.encodable tn = true ->
  Mongo.dict_encodable
    (tl (registration_doc fresh (VStr s1) (VStr s2) tn f (map (member_at f) l) now))
  = true.
Proof.
  intros Htn. unfold registration_doc, Mongo.dict_encodable. simpl.
  rewrite Htn. change (forallb Mongo.encodable (map (member_at f) l) && true = true).
  now rewrite members_encodable.
Qed.

Lemma stored_team_name_encodable ev f :
  Mongo.encodable (stored_team_name ev f) = true.
Proof. unfold stored_team_name. now destruct (truthy _). Qed.

Lemma nth_error_middle (A : Type) (l1 l2 : list A) x :
  nth_error (l1 ++ x :: l2)%list (List.length l1) = Some x.
Proof. induction l1; simpl; auto. Qed.

Lemma to_bson_registration_doc fresh s1 s2 tn f l now :
  bson_value tn = tn ->
  to_bson (("_id", VObjectId fresh)
           :: tl (registration_doc fresh (VStr s1) (VStr s2) tn f
                    (map (member_at f) l) now))
  = registration_doc fresh (VStr s1) (VStr s2) tn f (map (member_at f) l)
      (bson_datetime now).
Proof.
  intros Htn. unfold registration_doc. simpl. rewrite Htn, map_map.
  reflexivity.
Qed.

Lemma insert_team_result reg fresh w x w1 :
  dict_get reg "_id" = None ->
  db_insert_one Teams reg fresh w = (x, w1) ->
  (exists err, x = inl err /\ teams_collection w1 = teams_collection w)
  \/ (x = inr (VObjectId fresh)
      /\ persisted w w1 (to_bson (("_id", VObjectId fresh) :: reg))).
Proof.
  unfold db_insert_one, Mongo.insert_one. intros Hid. rewrite Hid.
  destruct (negb _); [|destruct (Mongo.collides _ _ _)]; intros [= <- <-].
  - left. eexists. split; [reflexivity|]. simpl. now destruct (teams_collection w).
  - left. eexists. split; [reflexivity|]. simpl. now destruct (teams_collection w).
  - right. split; reflexivity.
Qed.

Lemma team_register_post_outcome ev req e w r w' :
  team_register_post ev req e w = (r, w') ->
  events_collection w' = events_collection w
  /\ legacy_collection w' = legacy_collection w
  /\ session w' = session w
  /\ flashes w' = flashes w
  /\ ((teams_collection w' = teams_collection w
       /\ forall ctx, r <> Render "download_info.html" ctx 200)
      \/ exists d data,
           persisted w w' d
           /\ r = Render "download_info.html" [("data", CVal data)] 200
           /\ dict_get d "_id" = Some (VObjectId (new_oid e))).
Proof.
  unfold team_register_post. intros H.
  destruct (int_of_value _);
    [injection H as <- <-; rejected|].
  destruct (int_of_value _);
    [injection H as <- <-; rejected|].
  destruct (gather_members _ _ _ _) as [members [msg|]];
    [injection H as <- <-; rejected|].
  destruct (str_empty _ || str_empty _);
    [injection H as <- <-; rejected|].
  destruct (truthy _ && negb _);
    [injection H as <- <-; rejected|].
  destruct (dict_get ev "_id") as [eid|];
    [|injection H as <- <-; rejected].
  destruct (dict_get ev "event_name") as [ename|];
    [|injection H as <- <-; rejected].
  match type of H with
  | context [db_insert_one Teams ?reg ?fresh w] =>
      destruct (db_insert_one Teams reg fresh w) as [res w1] eqn:Hins;
      pose proof (insert_team_frame _ _ _ _ _ Hins) as (He & Hl & Hs & Hf & _);
      pose proof (insert_team_result reg fresh w res w1 eq_refl Hins) as Hres
  end.
  destruct Hres as [(err & -> & Hsame) | (-> & Hp)].
  - injection H as <- <-. rejected.
  - unfold db_find_one in H. injection H as <- <-. repeat split; auto.
    right. eexists. eexists. split; [exact Hp|]. split; reflexivity.
Qed.

End RegistrationStored.

(** X3. A valid submission is stored and confirmed from the stored copy.
    For an event found by its identifier, with the required member
    positions, the team lead's name and email and (when the event requires
    one) the team name filled, a generated identifier that no registration
    has, and no unique index on the registrations: the handler appends
    exactly the assembled document (the event's id as a string, the event
    name, stripped lead fields, the kept member positions in order, the
    current time cut to the millisecond, as BSON holds it), renders the
    download page from that document as re-read, and issues three store
    operations. *)
Theorem team_register_success id o ev name b m n req e w :
  ObjectId id = inr o ->
  resolve_event id w = Some ev ->
  method req = POST ->
  dict_get ev "_id" = Some (VObjectId o) ->
  dict_get ev "event_name" = Some (VStr name) ->
  dict_get ev "require_team_name" = Some (VBool b) ->
  dict_get ev "min_members" = Some (VInt m) ->
  dict_get ev "max_members" = Some (VInt n) ->
  required_present (form req) m n ->
  str_empty (strip (form_get (form req) "team_lead_name" EmptyString)) = false ->
  str_empty (strip (form_get (form req) "team_lead_email" EmptyString)) = false ->
  (b = true ->
   str_empty (strip (form_get (form req) "team_name" EmptyString)) = false) ->
  Mongo.unique_fields (teams_collection w) = [] ->
  Mongo.find_one (teams_collection w)
                 [("_id", Mongo.Equals (VObjectId (new_oid e)))] = None ->
  let d :=
    registration_doc (new_oid e) (VStr o) (VStr name)
      (if b then VStr (strip (form_get (form req) "team_name" EmptyString))
       else VNone)
      (form req)
      (map (member_at (form req))
           (List.filter (member_kept (form req) m) (py_range 1 (n + 1))))
      (bson_datetime (utcnow e)) in
  exists w',
    team_register (Some id) req e w
    = (Render "download_info.html" [("data", CVal (VDict (doc_to_json d)))] 200, w')
    /\ persisted w w' d
    /\ events_collection w' = events_collection w
    /\ session w' = session w
    /\ oplog w'
       = (oplog w ++ [DbFindOne Events; DbInsert Teams; DbFindOne Teams])%list.
Proof.
  intros Hoid Hres Hpost Hid Hname Hrtn Hmin Hmax Hreq Hlead Hemail Hteam
         Huniq Hfresh d.
  rewrite (team_register_resolved id ev) by assumption.
  rewrite (team_register_post_members ev m n) by assumption.
  cbv zeta. rewrite Hlead, Hemail. simpl orb. cbv iota.
  assert (Hstored : stored_team_name (doc_to_json ev) (form req)
                    = if b then VStr (strip (form_get (form req) "team_name"
                                                      EmptyString))
                      else VNone).
  { unfold stored_team_name, dict_get_default.
    rewrite (doc_to_json_bool ev "require_team_name" b) by (auto; discriminate).
    now destruct b. }
  assert (Hcheck : truthy (dict_get_default (doc_to_json ev) "require_team_name"
                             (VBool false))
                   && negb (truthy (stored_team_name (doc_to_json ev) (form req)))
                   = false).
  { rewrite Hstored. unfold dict_get_default.
    rewrite (doc_to_json_bool ev "require_team_name" b) by (auto; discriminate).
    destruct b; [|reflexivity]. simpl. now rewrite Hteam. }
  rewrite Hcheck.
  assert (Heid : dict_get (doc_to_json ev) "_id" = Some (VStr o))
    by (rewrite dict_get_doc_to_json, Hid; reflexivity).
  assert (Hen : dict_get (doc_to_json ev) "event_name" = Some (VStr name))
    by (rewrite dict_get_doc_to_json, Hname; reflexivity).
  rewrite Heid, Hen, Hstored.
  rewrite insert_fresh_team; try assumption; try reflexivity.
  2:{ apply registration_doc_encodable. now destruct b. }
  rewrite to_bson_registration_doc by now destruct b.
  unfold db_find_one. simpl get_coll.
  rewrite (find_one_appended _ _ d (new_oid e));
    [|unfold Mongo.find_one in *; simpl; exact Hfresh|reflexivity].
  eexists. split; [reflexivity|].
  split; [reflexivity|]. split; [reflexivity|]. split; [reflexivity|].
  simpl. now rewrite <- !app_assoc.
Qed.

Lemma team_register_success_witness :
  let d :=
    registration_doc (new_oid Scenario.env_micro) (VStr Sample.hackathon_id)
      (VStr "Hackathon") (VStr "Bytes") Sample.two_members
      (map (member_at Sample.two_members) [1; 2])
      (Datetime 2024 3 15 10 20 30 123000) in
  exists w',
    team_register (Some Sample.hackathon_id) (Sample.post Sample.two_members)
                  Scenario.env_micro Sample.world0
    = (Render "download_info.html" [("data", CVal (VDict (doc_to_json d)))] 200, w')
    /\ persisted Sample.world0 w' d
    /\ events_collection w' = events_collection Sample.world0
    /\ session w' = session Sample.world0
    /\ oplog w'
       = (oplog Sample.world0
          ++ [DbFindOne Events; DbInsert Teams; DbFindOne Teams])%list.
Proof.
  apply (team_register_success Sample.hackathon_id Sample.hackathon_id
           Sample.hackathon "Hackathon" true 2 4
           (Sample.post Sample.two_members) Scenario.env_micro Sample.world0).
  - reflexivity.
  - reflexivity.
  - reflexivity.
  - reflexivity.
  - reflexivity.
  - reflexivity.
  - reflexivity.
  - reflexivity.
  - intros i Hi _. assert (Hc : i = 1 \/ i = 2) by lia.
    destruct Hc as [-> | ->]; reflexivity.
  - reflexivity.
  - reflexivity.
  - reflexivity.
  - reflexivity.
  - reflexivity.
Defined.

(** X4. A request to the registration route stores a registration exactly
    when it is answered with the download page: either the registrations
    are unchanged and the answer is not the download page, or one document
    was appended, carrying the generated identifier, and the answer is the
    download page with status 200. Events, legacy documents, the session
    and the flashed messages are never touched. *)
Theorem team_register_stores_iff_confirmed event_id req e w :
  let r := fst (team_register event_id req e w) in
  let w' := snd (team_register event_id req e w) in
  events_collection w' = events_collection w
  /\ legacy_collection w' = legacy_collection w
  /\ session w' = session w
  /\ flashes w' = flashes w
  /\ ((teams_collection w' = teams_collection w
       /\ forall ctx, r <> Render "download_info.html" ctx 200)
      \/ exists d data,
           persisted w w' d
           /\ r = Render "download_info.html" [("data", CVal data)] 200
           /\ dict_get d "_id" = Some (VObjectId (new_oid e))).
Proof.
  unfold team_register.
  destruct event_id as [[|c id']|];
    [solve [cbv zeta; simpl; rejected]| |solve [cbv zeta; simpl; rejected]].
  destruct (ObjectId (String c id')) as [x|o]; [solve [cbv zeta; simpl; rejected]|].
  unfold db_find_one. simpl get_coll.
  destruct (Mongo.find_one (events_collection w) _) as [[|kv ev]|];
    try solve [cbv zeta; simpl; rejected].
  destruct (method req); [solve [cbv zeta; simpl; rejected]|].
  cbv beta iota zeta.
  destruct (team_register_post (doc_to_json (kv :: ev)) req e
              (log (DbFindOne Events) w)) as [r w'] eqn:Hrun.
  apply team_register_post_outcome in Hrun. exact Hrun.
Qed.

(** X5. Every stored registration keeps the invariant of the data model at
    creation: for an event with [min_members = m] and [max_members = n],
    the stored [members] are at most [n], and for each required position
    [i <= m] within [1..n] the [i]-th member is the record of position [i],
    with a non-empty name and email. *)
Theorem team_register_member_invariant id ev m n req e w r w' d :
  resolve_event id w = Some ev ->
  dict_get ev "min_members" = Some (VInt m) ->
  dict_get ev "max_members" = Some (VInt n) ->
  team_register (Some id) req e w = (r, w') ->
  persisted w w' d ->
  exists members,
    dict_get d "members" = Some (VList members)
    /\ Z.of_nat (List.length members) <= Z.max 0 n
    /\ forall i, 1 <= i <= m -> i <= n ->
         nth_error members (Z.to_nat (i - 1)) = Some (member_at (form req) i)
         /\ member_field (form req) i "name" <> EmptyString
         /\ member_field (form req) i "email" <> EmptyString.
Proof.
  intros Hres Hmin Hmax Hrun Hp.
  destruct (team_register_persisted _ _ _ _ _ _ _ Hrun Hp)
    as (ev' & mn & mx & members & Hres' & _ & Hmn & Hmx & Hg & Hmem & _).
  rewrite Hres in Hres'. injection Hres' as <-.
  unfold dict_get_default in Hmn, Hmx.
  rewrite (doc_to_json_int ev "min_members" m) in Hmn by (auto; discriminate).
  rewrite (doc_to_json_int ev "max_members" n) in Hmx by (auto; discriminate).
  simpl in Hmn, Hmx. injection Hmn as <-. injection Hmx as <-.
  pose proof (gather_accepts_required _ _ _ _ _ Hg) as Hreq.
  apply gather_members_accepts in Hg. simpl in Hg. subst members.
  exists (map (member_at (form req))
              (List.filter (member_kept (form req) m) (py_range 1 (n + 1)))).
  split; [exact Hmem|]. split.
  - rewrite length_map.
    pose proof (filter_length_le (member_kept (form req) m) (py_range 1 (n + 1)))
      as Hle. rewrite py_range_length in Hle. lia.
  - intros i Hi Hin.
    assert (Hok : missing_at (form req) i = false)
      by (apply Hreq; [apply py_range_In|]; lia).
    unfold missing_at in Hok. apply orb_false_iff in Hok as [Hn He].
    split; [|split; [now destruct (member_field (form req) i "name")
                    |now destruct (member_field (form req) i "email")]].
    rewrite (py_range_app 1 i (n + 1)) by lia.
    rewrite (py_range_cons i (n + 1)) by lia.
    rewrite List.filter_app, filter_kept_required by lia.
    simpl List.filter.
    assert (Hk : member_kept (form req) m i = true).
    { unfold member_kept. replace (i <=? m) with true
        by (symmetry; apply Z.leb_le; lia). now rewrite !orb_true_r. }
    rewrite Hk, map_app. simpl map.
    replace (Z.to_nat (i - 1))
      with (List.length (map (member_at (form req)) (py_range 1 i)))
      by (rewrite length_map, py_range_length; lia).
    apply nth_error_middle.
Qed.

Lemma team_register_member_invariant_witness :
  exists members,
    dict_get
      (nth 0 (Mongo.docs (teams_collection
         (snd (team_register (Some Sample.hackathon_id)
                 (Sample.post Scenario.three_members) Sample.env0 Sample.world0))))
         []) "members" = Some (VList members)
    /\ Z.of_nat (List.length members) <= Z.max 0 4
    /\ forall i, 1 <= i <= 2 -> i <= 4 ->
         nth_error members (Z.to_nat (i - 1))
         = Some (member_at Scenario.three_members i)
         /\ member_field Scenario.three_members i "name" <> EmptyString
         /\ member_field Scenario.three_members i "email" <> EmptyString.
Proof.
  apply (team_register_member_invariant Sample.hackathon_id Sample.hackathon 2 4
           (Sample.post Scenario.three_members) Sample.env0 Sample.world0
           (fst (team_register (Some Sample.hackathon_id)
                   (Sample.post Scenario.three_members) Sample.env0 Sample.world0))
           (snd (team_register (Some Sample.hackathon_id)
                   (Sample.post Scenario.three_members) Sample.env0 Sample.world0))).
  - reflexivity.
  - reflexivity.
  - reflexivity.
  - apply surjective_pairing.
  - vm_compute. reflexivity.
Defined.

(** ** Serialisation *)

Section Serialisation.

Lemma dict_set_same (d : dict) k v : dict_get d k = Some v -> dict_set d k v = d.
Proof.
  induction d as [|[k' v'] r IH]; simpl; [discriminate|].
  destruct (String.eqb k k') eqn:E.
  - now intros [= ->].
  - intros H. now rewrite IH.
Qed.

Lemma dict_keys_set_present (d : dict) k v x :
  dict_get d k = Some x -> dict_keys (dict_set d k v) = dict_keys d.
Proof.
  unfold dict_keys. induction d as [|[k' v'] r IH]; simpl; [discriminate|].
  destruct (String.eqb k k') eqn:E; simpl; [reflexivity|].
  intros H. now rewrite IH.
Qed.

Lemma doc_to_json_unfold (d : dict) :
  doc_to_json d
  = map (fun kv => match kv with
                   | (k, VDatetime t) => (k, VStr (isoformat t))
                   | _ => kv
                   end)
        match dict_get d "_id" with
        | Some i => dict_set d "_id" (VStr (py_str i))
        | None => d
        end.
Proof. destruct d as [|kv r]; reflexivity. Qed.

Lemma iso_values_idempotent (d : dict) :
  let F := fun kv : string * value =>
             match kv with
             | (k, VDatetime t) => (k, VStr (isoformat t))
             | _ => kv
             end in
  map F (map F d) = map F d.
Proof.
  intros F. rewrite map_map. apply map_ext. intros [k []]; reflexivity.
Qed.

End Serialisation.

(** X6. [doc_to_json] keeps the keys of a document, in order; turns the
    [_id] into its string and every top-level datetime into its ISO text;
    leaves every other field as it is; leaves no datetime at top level; and
    serialising twice is serialising once. *)
Theorem doc_to_json_serialises (d : dict) :
  dict_keys (doc_to_json d) = dict_keys d
  /\ (forall i, dict_get d "_id" = Some i ->
        dict_get (doc_to_json d) "_id" = Some (VStr (py_str i)))
  /\ (forall k t, k <> "_id" -> dict_get d k = Some (VDatetime t) ->
        dict_get (doc_to_json d) k = Some (VStr (isoformat t)))
  /\ (forall k v, k <> "_id" -> (forall t, v <> VDatetime t) ->
        dict_get d k = Some v -> dict_get (doc_to_json d) k = Some v)
  /\ (forall k, dict_get d k = None -> dict_get (doc_to_json d) k = None)
  /\ (forall k v t, In (k, v) (doc_to_json d) -> v <> VDatetime t)
  /\ doc_to_json (doc_to_json d) = doc_to_json d.
Proof.
  split; [|split; [|split; [|split; [|split; [|split]]]]].
  - rewrite doc_to_json_unfold.
    assert (Hkeys : forall l : dict,
              dict_keys (map (fun kv => match kv with
                                        | (k, VDatetime t) => (k, VStr (isoformat t))
                                        | _ => kv
                                        end) l) = dict_keys l).
    { intros l. unfold dict_keys. rewrite map_map. apply map_ext.
      intros [k []]; reflexivity. }
    rewrite Hkeys. destruct (dict_get d "_id") as [i|] eqn:Hid; [|reflexivity].
    now apply dict_keys_set_present with (x := i).
  - intros i Hid. rewrite dict_get_doc_to_json, Hid. reflexivity.
  - intros k t Hk H. rewrite dict_get_doc_to_json, H. unfold json_field. simpl.
    apply String.eqb_neq in Hk. now rewrite Hk.
  - intros k v Hk Hv H. rewrite dict_get_doc_to_json, H. unfold json_field. simpl.
    apply String.eqb_neq in Hk. rewrite Hk.
    destruct v; try reflexivity. now contradiction (Hv t).
  - intros k H. now rewrite dict_get_doc_to_json, H.
  - intros k v t Hin. rewrite doc_to_json_unfold in Hin.
    apply in_map_iff in Hin as ([k' v'] & Heq & _).
    destruct v'; injection Heq as <- <-; discriminate.
  - rewrite (doc_to_json_unfold (doc_to_json d)).
    rewrite dict_get_doc_to_json.
    destruct (dict_get d "_id") as [i|] eqn:Hid; simpl option_map.
    + unfold json_field. simpl String.eqb. cbv iota. simpl py_str.
      rewrite dict_set_same.
      * rewrite doc_to_json_unfold. apply iso_values_idempotent.
      * rewrite dict_get_doc_to_json, Hid. reflexivity.
    + rewrite doc_to_json_unfold. apply iso_values_idempotent.
Qed.

(** ** Login and the session *)

Section Login.

Lemma admin_login_match req e w :
  credentials_match req e ->
  admin_login req e w
  = (Redirect "admin_dashboard",
     set_session (<["admin" := VBool true]> (session w)) w).
Proof.
  intros (Hm & Hu & Hp). unfold admin_login. rewrite Hm, Hu, Hp.
  now rewrite !String.eqb_refl.
Qed.

Lemma admin_login_mismatch req e w :
  ~ credentials_match req e ->
  snd (admin_login req e w) = w
  /\ exists ctx, fst (admin_login req e w) = Render "admin_login.html" ctx 200.
Proof.
  intros Hno. unfold admin_login. destruct (method req) eqn:Hm.
  - split; [reflexivity|]. eexists. reflexivity.
  - destruct (String.eqb _ _ && String.eqb _ _) eqn:E.
    + exfalso. apply Hno. apply andb_true_iff in E as [Eu Ep].
      apply String.eqb_eq in Eu, Ep. now repeat split.
    + split; [reflexivity|]. eexists. reflexivity.
Qed.

End Login.

(** X7. [admin_login] sets the admin flag exactly when a [POST] carries the
    configured user name and password, compared as they are (no stripping;
    "admin" and "acmvitap" when the environment sets none): then it
    redirects to the dashboard and the session gains the flag; otherwise it
    renders the login page and changes nothing. The collections, the
    flashed messages and the operation log are never changed. *)
Theorem admin_login_grants_iff_credentials req e w :
  let r := fst (admin_login req e w) in
  let w' := snd (admin_login req e w) in
  events_collection w' = events_collection w
  /\ teams_collection w' = teams_collection w
  /\ legacy_collection w' = legacy_collection w
  /\ flashes w' = flashes w
  /\ oplog w' = oplog w
  /\ (credentials_match req e ->
      r = Redirect "admin_dashboard"
      /\ session w' = <["admin" := VBool true]> (session w))
  /\ (~ credentials_match req e ->
      w' = w /\ exists ctx, r = Render "admin_login.html" ctx 200)
  /\ (session w' !! "admin" <> None
      <-> session w !! "admin" <> None \/ credentials_match req e).
Proof.
  cbv zeta.
  assert (Hdec : credentials_match req e \/ ~ credentials_match req e).
  { unfold credentials_match. destruct (method req).
    - right. intros [H _]. discriminate.
    - destruct (String.eqb_spec (form_get (form req) "username" EmptyString)
                                (getenv e "ADMIN_USER" "admin"));
      destruct (String.eqb_spec (form_get (form req) "password" EmptyString)
                                (getenv e "ADMIN_PASS" "acmvitap"));
      tauto. }
  destruct Hdec as [Hok | Hno].
  - rewrite (admin_login_match _ _ _ Hok). simpl.
    do 5 (split; [reflexivity|]).
    split; [intros _; split; reflexivity|].
    split; [intros Hno; contradiction|].
    split; [intros _; now right|].
    intros _. rewrite lookup_insert_eq. discriminate.
  - destruct (admin_login_mismatch req e w Hno) as [Hw Hr]. rewrite Hw.
    do 5 (split; [reflexivity|]).
    split; [intros Hok; contradiction|].
    split; [intros _; split; [reflexivity|exact Hr]|].
    split; [intros H; now left|].
    intros [H|H]; [exact H|contradiction].
Qed.

(** X8. The session through login and logout: after [logout] every guarded
    view answers with the redirect to the login page; after a login with
    the configured credentials the guard lets the view run; after a failed
    login from a session without the flag the guard still blocks. *)
Theorem session_lifecycle (view : handler) req e w req' e' :
  admin_required view req' e' (snd (logout req e w))
  = (Redirect "admin_login", snd (logout req e w))
  /\ (credentials_match req e ->
      admin_required view req' e' (snd (admin_login req e w))
      = view req' e' (snd (admin_login req e w)))
  /\ (session w !! "admin" = None -> ~ credentials_match req e ->
      admin_required view req' e' (snd (admin_login req e w))
      = (Redirect "admin_login", snd (admin_login req e w))).
Proof.
  split; [|split].
  - apply admin_required_blocks. simpl. apply lookup_delete_eq.
  - intros Hok. rewrite (admin_login_match _ _ _ Hok). simpl snd.
    apply (admin_required_passes _ _ _ _ (VBool true)). simpl.
    apply lookup_insert_eq.
  - intros Hnone Hno. destruct (admin_login_mismatch req e w Hno) as [-> _].
    now apply admin_required_blocks.
Qed.

Lemma admin_login_grants_iff_credentials_witness :
  fst (admin_login
         (Request POST [("username", "admin"); ("password", "acmvitap")] [])
         Sample.env0 Sample.world0) = Redirect "admin_dashboard"
  /\ session (snd (admin_login
                     (Request POST [("username", "admin"); ("password", "acmvitap")] [])
                     Sample.env0 Sample.world0))
     = <["admin" := VBool true]> (session Sample.world0)
  /\ snd (admin_login
            (Request POST [("username", "admin "); ("password", "acmvitap")] [])
            Sample.env0 Sample.world0) = Sample.world0.
Proof.
  destruct (admin_login_grants_iff_credentials
              (Request POST [("username", "admin"); ("password", "acmvitap")] [])
              Sample.env0 Sample.world0) as (_ & _ & _ & _ & _ & Hok & _).
  destruct (admin_login_grants_iff_credentials
              (Request POST [("username", "admin "); ("password", "acmvitap")] [])
              Sample.env0 Sample.world0) as (_ & _ & _ & _ & _ & _ & Hno & _).
  destruct Hok as [Hr Hs]; [repeat split|].
  destruct Hno as [Hw _]; [intros (_ & Hu & _); discriminate|].
  split; [exact Hr|]. split; [exact Hs|exact Hw].
Defined.

(** ** Deleting events and teams *)

Section Deleting.




End Deleting.





(** ** The team list and the team edit loop *)

Section TeamList.



End TeamList.



Section EditLoop.

(** A form of [n] fields lacks the name field of one of [n + 1] positions. *)
Lemma name_keys_not_all_present f :
  ~ (forall j, (j < S (List.length f))%nat ->
       form_mem f (member_key (1 + Z.of_nat j) "name") = true).
Proof.
  intros Hkeys.
  set (keys := map (fun j => member_key (1 + Z.of_nat j) "name")
                   (seq 0 (S (List.length f)))).
  assert (Hnd : List.NoDup keys).
  { apply NoDup_map_NoDup_ForallPairs; [|apply seq_NoDup].
    intros a b _ _ Hab. apply member_key_inj in Hab. lia. }
  assert (Hincl : incl keys (map fst f)).
  { intros k Hk. apply in_map_iff in Hk as (j & <- & Hj).
    apply in_seq in Hj. apply form_mem_In, Hkeys. lia. }
  pose proof (List.NoDup_incl_length Hnd Hincl) as Hlen.
  unfold keys in Hlen. rewrite !length_map, length_seq in Hlen. lia.
Qed.

Lemma all_or_first_false (P : nat -> bool) n :
  (forall j, (j < n)%nat -> P j = true)
  \/ exists j, (j < n)%nat /\ P j = false
               /\ forall i, (i < j)%nat -> P i = true.
Proof.
  induction n as [|n [Hall | (j & Hj & Hf & Hbefore)]].
  - left. intros j Hj. lia.
  - destruct (P n) eqn:Hn.
    + left. intros j Hj. destruct (Nat.eq_dec j n) as [->|]; [exact Hn|].
      apply Hall. lia.
    + right. exists n. repeat split; auto.
  - right. exists j. repeat split; auto.
Qed.

Lemma edit_members_loop_prefix f k :
  form_mem f (member_key k "name") = false ->
  forall fuel i acc,
    i <= k ->
    (forall j, i <= j < k -> form_mem f (member_key j "name") = true) ->
    (Z.to_nat (k - i) < fuel)%nat ->
    edit_members_loop fuel f i acc
    = Some (acc ++ map (member_at f)
                       (List.filter (edit_kept f) (py_range i k)))%list.
Proof.
  intros Hgap. induction fuel as [|fuel IH]; intros i acc Hik Hpresent Hfuel; [lia|].
  simpl. destruct (Z.eq_dec i k) as [->|Hne].
  - rewrite Hgap. simpl. unfold py_range. rewrite Z.sub_diag. simpl.
    now rewrite app_nil_r.
  - rewrite Hpresent by lia. simpl negb. cbv iota.
    rewrite (py_range_cons i k) by lia. simpl List.filter.
    change (strip (form_get f (member_key i "name") EmptyString))
      with (member_field f i "name").
    fold (edit_kept f i).
    destruct (edit_kept f i); rewrite IH; try lia;
      try (intros j Hj; apply Hpresent; lia).
    + simpl. now rewrite <- app_assoc.
    + reflexivity.
Qed.

End EditLoop.

(** X12. The members an admin team edit collects: there is a first
    position [k] (at most one more than the number of form fields) whose
    name field is absent from the form; the loop looks at the positions
    before [k] only and collects, in order, the records of those with a
    non-empty name, email or registration number. Fields of positions
    after the gap are ignored. When the collected list is not empty it is
    what [$set] writes under [members]. *)
Theorem edit_members_up_to_gap f :
  exists k,
    1 <= k <= Z.of_nat (List.length f) + 1
    /\ form_mem f (member_key k "name") = false
    /\ (forall j, 1 <= j < k -> form_mem f (member_key j "name") = true)
    /\ edit_members f
       = map (member_at f) (List.filter (edit_kept f) (py_range 1 k))
    /\ forall now,
         edit_members f <> [] ->
         dict_get (edit_team_data f now) "members"
         = Some (VList (edit_members f)).
Proof.
  destruct (all_or_first_false
              (fun j => form_mem f (member_key (1 + Z.of_nat j) "name"))
              (S (List.length f))) as [Hall | (j & Hj & Hgap & Hbefore)].
  - now apply name_keys_not_all_present in Hall.
  - exists (1 + Z.of_nat j).
    assert (Hpresent : forall i, 1 <= i < 1 + Z.of_nat j ->
                         form_mem f (member_key i "name") = true).
    { intros i Hi. replace i with (1 + Z.of_nat (Z.to_nat (i - 1))) by lia.
      apply Hbefore. lia. }
    split; [lia|]. split; [exact Hgap|]. split; [exact Hpresent|].
    assert (Hloop := edit_members_loop_prefix f (1 + Z.of_nat j) Hgap
                       (S (List.length f)) 1 [] ltac:(lia) Hpresent ltac:(lia)).
    rewrite edit_members_spec in Hloop. injection Hloop as Hloop.
    split; [exact Hloop|].
    intros now Hne. unfold edit_team_data.
    destruct (edit_members f) as [|x l]; [congruence|]. apply dict_get_set_eq.
Qed.

(** ** Unique event names *)

Section UniqueNames.

Lemma lex_compare_antisym a : forall b, lex_compare b a = CompOpp (lex_compare a b).
Proof.
  induction a as [|x a IH]; intros [|y b]; simpl; try reflexivity.
  rewrite (Z.compare_antisym x y). destruct (x ?= y); simpl; auto.
Qed.

Lemma scalar_eqb_sym a b : Mongo.scalar_eqb a b = Mongo.scalar_eqb b a.
Proof.
  destruct a, b; simpl; try reflexivity.
  - now destruct b0, b.
  - apply Z.eqb_sym.
  - apply String.eqb_sym.
  - unfold datetime_compare. rewrite (lex_compare_antisym (datetime_key t)).
    now destruct (lex_compare _ _).
  - apply String.eqb_sym.
Qed.

Lemma has_duplicates_snoc k l x :
  has_duplicates k (l ++ [x])%list
  = has_duplicates k l
    || existsb (fun d => Mongo.scalar_eqb (Mongo.sort_key k x) (Mongo.sort_key k d)) l.
Proof.
  induction l as [|d r IH]; simpl; [reflexivity|].
  rewrite existsb_app, IH. simpl.
  rewrite (scalar_eqb_sym (Mongo.sort_key k x) (Mongo.sort_key k d)).
  destruct (existsb _ r), (Mongo.scalar_eqb _ _), (has_duplicates k r),
    (existsb _ r); reflexivity.
Qed.

Lemma collides_field uniq others d k :
  In k uniq ->
  Mongo.collides uniq others d = false ->
  existsb (fun d' => Mongo.scalar_eqb (Mongo.sort_key k d) (Mongo.sort_key k d'))
          others = false.
Proof.
  unfold Mongo.collides. intros Hin Hc. apply not_true_is_false. intros Hex.
  assert (Htrue : existsb (fun k0 =>
            existsb (fun d' => Mongo.scalar_eqb (Mongo.sort_key k0 d)
                                                (Mongo.sort_key k0 d')) others)
            uniq = true) by (apply existsb_exists; eauto).
  congruence.
Qed.

Lemma insert_one_cases c d fresh r c' :
  Mongo.insert_one c d fresh = (r, c') ->
  c' = c
  \/ exists d',
       Mongo.docs c' = (Mongo.docs c ++ [d'])%list
       /\ Mongo.unique_fields c' = Mongo.unique_fields c
       /\ Mongo.collides ("_id" :: Mongo.unique_fields c) (Mongo.docs c) d' = false.
Proof.
  unfold Mongo.insert_one.
  destruct (negb _); [intros [= <- <-]; now left|].
  destruct (Mongo.collides _ _ _) eqn:Hc; intros [= <- <-]; [now left|].
  right. eexists. simpl. repeat split. exact Hc.
Qed.

Lemma collides_true uniq others d k d' :
  In k uniq -> In d' others ->
  Mongo.scalar_eqb (Mongo.sort_key k d) (Mongo.sort_key k d') = true ->
  Mongo.collides uniq others d = true.
Proof.
  intros Hk Hd Heq. unfold Mongo.collides. apply existsb_exists.
  exists k. split; [exact Hk|]. apply existsb_exists. eauto.
Qed.

(** The event collection after a request to [admin_events]: as before, or
    what an insert of some document left. *)
Lemma admin_events_events req e w :
  events_collection (snd (admin_events req e w)) = events_collection w
  \/ exists doc r,
       Mongo.insert_one (events_collection w) doc (new_oid e)
       = (r, events_collection (snd (admin_events req e w))).
Proof.
  unfold admin_events, admin_required.
  destruct (session w !! "admin"); [|now left].
  unfold admin_events_view. destruct (method req); [now left|].
  unfold db_insert_one. simpl get_coll.
  match goal with
  | |- context [Mongo.insert_one ?c ?doc ?fresh] =>
      destruct (Mongo.insert_one c doc fresh) as [r c'] eqn:Hins
  end.
  right. do 2 eexists. rewrite Hins. f_equal.
  destruct r as [[]|]; reflexivity.
Qed.

Lemma event_doc_encodable name rtn mn mx act now fresh :
  1 <= mn <= mx -> mx < 2 ^ 63 ->
  Mongo.dict_encodable
    [("_id", VObjectId fresh); ("event_name", VStr name);
     ("require_team_name", VBool rtn); ("min_members", VInt mn);
     ("max_members", VInt mx); ("active", VBool act);
     ("created_at", VDatetime now)] = true.
Proof.
  intros Hb Hmx. unfold Mongo.dict_encodable. simpl.
  replace (- 2 ^ 63 <=? mn) with true by (symmetry; apply Z.leb_le; lia).
  replace (mn <? 2 ^ 63) with true by (symmetry; apply Z.ltb_lt; lia).
  replace (- 2 ^ 63 <=? mx) with true by (symmetry; apply Z.leb_le; lia).
  replace (mx <? 2 ^ 63) with true by (symmetry; apply Z.ltb_lt; lia).
  reflexivity.
Qed.

Lemma insert_one_no_id c d fresh :
  dict_get d "_id" = None ->
  Mongo.insert_one c d fresh
  = if negb (Mongo.dict_encodable (("_id", VObjectId fresh) :: d))
    then (inl OverflowError, c)
    else if Mongo.collides ("_id" :: Mongo.unique_fields c) (Mongo.docs c)
                           (to_bson (("_id", VObjectId fresh) :: d))
         then (inl DuplicateKeyError, c)
         else (inr (VObjectId fresh),
               Mongo.Collection
                 (Mongo.docs c ++ [to_bson (("_id", VObjectId fresh) :: d)])
                 (Mongo.unique_fields c)).
Proof. intros H. unfold Mongo.insert_one. rewrite H. reflexivity. Qed.

Lemma init_db_events w :
  Mongo.docs (events_collection (init_db w)) = Mongo.docs (events_collection w).
Proof.
  unfold init_db, create_unique_index.
  destruct (existsb _ _); [now destruct w as [s [ed eu] t l fl o]|].
  now destruct (has_duplicates _ _).
Qed.

End UniqueNames.

(** X13. Unique event names. [init_db] changes no document, session, flash
    or registration index; when no two events agree on [event_name] it
    leaves the unique index on that field in place, and when two do (and
    the index is not there yet) it changes nothing. With the index in
    place a request to [admin_events] keeps the index and keeps the event
    names distinct, and an admin's submission of a name an event already
    has (after stripping) stores nothing and flashes "Event name already
    exists.". Without the index the same submission is stored. *)
Theorem event_names_stay_unique :
  (forall w,
      Mongo.docs (events_collection (init_db w)) = Mongo.docs (events_collection w)
      /\ teams_collection (init_db w) = teams_collection w
      /\ legacy_collection (init_db w) = legacy_collection w
      /\ session (init_db w) = session w
      /\ flashes (init_db w) = flashes w
      /\ (distinct_on "event_name" (Mongo.docs (events_collection w)) ->
          In "event_name" (Mongo.unique_fields (events_collection (init_db w))))
      /\ (~ In "event_name" (Mongo.unique_fields (events_collection w)) ->
          ~ distinct_on "event_name" (Mongo.docs (events_collection w)) ->
          init_db w = w))
  /\ (forall req e w,
        In "event_name" (Mongo.unique_fields (events_collection w)) ->
        distinct_on "event_name" (Mongo.docs (events_collection w)) ->
        In "event_name"
           (Mongo.unique_fields (events_collection (snd (admin_events req e w))))
        /\ distinct_on "event_name"
             (Mongo.docs (events_collection (snd (admin_events req e w)))))
  /\ (forall req e w x d,
        session w !! "admin" = Some x ->
        method req = POST ->
        In d (Mongo.docs (events_collection w)) ->
        dict_get d "event_name"
        = Some (VStr (strip (form_get (form req) "event_name" EmptyString))) ->
        read_max_members (form req) (read_min_members (form req)) < 2 ^ 63 ->
        (In "event_name" (Mongo.unique_fields (events_collection w)) ->
         fst (admin_events req e w) = Redirect "admin_events"
         /\ events_collection (snd (admin_events req e w)) = events_collection w
         /\ flashes (snd (admin_events req e w))
            = (flashes w ++ [("error", Msg "Event name already exists.")])%list)
        /\ (Mongo.unique_fields (events_collection w) = [] ->
            Mongo.find_one (events_collection w)
                           [("_id", Mongo.Equals (VObjectId (new_oid e)))] = None ->
            List.length (Mongo.docs (events_collection (snd (admin_events req e w))))
            = S (List.length (Mongo.docs (events_collection w)))
            /\ flashes (snd (admin_events req e w))
               = (flashes w ++ [("success", Msg "Event created.")])%list)).
Proof.
  split; [|split].
  - intros w. split; [apply init_db_events|].
    unfold init_db, create_unique_index.
    destruct (existsb (String.eqb "event_name")
                      (Mongo.unique_fields (events_collection w))) eqn:Hex.
    + assert (Hin : In "event_name" (Mongo.unique_fields (events_collection w))).
      { apply existsb_exists in Hex as (k & Hk & Heq).
        apply String.eqb_eq in Heq. now subst k. }
      clear Hex. destruct w as [s [ed eu] t l fl o]. simpl in Hin. simpl.
      repeat split; auto; try (intros Hno; now contradiction Hno).
    + unfold distinct_on.
      destruct (has_duplicates "event_name" (Mongo.docs (events_collection w)));
        simpl; repeat split; auto; try discriminate; try (now left).
      intros _ Hnot. now contradiction Hnot.
  - intros req e w Hidx Hdist.
    destruct (admin_events_events req e w) as [-> | (doc & r & Hins)]; [auto|].
    apply insert_one_cases in Hins as [-> | (d' & Hdocs & Huniq & Hcol)]; [auto|].
    rewrite Huniq, Hdocs. split; [exact Hidx|].
    unfold distinct_on in *. rewrite has_duplicates_snoc, Hdist. simpl.
    apply (collides_field _ _ _ "event_name") in Hcol; [exact Hcol|now right].
  - intros req e w x d Hadmin Hpost Hin Hname Hmax.
    pose proof (read_members_bounds (form req)) as Hb.
    unfold admin_events.
    rewrite (admin_required_passes _ _ _ _ x Hadmin).
    unfold admin_events_view. rewrite Hpost.
    unfold db_insert_one. simpl get_coll.
    rewrite insert_one_no_id by reflexivity.
    rewrite event_doc_encodable by assumption. simpl negb. cbv iota.
    split.
    + intros Hidx.
      rewrite (collides_true _ _ _ "event_name" d);
        [split; [reflexivity|split; reflexivity] | now right | exact Hin |].
      unfold Mongo.sort_key, dict_get_default. rewrite Hname.
      apply String.eqb_refl.
    + intros Huniq Hfresh. rewrite Huniq.
      rewrite (fresh_id_no_collision _ (new_oid e)) by (auto; reflexivity).
      simpl. rewrite length_app. simpl. split; [lia|reflexivity].
Qed.

Lemma event_names_stay_unique_witness :
  flashes (snd (admin_events
                  (Sample.post [("event_name", " Hackathon "); ("min_members", "1")])
                  Sample.env0 Sample.admin_world0))
  = [("error", Msg "Event name already exists.")]
  /\ events_collection
       (snd (admin_events
               (Sample.post [("event_name", " Hackathon "); ("min_members", "1")])
               Sample.env0 Sample.admin_world0))
     = events_collection Sample.admin_world0.
Proof.
  destruct event_names_stay_unique as (_ & _ & Hdup).
  destruct (Hdup (Sample.post [("event_name", " Hackathon "); ("min_members", "1")])
              Sample.env0 Sample.admin_world0 (VBool true) Sample.hackathon
              eq_refl eq_refl (or_introl eq_refl) eq_refl eq_refl)
    as [Hidx _].
  destruct (Hidx (or_introl eq_refl)) as (_ & Hev & Hfl).
  split; [exact Hfl|exact Hev].
Defined.

(** ** Requests that only read *)

(** Splits the next [match] of the goal on its scrutinee. *)
Ltac break_match :=
  match goal with
  | |- context [match ?x with _ => _ end] => destruct x
  end.

(** X14. The reading requests leave the data alone: for each public page,
    each listing, view, export and stats route, and each [GET] to a route
    that also takes [POST], the events, the registrations, the legacy
    documents and the session after the request are those before it,
    logged in or not; the store is read at most. *)
Theorem read_only_requests_keep_data h req e w :
  read_only h req ->
  events_collection (snd (h req e w)) = events_collection w
  /\ teams_collection (snd (h req e w)) = teams_collection w
  /\ legacy_collection (snd (h req e w)) = legacy_collection w
  /\ session (snd (h req e w)) = session w
  /\ exists ops,
       oplog (snd (h req e w)) = (oplog w ++ ops)%list
       /\ forallb is_read ops = true.
Proof.
  intros Hro.
  assert (Hlog0 : exists ops, oplog w = (oplog w ++ ops)%list
                              /\ forallb is_read ops = true)
    by (exists []; now rewrite app_nil_r).
  destruct Hro as [req|req|req|req|req|req|id req Hm|req Hm|req|req Hm|id req Hm
                  |req|rx req|id req|id req Hm|xl req|xl req|req|req|req|req].
  - repeat split; auto.
  - repeat split; auto.
  - repeat split; auto.
  - repeat split; auto.
  - unfold choose_event, db_find. cbv beta iota zeta.
    repeat split; auto. now exists [DbFind Events].
  - repeat split; auto.
  - unfold team_register. rewrite Hm. unfold db_find_one.
    destruct id as [[|c id']|]; try (repeat split; now auto).
    destruct (ObjectId (String c id')); [repeat split; now auto|].
    cbv beta iota zeta. repeat break_match; repeat split; auto;
      now exists [DbFindOne Events].
  - unfold admin_login. rewrite Hm. repeat split; auto.
  - unfold admin_dashboard, admin_required. break_match; repeat split; auto.
  - unfold admin_events, admin_required, admin_events_view. rewrite Hm.
    unfold db_find. break_match; cbv beta iota zeta; repeat split; auto.
    now exists [DbFind Events].
  - unfold admin_edit_event, admin_required, admin_edit_event_view. rewrite Hm.
    unfold db_find_one. cbv beta iota zeta.
    repeat break_match; repeat split; auto; now exists [DbFindOne Events].
  - unfold view_registered_teams, admin_required, view_registered_teams_view,
      db_find. break_match; cbv beta iota zeta; repeat split; auto.
    now exists [DbFind Teams].
  - unfold admin_teams, admin_required, admin_teams_view.
    break_match; [|repeat split; now auto].
    break_match.
    destruct (team_selection _ _ _) as [selected|];
      [destruct (Mongo.encodable _ && Mongo.encodable _)|];
      repeat split; auto;
      try (exists [DbCount Teams; DbFind Teams]; simpl;
           now rewrite <- app_assoc);
      now exists [DbCount Teams].
  - unfold admin_view_team, admin_required, admin_view_team_view, db_find_one.
    cbv beta iota zeta.
    repeat break_match; repeat split; auto; now exists [DbFindOne Teams].
  - unfold admin_edit_team, admin_required, admin_edit_team_view. rewrite Hm.
    unfold db_find_one. cbv beta iota zeta.
    repeat break_match; repeat split; auto; now exists [DbFindOne Teams].
  - unfold export_excel, admin_required, _export_teams, db_find.
    cbv beta iota zeta.
    repeat break_match; repeat split; auto; now exists [DbFind Teams].
  - unfold admin_export_teams, admin_required, _export_teams, db_find.
    cbv beta iota zeta.
    repeat break_match; repeat split; auto; now exists [DbFind Teams].
  - unfold admin_stats, admin_required, stats_response, _compute_stats,
      db_count_documents. cbv beta iota zeta.
    break_match; repeat split; auto.
    exists [DbCount Teams; DbCount Teams]. simpl. now rewrite <- app_assoc.
  - unfold public_stats, stats_response, _compute_stats, db_count_documents.
    cbv beta iota zeta. repeat split; auto.
    exists [DbCount Teams; DbCount Teams]. simpl. now rewrite <- app_assoc.
  - repeat split; auto.
  - unfold legacy_teams, admin_required, legacy_teams_view, db_find.
    break_match; cbv beta iota zeta; repeat split; auto.
    now exists [DbFind Legacy].
Qed.

Lemma read_only_requests_keep_data_witness :
  events_collection (snd (team_register (Some Sample.hackathon_id) Sample.get
                            Sample.env0 Sample.world0))
  = events_collection Sample.world0
  /\ teams_collection (snd (team_register (Some Sample.hackathon_id) Sample.get
                              Sample.env0 Sample.world0))
     = teams_collection Sample.world0
  /\ oplog (snd (team_register (Some Sample.hackathon_id) Sample.get
                   Sample.env0 Sample.world0)) = [DbFindOne Events].
Proof.
  destruct (read_only_requests_keep_data (team_register (Some Sample.hackathon_id))
              Sample.get Sample.env0 Sample.world0
              (ro_team_register_get (Some Sample.hackathon_id) Sample.get eq_refl))
    as (He & Ht & _).
  split; [exact He|]. split; [exact Ht|reflexivity].
Defined.

(** ** Stats *)

Section Stats.

Lemma in_today_range t now :
  valid_time t ->
  Mongo.in_range (Datetime (year now) (month now) (day now) 0 0 0 0)
                 (Datetime (year now) (month now) (day now) 23 59 59 999999)
                 (VDatetime t) = true
  <-> same_day t now /\ ~ last_millisecond t.
Proof.
  unfold valid_time, same_day, last_millisecond.
  destruct t as [yt mt dt h mi s us], now as [y m d h0 mi0 s0 us0].
  simpl year; simpl month; simpl day; simpl hour; simpl minute; simpl second;
    simpl microsecond.
  intros Hv.
  unfold Mongo.in_range, bson_datetime, datetime_leb, datetime_ltb,
    datetime_compare, datetime_key, lex_compare.
  simpl year; simpl month; simpl day; simpl hour; simpl minute; simpl second;
    simpl microsecond.
  change (0 / 1000 * 1000) with 0. change (999999 / 1000 * 1000) with 999000.
  rewrite (Z.compare_antisym yt y), (Z.compare_antisym mt m),
    (Z.compare_antisym dt d), (Z.compare_antisym h 0), (Z.compare_antisym mi 0),
    (Z.compare_antisym s 0), (Z.compare_antisym us 0).
  destruct (Z.compare_spec yt y); simpl; [|split; [discriminate|lia]..].
  destruct (Z.compare_spec mt m); simpl; [|split; [discriminate|lia]..].
  destruct (Z.compare_spec dt d); simpl; [|split; [discriminate|lia]..].
  destruct (Z.compare_spec h 0); simpl; try lia;
    destruct (Z.compare_spec h 23); simpl; try lia;
    try (split; [intros _; lia|reflexivity]);
    try (destruct (Z.compare_spec mi 0); simpl; try lia);
    destruct (Z.compare_spec mi 59); simpl; try lia;
    try (split; [intros _; lia|reflexivity]);
    try (destruct (Z.compare_spec s 0); simpl; try lia);
    destruct (Z.compare_spec s 59); simpl; try lia;
    try (split; [intros _; lia|reflexivity]);
    try (destruct (Z.compare_spec us 0); simpl; try lia);
    destruct (Z.compare_spec us 999000); simpl; try lia;
    try (split; [intros _; lia|reflexivity]);
    try (split; [discriminate|lia]).
Qed.

Lemma filter_all (A : Type) (p : A -> bool) (l : list A) :
  (forall a, In a l -> p a = true) -> List.filter p l = l.
Proof.
  induction l as [|a l IH]; simpl; intros H; [reflexivity|].
  rewrite (H a) by now left. f_equal. apply IH. intros; apply H; now right.
Qed.

Lemma filter_none (A : Type) (p : A -> bool) (l : list A) :
  (forall a, In a l -> p a = false) -> List.filter p l = [].
Proof.
  induction l as [|a l IH]; simpl; intros H; [reflexivity|].
  rewrite (H a) by now left. apply IH. intros; apply H; now right.
Qed.

End Stats.

(** X15. [_compute_stats] reads only: [total] is the number of
    registrations and [today] the number of those the range query selects,
    so [0 <= today <= total]. The bounds of the query reach the store cut
    to the millisecond, so a registration whose [created_at] is a datetime
    with the fields of a time of day is selected exactly when it is on the
    current UTC day before that day's last millisecond; one without
    [created_at], or with a string there, is not selected. Hence [today]
    is [total] when every registration was created on the current day
    before its last millisecond, and 0 when each was created on another
    day or in the last millisecond. On [GET] the public and the admin
    route answer with the same JSON. *)
Theorem compute_stats_counts req e w :
  let total := fst (fst (_compute_stats e w)) in
  let today := snd (fst (_compute_stats e w)) in
  total = Z.of_nat (List.length (Mongo.docs (teams_collection w)))
  /\ today = Mongo.count_documents (teams_collection w) (today_query (utcnow e))
  /\ 0 <= today <= total
  /\ same_data w (snd (_compute_stats e w))
  /\ (forall d t,
        dict_get d "created_at" = Some (VDatetime t) -> valid_time t ->
        (Mongo.matches (today_query (utcnow e)) d = true
         <-> same_day t (utcnow e) /\ ~ last_millisecond t))
  /\ (forall d, dict_get d "created_at" = None ->
        Mongo.matches (today_query (utcnow e)) d = false)
  /\ (forall d s, dict_get d "created_at" = Some (VStr s) ->
        Mongo.matches (today_query (utcnow e)) d = false)
  /\ ((forall d, In d (Mongo.docs (teams_collection w)) ->
         exists t, dict_get d "created_at" = Some (VDatetime t) /\ valid_time t
                   /\ same_day t (utcnow e) /\ ~ last_millisecond t) ->
      today = total)
  /\ ((forall d, In d (Mongo.docs (teams_collection w)) ->
         exists t, dict_get d "created_at" = Some (VDatetime t) /\ valid_time t
                   /\ (~ same_day t (utcnow e) \/ last_millisecond t)) ->
      today = 0)
  /\ (method req = GET ->
      fst (public_stats req e w)
      = Jsonify [("total", VInt total); ("today", VInt today)])
  /\ (forall x, method req = GET -> session w !! "admin" = Some x ->
        fst (admin_stats req e w) = fst (public_stats req e w)).
Proof.
  cbv zeta.
  assert (Hday : forall d t,
             dict_get d "created_at" = Some (VDatetime t) -> valid_time t ->
             (Mongo.matches (today_query (utcnow e)) d = true
              <-> same_day t (utcnow e) /\ ~ last_millisecond t)).
  { intros d t Hd Hv. unfold today_query. simpl Mongo.matches. rewrite Hd.
    simpl Mongo.field_in_range. rewrite andb_true_r. now apply in_today_range. }
  assert (Htoday : snd (fst (_compute_stats e w))
                   = Z.of_nat (List.length
                       (List.filter (Mongo.matches (today_query (utcnow e)))
                                    (Mongo.docs (teams_collection w)))))
    by reflexivity.
  split; [apply compute_stats_total|].
  split; [reflexivity|].
  split.
  { rewrite compute_stats_total, Htoday.
    pose proof (filter_length_le (Mongo.matches (today_query (utcnow e)))
                  (Mongo.docs (teams_collection w))) as Hle.
    lia. }
  split; [repeat split|].
  split; [exact Hday|].
  split.
  { intros d Hd. unfold today_query. simpl Mongo.matches. now rewrite Hd. }
  split.
  { intros d s Hd. unfold today_query. simpl Mongo.matches. now rewrite Hd. }
  split.
  { intros Hall. rewrite compute_stats_total, Htoday, filter_all; [reflexivity|].
    intros d Hin. destruct (Hall d Hin) as (t & Hd & Hv & Hs & Hl).
    apply (Hday d t Hd Hv). auto. }
  split.
  { intros Hall. rewrite Htoday, filter_none; [reflexivity|].
    intros d Hin. destruct (Hall d Hin) as (t & Hd & Hv & Hno).
    apply not_true_is_false. intros Hm. apply (Hday d t Hd Hv) in Hm.
    destruct Hm as [Hs Hl]. destruct Hno; contradiction. }
  split; [reflexivity|].
  intros x _ Hadmin. unfold admin_stats.
  now rewrite (admin_required_passes _ _ _ _ x Hadmin).
Qed.

Lemma compute_stats_counts_witness :
  Mongo.matches (today_query (utcnow Sample.env0))
                (dict_set Sample.team "created_at"
                          (VDatetime (Datetime 2024 3 15 23 59 59 998999))) = true
  /\ fst (fst (_compute_stats Sample.env0
                 (put_coll Teams
                    (Mongo.Collection
                       [dict_set Sample.team "created_at"
                          (VDatetime (Datetime 2024 3 15 23 59 59 999000))] [])
                    Sample.admin_world1))) = 1
  /\ snd (fst (_compute_stats Sample.env0
                 (put_coll Teams
                    (Mongo.Collection
                       [dict_set Sample.team "created_at"
                          (VDatetime (Datetime 2024 3 15 23 59 59 999000))] [])
                    Sample.admin_world1))) = 0.
Proof.
  destruct (compute_stats_counts Sample.get Sample.env0 Sample.admin_world1)
    as (_ & _ & _ & _ & Hday & _).
  destruct (compute_stats_counts Sample.get Sample.env0
              (put_coll Teams
                 (Mongo.Collection
                    [dict_set Sample.team "created_at"
                       (VDatetime (Datetime 2024 3 15 23 59 59 999000))] [])
                 Sample.admin_world1))
    as (Htotal & _ & _ & _ & _ & _ & _ & _ & Hnone & _).
  assert (Hv0 : valid_time (Datetime 2024 3 15 23 59 59 998999))
    by (unfold valid_time; simpl; lia).
  assert (Hv1 : valid_time (Datetime 2024 3 15 23 59 59 999000))
    by (unfold valid_time; simpl; lia).
  split; [|split].
  - apply (Hday (dict_set Sample.team "created_at"
                          (VDatetime (Datetime 2024 3 15 23 59 59 998999)))
                (Datetime 2024 3 15 23 59 59 998999) eq_refl Hv0).
    split; [repeat split|].
    unfold last_millisecond. simpl. lia.
  - exact Htotal.
  - apply Hnone. intros d [<-|[]].
    exists (Datetime 2024 3 15 23 59 59 999000).
    split; [reflexivity|]. split; [exact Hv1|]. right.
    unfold last_millisecond. simpl. lia.
Defined.

(** ** Listings *)

Section Listings.

Lemma bool_compare_antisym a b : Bool.compare b a = CompOpp (Bool.compare a b).
Proof. now destruct a, b. Qed.

Lemma bson_compare_antisym a b :
  Mongo.bson_compare b a = CompOpp (Mongo.bson_compare a b).
Proof.
  destruct a, b; simpl; try reflexivity.
  - apply bool_compare_antisym.
  - apply Z.compare_antisym.
  - apply String.compare_antisym.
  - apply lex_compare_antisym.
  - apply String.compare_antisym.
Qed.

Lemma insert_desc_permutation k x l : Permutation (Mongo.insert_desc k x l) (x :: l).
Proof.
  induction l as [|y r IH]; simpl; [reflexivity|].
  destruct (Mongo.bson_compare _ _); try reflexivity.
  rewrite IH. apply perm_swap.
Qed.

Lemma sort_desc_permutation k l : Permutation (Mongo.sort_desc k l) l.
Proof.
  unfold Mongo.sort_desc. induction l as [|x r IH]; simpl; [reflexivity|].
  rewrite insert_desc_permutation. now constructor.
Qed.

Lemma insert_desc_descending k x l :
  descending_on k l -> descending_on k (Mongo.insert_desc k x l).
Proof.
  induction l as [|y r IH]; simpl; [auto|].
  intros [Hhd Htl].
  destruct (Mongo.bson_compare (Mongo.sort_key k x) (Mongo.sort_key k y)) eqn:E.
  - simpl. split; [congruence|]. split; assumption.
  - simpl. specialize (IH Htl). split; [|exact IH].
    destruct r as [|z r']; simpl.
    + rewrite (bson_compare_antisym (Mongo.sort_key k x)), E. discriminate.
    + destruct (Mongo.bson_compare (Mongo.sort_key k x) (Mongo.sort_key k z));
        try exact Hhd;
        rewrite (bson_compare_antisym (Mongo.sort_key k x)), E; discriminate.
  - simpl. split; [congruence|]. split; assumption.
Qed.

Lemma sort_desc_descending k l : descending_on k (Mongo.sort_desc k l).
Proof.
  unfold Mongo.sort_desc. induction l as [|x r IH]; simpl; [exact I|].
  now apply insert_desc_descending.
Qed.

End Listings.

(** X16. The listings show every document once, newest first. For an
    admin, the registered-teams view, the event list and the legacy view
    render the serialised documents of their collection in an order that is
    a permutation of the collection and descending on [created_at]; the
    public chooser does the same for the events whose [active] is [True].
    The workbook export receives the serialised registrations in that
    order too. *)
Theorem listings_newest_first xl req e w x :
  session w !! "admin" = Some x ->
  (exists listed,
     fst (view_registered_teams req e w)
     = Render "registered_details.html" [("teams", CVal (docs_to_json listed))] 200
     /\ Permutation listed (Mongo.docs (teams_collection w))
     /\ descending_on "created_at" listed
     /\ fst (export_excel xl req e w)
        = SendFile (xl (map doc_to_json listed)) "team_details.xlsx" None)
  /\ (method req = GET ->
      exists listed,
        fst (admin_events req e w)
        = Render "admin_events.html" [("events", CVal (docs_to_json listed))] 200
        /\ Permutation listed (Mongo.docs (events_collection w))
        /\ descending_on "created_at" listed)
  /\ (exists listed,
        fst (legacy_teams req e w)
        = Render "legacy_teams.html" [("teams", CVal (docs_to_json listed))] 200
        /\ Permutation listed (Mongo.docs (legacy_collection w))
        /\ descending_on "created_at" listed)
  /\ (exists listed,
        fst (choose_event req e w)
        = Render "choose_event.html" [("events", CVal (docs_to_json listed))] 200
        /\ Permutation listed
             (List.filter (fun d => Mongo.field_equals (dict_get d "active")
                                                        (VBool true))
                          (Mongo.docs (events_collection w)))
        /\ descending_on "created_at" listed).
Proof.
  intros Hadmin. split; [|split; [|split]].
  - exists (Mongo.sort_desc "created_at" (Mongo.docs (teams_collection w))).
    unfold view_registered_teams, export_excel.
    rewrite !(admin_required_passes _ _ _ _ x Hadmin).
    unfold view_registered_teams_view, _export_teams, db_find. simpl get_coll.
    rewrite find_all. cbv beta iota zeta.
    split; [reflexivity|]. split; [apply sort_desc_permutation|].
    split; [apply sort_desc_descending|reflexivity].
  - intros Hget.
    exists (Mongo.sort_desc "created_at" (Mongo.docs (events_collection w))).
    unfold admin_events. rewrite (admin_required_passes _ _ _ _ x Hadmin).
    unfold admin_events_view, db_find. rewrite Hget. simpl get_coll.
    rewrite find_all. cbv beta iota zeta.
    split; [reflexivity|]. split; [apply sort_desc_permutation|].
    apply sort_desc_descending.
  - exists (Mongo.sort_desc "created_at" (Mongo.docs (legacy_collection w))).
    unfold legacy_teams. rewrite (admin_required_passes _ _ _ _ x Hadmin).
    unfold legacy_teams_view, db_find. simpl get_coll.
    rewrite find_all. cbv beta iota zeta.
    split; [reflexivity|]. split; [apply sort_desc_permutation|].
    apply sort_desc_descending.
  - exists (Mongo.sort_desc "created_at"
              (Mongo.find (events_collection w)
                          [("active", Mongo.Equals (VBool true))])).
    split; [reflexivity|]. split; [|apply sort_desc_descending].
    rewrite sort_desc_permutation. unfold Mongo.find.
    erewrite filter_ext; [reflexivity|].
    intros d. simpl. apply andb_true_r.
Qed.

Lemma listings_newest_first_witness :
  exists listed,
    fst (admin_events Sample.get Sample.env0 Sample.admin_world1)
    = Render "admin_events.html" [("events", CVal (docs_to_json listed))] 200
    /\ Permutation listed [Sample.hackathon; Sample.workshop]
    /\ descending_on "created_at" listed.
Proof.
  destruct (listings_newest_first (fun _ => EmptyString) Sample.get Sample.env0
              Sample.admin_world1 (VBool true) eq_refl) as (_ & Hevents & _).
  exact (Hevents eq_refl).
Defined.

(** X17. The export route of an admin picks the format from the [format]
    argument, lower-cased, [excel] when absent: anything but [csv] gives
    the workbook, exactly as [export_excel] does; [csv] gives the file
    [teams.csv], empty, when there is no registration, and raises
    [TypeError] when there is one. *)
Theorem export_format_dispatch xl req e w x :
  session w !! "admin" = Some x ->
  let fmt := str_map lower (form_get (args req) "format" "excel") in
  (form_lookup (args req) "format" = None -> fmt = "excel")
  /\ (fmt <> "csv" ->
      admin_export_teams xl req e w = export_excel xl req e w
      /\ exists data,
           fst (admin_export_teams xl req e w)
           = SendFile data "team_details.xlsx" None)
  /\ (fmt = "csv" -> Mongo.docs (teams_collection w) = [] ->
      fst (admin_export_teams xl req e w)
      = SendFile EmptyString "teams.csv" (Some "text/csv"))
  /\ (fmt = "csv" -> Mongo.docs (teams_collection w) <> [] ->
      fst (admin_export_teams xl req e w) = Uncaught TypeError).
Proof.
  intros Hadmin fmt. unfold admin_export_teams, export_excel.
  rewrite !(admin_required_passes _ _ _ _ x Hadmin). fold fmt.
  split; [|split; [|split]].
  - intros Hnone. unfold fmt, form_get. now rewrite Hnone.
  - intros Hne. apply String.eqb_neq in Hne.
    unfold _export_teams. rewrite Hne. simpl String.eqb.
    split; [reflexivity|]. eexists. unfold db_find. reflexivity.
  - intros -> Hempty. now rewrite export_csv_empty.
  - intros -> Hne. now rewrite export_csv_nonempty.
Qed.

Lemma export_format_dispatch_witness :
  fst (admin_export_teams (fun _ => "workbook") Sample.csv_request Sample.env0
         Sample.admin_world0)
  = SendFile EmptyString "teams.csv" (Some "text/csv")
  /\ fst (admin_export_teams (fun _ => "workbook") Sample.get Sample.env0
            Sample.admin_world1)
     = SendFile "workbook" "team_details.xlsx" None.
Proof.
  destruct (export_format_dispatch (fun _ => "workbook") Sample.csv_request
              Sample.env0 Sample.admin_world0 (VBool true) eq_refl)
    as (_ & _ & Hcsv & _).
  destruct (export_format_dispatch (fun _ => "workbook") Sample.get
              Sample.env0 Sample.admin_world1 (VBool true) eq_refl)
    as (_ & Hxl & _).
  split; [exact (Hcsv eq_refl eq_refl)|].
  destruct Hxl as [_ [data Hdata]]; [discriminate|].
  rewrite Hdata. vm_compute in Hdata. injection Hdata as <-. reflexivity.
Defined.

Section EditEvent.



(** An update that fails leaves the collection as it was, and no update
    touches the indexes. *)
Lemma update_one_result c q upd r c' :
  Mongo.update_one c q upd = (r, c') ->
  Mongo.unique_fields c' = Mongo.unique_fields c
  /\ (c' = c \/ exists n, r = inr n).
Proof.
  unfold Mongo.update_one. destruct (negb _); [intros [= <- <-]; auto|].
  destruct (Mongo.update_first _ _ _ _ _) as [x|[n l]];
    intros [= <- <-]; simpl; eauto.
Qed.

Lemma has_duplicates_middle k x b a :
  has_duplicates k (a ++ x :: b)%list
  = has_duplicates k (a ++ b)%list
    || existsb (fun d => Mongo.scalar_eqb (Mongo.sort_key k x) (Mongo.sort_key k d))
               (a ++ b)%list.
Proof.
  induction a as [|y a IH]; simpl.
  - apply orb_comm.
  - rewrite IH, !existsb_app. simpl.
    rewrite (scalar_eqb_sym (Mongo.sort_key k x) (Mongo.sort_key k y)).
    destruct (existsb _ a), (Mongo.scalar_eqb _ _), (existsb _ b),
      (has_duplicates k (a ++ b)), (existsb _ a), (existsb _ b); reflexivity.
Qed.

Lemma update_first_distinct k q upd uniq :
  In k uniq ->
  forall rest before n l,
    Mongo.update_first q upd uniq before rest = inr (n, l) ->
    has_duplicates k (before ++ rest)%list = false ->
    has_duplicates k l = false.
Proof.
  intros Hk. induction rest as [|x rest IH]; intros before n l; simpl.
  - intros [= <- <-]. now rewrite app_nil_r.
  - destruct (Mongo.matches q x).
    + destruct (Mongo.collides _ _ _) eqn:Hc; [discriminate|].
      intros [= <- <-]. rewrite !has_duplicates_middle.
      intros Hd. apply orb_false_elim in Hd as [Hd _]. rewrite Hd. simpl.
      now apply (collides_field uniq).
    + intros H Hd. apply (IH _ _ _ H). now rewrite <- app_assoc.
Qed.

Lemma update_one_distinct k c q upd r c' :
  In k (Mongo.unique_fields c) ->
  Mongo.update_one c q upd = (r, c') ->
  distinct_on k (Mongo.docs c) -> distinct_on k (Mongo.docs c').
Proof.
  intros Hk. unfold Mongo.update_one, distinct_on.
  destruct (negb _); [now intros [= <- <-]|].
  destruct (Mongo.update_first q _ (Mongo.unique_fields c) [] (Mongo.docs c))
    as [x|[n l]] eqn:Hu; intros [= <- <-]; [auto|].
  simpl. intros Hd. exact (update_first_distinct k _ _ _ Hk _ _ _ _ Hu Hd).
Qed.

(** An update that gives the first matching document the key some other
    document has is refused. *)
Lemma update_first_conflict k q upd uniq d2 :
  In k uniq ->
  Mongo.matches q d2 = false ->
  (forall d, Mongo.scalar_eqb (Mongo.sort_key k (Mongo.apply_set d upd))
                              (Mongo.sort_key k d2) = true) ->
  forall rest before,
    In d2 before \/ In d2 rest ->
    (exists d, In d rest /\ Mongo.matches q d = true) ->
    Mongo.update_first q upd uniq before rest = inl DuplicateKeyError.
Proof.
  intros Hk Hno Heq. induction rest as [|x rest IH]; intros before Hin Hex.
  - destruct Hex as (d & [] & _).
  - simpl. destruct (Mongo.matches q x) eqn:Hm.
    + rewrite (collides_true uniq _ _ k d2); auto.
      apply in_or_app. destruct Hin as [?|[->|?]]; auto. congruence.
    + apply IH.
      * destruct Hin as [?|[->|?]]; auto; left; apply in_or_app; simpl; auto.
      * destruct Hex as (d & [->|Hd] & Hmd); [congruence|eauto].
Qed.

Lemma event_update_encodable name rtn mn mx act now :
  1 <= mn <= mx -> mx < 2 ^ 63 ->
  Mongo.dict_encodable
    [("event_name", VStr name); ("require_team_name", VBool rtn);
     ("min_members", VInt mn); ("max_members", VInt mx);
     ("active", VBool act); ("updated_at", VDatetime now)] = true.
Proof.
  intros Hb Hmx. unfold Mongo.dict_encodable. simpl.
  replace (- 2 ^ 63 <=? mn) with true by (symmetry; apply Z.leb_le; lia).
  replace (mn <? 2 ^ 63) with true by (symmetry; apply Z.ltb_lt; lia).
  replace (- 2 ^ 63 <=? mx) with true by (symmetry; apply Z.leb_le; lia).
  replace (mx <? 2 ^ 63) with true by (symmetry; apply Z.ltb_lt; lia).
  reflexivity.
Qed.

Lemma apply_event_update f now d :
  edited_event f now d
    (Mongo.apply_set d
       (to_bson
          [("event_name", VStr (strip (form_get f "event_name" EmptyString)));
           ("require_team_name", VBool (checkbox f "require_team_name"));
           ("min_members", VInt (read_min_members f));
           ("max_members", VInt (read_max_members f (read_min_members f)));
           ("active", VBool (checkbox f "active"));
           ("updated_at", VDatetime now)])).
Proof.
  unfold edited_event.
  repeat (split;
    [unfold Mongo.apply_set; simpl fold_left;
     rewrite ?dict_get_set_ne by discriminate; apply dict_get_set_eq|]).
  intros k Hk. apply dict_get_apply_set_other.
  unfold event_update_keys in Hk. simpl in Hk. simpl.
  repeat match goal with
  | |- context [String.eqb k ?s] =>
      let E := fresh "E" in
      destruct (String.eqb k s) eqn:E;
        [apply String.eqb_eq in E; exfalso; apply Hk; rewrite E; tauto|]
  end.
  reflexivity.
Qed.

(** What a request of an admin to [admin_edit_event] leaves behind. *)
Lemma admin_edit_event_world id req e w x :
  session w !! "admin" = Some x ->
  let w' := snd (admin_edit_event id req e w) in
  (events_collection w' = events_collection w
   /\ teams_collection w' = teams_collection w
   /\ legacy_collection w' = legacy_collection w
   /\ session w' = session w
   /\ forall m, flashes w' <> (flashes w ++ [("success", m)])%list)
  \/ exists o r c',
       ObjectId id = inr o /\ method req = POST
       /\ Mongo.update_one (events_collection w)
            [("_id", Mongo.Equals (VObjectId o))]
            [("event_name",
              VStr (strip (form_get (form req) "event_name" EmptyString)));
             ("require_team_name", VBool (checkbox (form req) "require_team_name"));
             ("min_members", VInt (read_min_members (form req)));
             ("max_members",
              VInt (read_max_members (form req) (read_min_members (form req))));
             ("active", VBool (checkbox (form req) "active"));
             ("updated_at", VDatetime (utcnow e))] = (r, c')
       /\ events_collection w' = c'
       /\ teams_collection w' = teams_collection w
       /\ legacy_collection w' = legacy_collection w
       /\ session w' = session w
       /\ flashes w'
          = (flashes w
             ++ [match r with
                 | inr _ => ("success", Msg "Event updated.")
                 | inl DuplicateKeyError =>
                     ("error", Msg "Event name conflicts with existing event.")
                 | inl ex => ("error", MsgExc "Error: " ex)
                 end])%list.
Proof.
  intros Hadmin. unfold admin_edit_event.
  rewrite (admin_required_passes _ _ _ _ x Hadmin).
  unfold admin_edit_event_view. destruct (ObjectId id) as [err|o] eqn:Hoid.
  { left. simpl. repeat split; auto. intros m H.
    apply app_inv_head in H. discriminate. }
  unfold db_find_one. simpl get_coll.
  destruct (Mongo.find_one _ _) as [[|kv ev]|].
  1, 3: left; simpl; repeat split; auto; intros m H;
    apply app_inv_head in H; discriminate.
  destruct (method req) eqn:Hm.
  { left. simpl. repeat split; auto. intros m H.
    apply (f_equal (@List.length _)) in H. rewrite length_app in H.
    simpl in H. lia. }
  right. unfold db_update_one. simpl get_coll.
  match goal with
  | |- context [Mongo.update_one ?c ?q ?upd] =>
      destruct (Mongo.update_one c q upd) as [r c'] eqn:Hupd
  end.
  exists o, r, c'. split; [reflexivity|]. split; [reflexivity|].
  split; [first [reflexivity | exact Hupd]|].
  destruct r as [[]|]; simpl; repeat split; reflexivity.
Qed.

Lemma collides_false uniq others d :
  (forall k d', In k uniq -> In d' others ->
     Mongo.scalar_eqb (Mongo.sort_key k d) (Mongo.sort_key k d') = false) ->
  Mongo.collides uniq others d = false.
Proof.
  intros H. unfold Mongo.collides. apply not_true_is_false. intros Hex.
  apply existsb_exists in Hex as (k & Hk & Hex).
  apply existsb_exists in Hex as (d' & Hd' & Heq).
  rewrite (H k d' Hk Hd') in Heq. discriminate.
Qed.

Lemma scalar_eqb_other_name name k d :
  dict_get d k <> Some (VStr name) ->
  Mongo.scalar_eqb (VStr name) (Mongo.sort_key k d) = false.
Proof.
  unfold Mongo.sort_key, dict_get_default. intros Hne.
  destruct (dict_get d k) as [[]|]; simpl; try reflexivity.
  apply String.eqb_neq. congruence.
Qed.

Lemma find_at (A : Type) (p : A -> bool) before x after :
  (forall a, In a before -> p a = false) -> p x = true ->
  List.find p (before ++ x :: after)%list = Some x.
Proof.
  intros Hb Hx. induction before as [|a before IH]; simpl.
  - now rewrite Hx.
  - rewrite (Hb a) by now left. apply IH. intros; apply Hb; now right.
Qed.

(** An update of the only matching document, with no collision, replaces
    it where it stands. *)
Lemma update_first_at q upd uniq ev after :
  Mongo.matches q ev = true ->
  forall before acc,
    (forall d, In d before -> Mongo.matches q d = false) ->
    Mongo.collides uniq (acc ++ before ++ after)%list (Mongo.apply_set ev upd)
    = false ->
    Mongo.update_first q upd uniq acc (before ++ ev :: after)%list
    = inr (1, (acc ++ before ++ Mongo.apply_set ev upd :: after)%list).
Proof.
  intros Hev. induction before as [|d before IH]; intros acc Hb Hc; simpl.
  - rewrite Hev. simpl in Hc. now rewrite Hc.
  - rewrite (Hb d) by now left.
    rewrite IH; [now rewrite <- app_assoc| |].
    + intros; apply Hb; now right.
    + now rewrite <- app_assoc.
Qed.

(** The source's clamping is the one the data model prescribes. *)
Lemma read_members_spec f mn mx :
  spec_event_bounds f mn mx
  <-> mn = read_min_members f /\ mx = read_max_members f (read_min_members f).
Proof.
  unfold spec_event_bounds, read_min_members, read_max_members.
  destruct (form_lookup f "min_members") as [s|];
    [destruct (int_of_str s)|];
    (destruct (form_lookup f "max_members") as [s'|];
     [destruct (int_of_str s')|]);
    (split; [intros [-> ->]|intros [-> ->]]); rewrite ?Z.max_id;
    split; reflexivity.
Qed.

(** An admin's create form whose name no event has is stored. *)
Lemma admin_events_stored req e w x :
  session w !! "admin" = Some x ->
  method req = POST ->
  Mongo.find_one (events_collection w)
                 [("_id", Mongo.Equals (VObjectId (new_oid e)))] = None ->
  (forall k, In k (Mongo.unique_fields (events_collection w)) ->
             k = "event_name") ->
  (forall d, In d (Mongo.docs (events_collection w)) ->
     dict_get d "event_name"
     <> Some (VStr (strip (form_get (form req) "event_name" EmptyString)))) ->
  read_max_members (form req) (read_min_members (form req)) < 2 ^ 63 ->
  let f := form req in
  let d :=
    [("_id", VObjectId (new_oid e));
     ("event_name", VStr (strip (form_get f "event_name" EmptyString)));
     ("require_team_name", VBool (checkbox f "require_team_name"));
     ("min_members", VInt (read_min_members f));
     ("max_members", VInt (read_max_members f (read_min_members f)));
     ("active", VBool true);
     ("created_at", VDatetime (bson_datetime (utcnow e)))] in
  fst (admin_events req e w) = Redirect "admin_events"
  /\ Mongo.docs (events_collection (snd (admin_events req e w)))
     = (Mongo.docs (events_collection w) ++ [d])%list
  /\ flashes (snd (admin_events req e w))
     = (flashes w ++ [("success", Msg "Event created.")])%list.
Proof.
  intros Hadmin Hpost Hfresh Huniq Hname Hmax f d.
  pose proof (read_members_bounds (form req)) as Hb.
  unfold admin_events. rewrite (admin_required_passes _ _ _ _ x Hadmin).
  unfold admin_events_view. rewrite Hpost.
  unfold db_insert_one. simpl get_coll.
  rewrite insert_one_no_id by reflexivity.
  rewrite event_doc_encodable by assumption. simpl negb. cbv iota.
  rewrite collides_false; [repeat split|].
  intros k d' [<-|Hk] Hd'.
  - apply not_true_is_false. intros Heq.
    change (Mongo.sort_key "_id" _) with (VObjectId (new_oid e)) in Heq at 1.
    apply scalar_eqb_oid_field in Heq.
    pose proof (find_none _ _ Hfresh d' Hd') as Hm. simpl in Hm.
    rewrite Heq in Hm. discriminate.
  - rewrite (Huniq k Hk). apply scalar_eqb_other_name. now apply Hname.
Qed.

(** An admin's edit form for the only event of an identifier, with a name
    no other event has, is stored. *)
Lemma admin_edit_event_stored id o req e w x before ev after :
  session w !! "admin" = Some x ->
  method req = POST ->
  ObjectId id = inr o ->
  Mongo.docs (events_collection w) = (before ++ ev :: after)%list ->
  Mongo.matches [("_id", Mongo.Equals (VObjectId o))] ev = true ->
  (forall d, In d (before ++ after)%list ->
     Mongo.matches [("_id", Mongo.Equals (VObjectId o))] d = false
     /\ dict_get d "event_name"
        <> Some (VStr (strip (form_get (form req) "event_name" EmptyString)))) ->
  (forall k, In k (Mongo.unique_fields (events_collection w)) ->
             k = "event_name") ->
  read_max_members (form req) (read_min_members (form req)) < 2 ^ 63 ->
  let f := form req in
  let ev' :=
    Mongo.apply_set ev
      (to_bson
         [("event_name", VStr (strip (form_get f "event_name" EmptyString)));
          ("require_team_name", VBool (checkbox f "require_team_name"));
          ("min_members", VInt (read_min_members f));
          ("max_members", VInt (read_max_members f (read_min_members f)));
          ("active", VBool (checkbox f "active"));
          ("updated_at", VDatetime (utcnow e))]) in
  fst (admin_edit_event id req e w) = Redirect "admin_events"
  /\ Mongo.docs (events_collection (snd (admin_edit_event id req e w)))
     = (before ++ ev' :: after)%list
  /\ flashes (snd (admin_edit_event id req e w))
     = (flashes w ++ [("success", Msg "Event updated.")])%list.
Proof.
  intros Hadmin Hpost Hoid Hdocs Hev Hothers Huniq Hmax f ev'.
  pose proof (read_members_bounds (form req)) as Hb.
  assert (Hbefore : forall d, In d before ->
            Mongo.matches [("_id", Mongo.Equals (VObjectId o))] d = false).
  { intros d Hd. apply Hothers, in_or_app. now left. }
  unfold admin_edit_event. rewrite (admin_required_passes _ _ _ _ x Hadmin).
  unfold admin_edit_event_view. rewrite Hoid.
  unfold db_find_one. simpl get_coll.
  unfold Mongo.find_one. rewrite Hdocs, (find_at _ _ _ _ _ Hbefore Hev).
  destruct ev as [|kv ev0]; [discriminate|]. rewrite Hpost.
  unfold db_update_one. simpl get_coll.
  unfold Mongo.update_one. rewrite event_update_encodable by assumption.
  simpl negb. cbv iota. rewrite Hdocs.
  rewrite (update_first_at _ _ _ _ _ Hev before [] Hbefore); [repeat split|].
  apply collides_false. intros k d' Hk Hd'. rewrite (Huniq k Hk).
  unfold Mongo.sort_key at 1. unfold dict_get_default.
  destruct (apply_event_update (form req) (utcnow e) (kv :: ev0)) as [-> _].
  apply scalar_eqb_other_name. now apply Hothers.
Qed.

End EditEvent.

(** C4. The bounds of a stored event are the clamped bounds of the form.
    The bounds the data model prescribes for a form exist and satisfy
    [1 <= min_members <= max_members]; input that does not parse gives 1
    for the minimum and the minimum for the maximum; a form with
    [min_members = 5] and [max_members = 2] gives 5 and 5. An admin's
    create form is stored, not rejected, as a new event that carries
    exactly these bounds, and an admin's edit form gives them to the event
    edited, which stays in its place with its [_id]: provided the name is
    not the name of another event (the only unique index is the one on
    [event_name]), the maximum is below 2^63 (BSON integers have 8 bytes)
    and, for the create form, the generated identifier is new. Whatever the
    request to either route, with an admin session or without, every event
    in the collection afterwards was there before or satisfies the
    invariant. *)
Theorem event_bounds_clamped :
  (forall f, exists mn mx, spec_event_bounds f mn mx)
  /\ (forall f mn mx, spec_event_bounds f mn mx -> 1 <= mn <= mx)
  /\ (forall f s mn mx,
        form_lookup f "min_members" = Some s -> int_of_str s = None ->
        spec_event_bounds f mn mx -> mn = 1)
  /\ (forall f s mn mx,
        form_lookup f "max_members" = Some s -> int_of_str s = None ->
        spec_event_bounds f mn mx -> mx = mn)
  /\ (forall f mn mx,
        form_lookup f "min_members" = Some "5" ->
        form_lookup f "max_members" = Some "2" ->
        spec_event_bounds f mn mx -> mn = 5 /\ mx = 5)
  /\ (forall req e w x mn mx,
        session w !! "admin" = Some x ->
        method req = POST ->
        spec_event_bounds (form req) mn mx ->
        mx < 2 ^ 63 ->
        Mongo.find_one (events_collection w)
                       [("_id", Mongo.Equals (VObjectId (new_oid e)))] = None ->
        (forall k, In k (Mongo.unique_fields (events_collection w)) ->
                   k = "event_name") ->
        (forall d, In d (Mongo.docs (events_collection w)) ->
           dict_get d "event_name"
           <> Some (VStr (strip (form_get (form req) "event_name" EmptyString)))) ->
        exists d,
          Mongo.docs (events_collection (snd (admin_events req e w)))
          = (Mongo.docs (events_collection w) ++ [d])%list
          /\ dict_get d "min_members" = Some (VInt mn)
          /\ dict_get d "max_members" = Some (VInt mx)
          /\ dict_get d "event_name"
             = Some (VStr (strip (form_get (form req) "event_name" EmptyString)))
          /\ flashes (snd (admin_events req e w))
             = (flashes w ++ [("success", Msg "Event created.")])%list)
  /\ (forall id o req e w x before ev after mn mx,
        session w !! "admin" = Some x ->
        method req = POST ->
        spec_event_bounds (form req) mn mx ->
        mx < 2 ^ 63 ->
        ObjectId id = inr o ->
        Mongo.docs (events_collection w) = (before ++ ev :: after)%list ->
        Mongo.matches [("_id", Mongo.Equals (VObjectId o))] ev = true ->
        (forall d, In d (before ++ after)%list ->
           Mongo.matches [("_id", Mongo.Equals (VObjectId o))] d = false
           /\ dict_get d "event_name"
              <> Some (VStr (strip (form_get (form req) "event_name"
                                             EmptyString)))) ->
        (forall k, In k (Mongo.unique_fields (events_collection w)) ->
                   k = "event_name") ->
        exists ev',
          Mongo.docs (events_collection (snd (admin_edit_event id req e w)))
          = (before ++ ev' :: after)%list
          /\ dict_get ev' "min_members" = Some (VInt mn)
          /\ dict_get ev' "max_members" = Some (VInt mx)
          /\ dict_get ev' "_id" = dict_get ev "_id"
          /\ flashes (snd (admin_edit_event id req e w))
             = (flashes w ++ [("success", Msg "Event updated.")])%list)
  /\ (forall req e w d,
        In d (Mongo.docs (events_collection (snd (admin_events req e w)))) ->
        In d (Mongo.docs (events_collection w)) \/ event_invariant d)
  /\ (forall id req e w d,
        In d (Mongo.docs (events_collection (snd (admin_edit_event id req e w)))) ->
        In d (Mongo.docs (events_collection w)) \/ event_invariant d).
Proof.
  split.
  { intros f. exists (read_min_members f),
                    (read_max_members f (read_min_members f)).
    apply read_members_spec. split; reflexivity. }
  split.
  { intros f mn mx H. apply read_members_spec in H as [-> ->].
    apply read_members_bounds. }
  split.
  { intros f s mn mx Hs Hp [H _]. now rewrite Hs, Hp in H. }
  split.
  { intros f s mn mx Hs Hp [_ H]. now rewrite Hs, Hp in H. }
  split.
  { intros f mn mx Hmin Hmax [H1 H2]. rewrite Hmin in H1. rewrite Hmax in H2.
    vm_compute in H1. subst mn. vm_compute in H2. subst mx. split; reflexivity. }
  split.
  { intros req e w x mn mx Hadmin Hpost Hspec Hmx Hfresh Huniq Hname.
    apply read_members_spec in Hspec as [-> ->].
    destruct (admin_events_stored req e w x Hadmin Hpost Hfresh Huniq Hname Hmx)
      as (_ & Hdocs & Hflash).
    eexists. split; [exact Hdocs|]. repeat split. exact Hflash. }
  split.
  { intros id o req e w x before ev after mn mx Hadmin Hpost Hspec Hmx Hoid
           Hdocs Hev Hothers Huniq.
    apply read_members_spec in Hspec as [-> ->].
    destruct (admin_edit_event_stored id o req e w x before ev after Hadmin
                Hpost Hoid Hdocs Hev Hothers Huniq Hmx) as (_ & Hstored & Hflash).
    eexists. split; [exact Hstored|].
    destruct (apply_event_update (form req) (utcnow e) ev)
      as (_ & _ & Hmn & Hmxs & _ & _ & Hkeep).
    split; [exact Hmn|]. split; [exact Hmxs|].
    split; [|exact Hflash].
    apply Hkeep. unfold event_update_keys. simpl.
    intros [H|[H|[H|[H|[H|[H|[]]]]]]]; discriminate. }
  split; [exact admin_events_stores | exact admin_edit_event_stores].
Qed.

(** Witness of C4: an admin submits the bounds 5 and 2, once for a new
    event and once as an edit of the sample event; both are stored with a
    maximum of 5. *)
Lemma event_bounds_clamped_witness :
  (exists d,
     Mongo.docs (events_collection
                   (snd (admin_events (Sample.post Sample.event_form) Sample.env0
                           Sample.admin_world0)))
     = [Sample.hackathon; Sample.workshop; d]
     /\ dict_get d "min_members" = Some (VInt 5)
     /\ dict_get d "max_members" = Some (VInt 5))
  /\ (exists ev',
        Mongo.docs (events_collection
                      (snd (admin_edit_event Sample.hackathon_id
                              (Sample.post Sample.event_form) Sample.env0
                              Sample.admin_world1)))
        = [ev'; Sample.workshop]
        /\ dict_get ev' "min_members" = Some (VInt 5)
        /\ dict_get ev' "max_members" = Some (VInt 5)
        /\ dict_get ev' "_id" = Some (VObjectId Sample.hackathon_id)).
Proof.
  destruct event_bounds_clamped as (_ & _ & _ & _ & _ & Hcreate & Hedit & _).
  assert (Hspec : spec_event_bounds Sample.event_form 5 5)
    by (split; reflexivity).
  assert (Huniq : forall k, In k ["event_name"] -> k = "event_name")
    by (intros k [<-|[]]; reflexivity).
  split.
  - destruct (Hcreate (Sample.post Sample.event_form) Sample.env0
                Sample.admin_world0 (VBool true) 5 5 eq_refl eq_refl Hspec
                eq_refl eq_refl Huniq)
      as (d & Hdocs & Hmn & Hmx & _).
    + intros d [<-|[<-|[]]]; discriminate.
    + exists d. split; [exact Hdocs|]. split; [exact Hmn|exact Hmx].
  - destruct (Hedit Sample.hackathon_id Sample.hackathon_id
                (Sample.post Sample.event_form) Sample.env0 Sample.admin_world1
                (VBool true) [] Sample.hackathon [Sample.workshop] 5 5
                eq_refl eq_refl Hspec eq_refl eq_refl eq_refl eq_refl)
      as (ev' & Hdocs & Hmn & Hmx & Hid & _).
    + intros d [<-|[]]. split; [reflexivity|discriminate].
    + exact Huniq.
    + exists ev'. split; [exact Hdocs|]. split; [exact Hmn|].
      split; [exact Hmx|exact Hid].
Defined.



(** X19. Editing keeps the event names unique. With the unique index on
    [event_name] in place and no two events of one name, a request to
    [admin_edit_event] leaves the index in place and the names distinct;
    an admin's [POST] that would give an existing event the (stripped) name
    another event has stores nothing and flashes "Event name conflicts with
    existing event.". *)
Theorem admin_edit_event_unique_names id req e w :
  In "event_name" (Mongo.unique_fields (events_collection w)) ->
  distinct_on "event_name" (Mongo.docs (events_collection w)) ->
  let w' := snd (admin_edit_event id req e w) in
  In "event_name" (Mongo.unique_fields (events_collection w'))
  /\ distinct_on "event_name" (Mongo.docs (events_collection w'))
  /\ forall x o ev other,
       session w !! "admin" = Some x ->
       method req = POST ->
       ObjectId id = inr o ->
       Mongo.find_one (events_collection w) [("_id", Mongo.Equals (VObjectId o))]
       = Some ev ->
       In other (Mongo.docs (events_collection w)) ->
       Mongo.matches [("_id", Mongo.Equals (VObjectId o))] other = false ->
       dict_get other "event_name"
       = Some (VStr (strip (form_get (form req) "event_name" EmptyString))) ->
       read_max_members (form req) (read_min_members (form req)) < 2 ^ 63 ->
       fst (admin_edit_event id req e w) = Redirect "admin_events"
       /\ events_collection w' = events_collection w
       /\ flashes w'
          = (flashes w
             ++ [("error", Msg "Event name conflicts with existing event.")])%list.
Proof.
  intros Hidx Hdist w'.
  assert (Hkeep : In "event_name" (Mongo.unique_fields (events_collection w'))
                  /\ distinct_on "event_name" (Mongo.docs (events_collection w'))).
  { destruct (session w !! "admin") as [x|] eqn:Hadmin.
    - destruct (admin_edit_event_world id req e w x Hadmin)
        as [(He & _) | (o & r & c' & _ & _ & Hupd & He & _)]; fold w' in He;
        rewrite He; [auto|].
      split.
      + apply update_one_result in Hupd as [-> _]. exact Hidx.
      + exact (update_one_distinct _ _ _ _ _ _ Hidx Hupd Hdist).
    - unfold w', admin_edit_event, admin_required. rewrite Hadmin. auto. }
  split; [apply Hkeep|]. split; [apply Hkeep|].
  intros x o ev other Hadmin Hpost Hoid Hfind Hin Hno Hname Hmax.
  pose proof (read_members_bounds (form req)) as Hb.
  unfold w', admin_edit_event.
  rewrite (admin_required_passes _ _ _ _ x Hadmin).
  unfold admin_edit_event_view. rewrite Hoid.
  unfold db_find_one. simpl get_coll. rewrite Hfind.
  pose proof (find_some _ _ Hfind) as [Hev Hmatch].
  destruct ev as [|kv ev]; [discriminate|]. rewrite Hpost.
  unfold db_update_one. simpl get_coll.
  unfold Mongo.update_one. rewrite event_update_encodable by assumption.
  simpl negb. cbv iota.
  rewrite (update_first_conflict "event_name" _ _ _ other Hidx Hno).
  - simpl. auto.
  - intros d. unfold Mongo.sort_key, dict_get_default.
    destruct (apply_event_update (form req) (utcnow e) d) as [-> _].
    rewrite Hname. simpl. apply String.eqb_refl.
  - now right.
  - exists (kv :: ev). auto.
Qed.

Lemma admin_edit_event_unique_names_witness :
  let req := Sample.post [("event_name", " Workshop "); ("active", "on")] in
  let w' := snd (admin_edit_event Sample.hackathon_id req Sample.env0
                   Sample.admin_world1) in
  events_collection w' = events_collection Sample.admin_world1
  /\ flashes w'
     = [("error", Msg "Event name conflicts with existing event.")].
Proof.
  intros req w'.
  destruct (admin_edit_event_unique_names Sample.hackathon_id req Sample.env0
              Sample.admin_world1 (or_introl eq_refl) eq_refl)
    as (_ & _ & Hc).
  destruct (Hc (VBool true) Sample.hackathon_id Sample.hackathon Sample.workshop
              eq_refl eq_refl eq_refl eq_refl (or_intror (or_introl eq_refl))
              eq_refl eq_refl eq_refl) as (_ & He & Hf).
  split; [exact He | exact Hf].
Defined.
